(** * Neurelo Connect MCP server

    A shallow embedding of the protocol adapter: the engine client facade
    (engine-client.ts), the JSON-Schema to validator compiler and the tool
    registrar (mcp.ts), and the message endpoint of the streaming HTTP
    transport.  Promises are modelled by their settlement (a sum of the
    rejection value and the resolution value), thrown values by an explicit
    error type, and the mutable MCP server by explicit state passing. *)

From Stdlib Require Import ZArith String List Bool Ascii.
From stdpp Require Import gmap strings list fin_maps pretty.
Import ListNotations.
Open Scope string_scope.
Open Scope list_scope.
Set Warnings "-register-all".

(** ** JavaScript values *)

(** A JavaScript number other than [NaN] and the infinities, by its decimal
    digits: the value is [mantissa * 10 ^ exponent].  A number stands in the
    digits that JavaScript prints for it, the shortest that identify it. *)
Record JsNumber : Type := {
  mantissa : Z;
  exponent : Z;
}.
Bind Scope Z_scope with JsNumber.

Definition integer (n : Z) : JsNumber := {| mantissa := n; exponent := 0 |}.
Coercion integer : Z >-> JsNumber.

(** JSON values ([type Json] of engine-client.ts).  An object is the list
    of its own properties in enumeration order: the keys are distinct, and
    keys that are array indices, which JavaScript enumerates first, come
    first. *)
Inductive Json : Type :=
| JNull
| JBool (b : bool)
| JNum (n : JsNumber)
| JStr (s : string)
| JArr (items : list Json)
| JObj (fields : list (string * Json)).

(** The digits of a positive integer without the zeros at their end, and
    the number of zeros taken off. *)
Fixpoint strip_zeros (digits : string) : string * nat :=
  match digits with
  | "" => ("", 0)
  | String c rest =>
      let '(stripped, count) := strip_zeros rest in
      if Ascii.eqb c "0" && String.eqb stripped "" then ("", S count)
      else (String c stripped, count)
  end.

Fixpoint zeros (n : nat) : string :=
  match n with
  | 0 => ""
  | S n' => String "0" (zeros n')
  end.

(** [Number::toString(x)] in radix 10: with [k] significant digits and the
    decimal point after the first [n] of them, a number is printed in full
    when [n] is between -5 and 21 and with an exponent otherwise. *)
Definition number_to_string (x : JsNumber) : string :=
  if Z.eqb (mantissa x) 0 then "0"
  else
    let '(s, z) := strip_zeros (pretty (Z.abs (mantissa x))) in
    let k := Z.of_nat (String.length s) in
    let n := (k + Z.of_nat z + exponent x)%Z in
    (if Z.ltb (mantissa x) 0 then "-" else "") +:+
    (if Z.leb k n && Z.leb n 21 then s +:+ zeros (Z.to_nat (n - k))
     else if Z.ltb 0 n && Z.leb n 21 then
       String.substring 0 (Z.to_nat n) s +:+ "." +:+
       String.substring (Z.to_nat n) (String.length s - Z.to_nat n) s
     else if Z.ltb (-6) n && Z.leb n 0 then "0." +:+ zeros (Z.to_nat (- n)) +:+ s
     else
       String.substring 0 1 s +:+
       (if Nat.eqb (String.length s) 1 then ""
        else "." +:+ String.substring 1 (String.length s - 1) s) +:+
       "e" +:+ (if Z.ltb (n - 1) 0 then "-" else "+") +:+ pretty (Z.abs (n - 1))).

(** [x === y] on numbers: the same number prints the same digits. *)
Definition number_eqb (x y : JsNumber) : bool :=
  String.eqb (number_to_string x) (number_to_string y).

(** [Number.isInteger(x)] *)
Definition is_integer (x : JsNumber) : bool :=
  Z.eqb (mantissa x) 0
  || Z.leb 0 (Z.of_nat (strip_zeros (pretty (Z.abs (mantissa x)))).2 + exponent x).

Fixpoint join (sep : string) (parts : list string) : string :=
  match parts with
  | [] => ""
  | [part] => part
  | part :: rest => part +:+ sep +:+ join sep rest
  end.

(** [String(value)]: a string is kept; a number and a boolean are printed;
    an array is the texts of its elements joined by commas, with nothing
    for [null]; an object literal is ["[object Object]"]. *)
Fixpoint js_String (value : Json) : string :=
  match value with
  | JNull => "null"
  | JBool true => "true"
  | JBool false => "false"
  | JNum x => number_to_string x
  | JStr s => s
  | JArr items =>
      join "," (map (fun item => match item with
                                 | JNull => ""
                                 | _ => js_String item
                                 end) items)
  | JObj _ => "[object Object]"
  end.

(** The nullish coalescing operator [a ?? b] on a possibly undefined
    value, and on a possibly undefined or null JSON value. *)
Definition nullish {A : Type} (a : option A) (b : A) : A :=
  match a with
  | Some x => x
  | None => b
  end.

Infix "??" := nullish (at level 45, left associativity).

Definition nullish_json (a : option Json) (b : Json) : Json :=
  match a with
  | Some JNull => b
  | Some x => x
  | None => b
  end.

(** Property lookup in an object literal's own properties. *)
Fixpoint get_field (key : string) (fields : list (string * Json)) : option Json :=
  match fields with
  | [] => None
  | (k, v) :: rest => if String.eqb k key then Some v else get_field key rest
  end.

(** JavaScript truthiness of a possibly undefined JSON value. *)
Definition truthy (v : option Json) : bool :=
  match v with
  | None => false
  | Some JNull => false
  | Some (JBool b) => b
  | Some (JNum n) => negb (Z.eqb (mantissa n) 0)
  | Some (JStr s) => negb (String.eqb s "")
  | Some (JArr _) => true
  | Some (JObj _) => true
  end.

(** ** Thrown values *)

Record AxiosRequestConfig : Type := {
  config_method : option string;
  config_url : option string;
}.

Definition Headers : Type := list (string * string).

(** A response as axios delivers it; [res_data] of an error response is
    whatever the body parsed to, or nothing. *)
Record AxiosResponse (T : Type) : Type := {
  res_data : T;
  res_status : Z;
  res_headers : Headers;
}.
Arguments res_data {T} _.
Arguments res_status {T} _.
Arguments res_headers {T} _.

Record AxiosError : Type := {
  error_config : option AxiosRequestConfig;
  error_response : option (AxiosResponse (option Json));
}.

(** [class EngineCallError extends Error]. *)
Record EngineCallError : Type := {
  ece_message : string;
  ece_name : string;
  ece_status : option Z;
  ece_headers : option Headers;
  ece_error : option Json;
}.

(** Everything that the modelled code throws or rejects with. *)
Inductive Thrown : Type :=
| ThrownError (name message : string) (cause : option Thrown) (sourceSchema : option Json)
| ThrownAxiosError (e : AxiosError)
| ThrownEngineCallError (e : EngineCallError)
| ThrownValue (v : Json).

(** A settled promise: rejected with a thrown value or resolved. *)
Definition Promise (T : Type) : Type := (Thrown + T)%type.

Definition promise_then {A B : Type} (p : Promise A) (f : A -> B) : Promise B :=
  match p with
  | inl e => inl e
  | inr a => inr (f a)
  end.

(** [p.catch(h)] for a handler of type [never]: the handler's own throw
    replaces the rejection. *)
Definition promise_catch {A : Type} (p : Promise A) (h : Thrown -> Thrown) : Promise A :=
  match p with
  | inl e => inl (h e)
  | inr a => inr a
  end.

(** ** Endpoint metadata (openapi: QueryParameter, EndpointMetadata) *)

Record QueryParameter : Type := {
  param_description : string;
  param_schema : option Json;
  param_optional : bool;
}.

Record EndpointMetadata : Type := {
  description : option string;
  path : string;
  requestMethod : string;
  params : list (string * QueryParameter);
}.

(** ** Engine client facade (engine-client.ts) *)

Definition new_EngineCallError (method url : string) (status : option Z)
    (headers : option Headers) (error : option Json) : EngineCallError :=
  {| ece_message := "Error calling " +:+ method +:+ " " +:+ url;
     ece_name := "EngineCallError";
     ece_status := status;
     ece_headers := headers;
     ece_error := error |}.

(** [function handleError(error: unknown): never]: the value it throws. *)
Definition handleError (error : Thrown) : Thrown :=
  match error with
  | ThrownAxiosError e =>
      ThrownEngineCallError
        (new_EngineCallError
           ((error_config e ≫= config_method) ?? "unknown")
           ((error_config e ≫= config_url) ?? "unknown")
           (res_status <$> error_response e)
           (res_headers <$> error_response e)
           (Some (nullish_json (error_response e ≫= res_data) (JObj []))))
  | _ => error
  end.

Record ExecuteRequestArgs : Type := {
  args_path : string;
  args_requestMethod : string;
  args_parameters : list (string * Json);
}.

(** The body of [GET /endpoints]: [{ data: EndpointMetadata[] }]. *)
Record GetEndpoints200Response : Type := {
  data : list EndpointMetadata;
}.

(** The generated HTTP client ([DefaultApiFactory]), an external
    collaborator: every operation is a settled axios promise. *)
Record RawOpenapiClient : Type := {
  raw_getEndpoints : Promise (AxiosResponse GetEndpoints200Response);
  raw_getStatus : Promise (AxiosResponse Json);
  raw_getTargets : Promise (AxiosResponse Json);
  raw_getTargetDbStatus : string -> Promise (AxiosResponse Json);
  raw_getSchema : string -> Promise (AxiosResponse Json);
  raw_executeReadonlyQuery : string -> string -> Promise (AxiosResponse Json);
  raw_executeReadWriteQuery : string -> string -> Promise (AxiosResponse Json);
  raw_executeEndpointOnGet : string -> list (string * string) -> Promise (AxiosResponse Json);
  raw_executeEndpointOnPost : string -> list (string * Json) -> Promise (AxiosResponse Json);
}.

(** [type EngineClient]: the sanitized client plus [executeRequest]. *)
Record EngineClient : Type := {
  getEndpoints : Promise GetEndpoints200Response;
  getStatus : Promise Json;
  getTargets : Promise Json;
  getTargetDbStatus : string -> Promise Json;
  getSchema : string -> Promise Json;
  executeReadonlyQuery : string -> string -> Promise Json;
  executeReadWriteQuery : string -> string -> Promise Json;
  executeRequest : ExecuteRequestArgs -> Promise Json;
}.

(** [.then((res) => res.data).catch(handleError)] *)
Definition facade {T : Type} (p : Promise (AxiosResponse T)) : Promise T :=
  promise_catch (promise_then p res_data) handleError.

(** An own property is defined on an object: one that is there keeps its
    place and takes the value, a new one goes to the end. *)
Fixpoint define_property {A : Type} (object : list (string * A)) (key : string) (value : A)
    : list (string * A) :=
  match object with
  | [] => [(key, value)]
  | (k, v) :: rest =>
      if String.eqb k key then (k, value) :: rest
      else (k, v) :: define_property rest key value
  end.

(** [object[key] = value] on an object literal for a value that is not an
    object: the key ["__proto__"] reaches the setter that the object
    inherits, which ignores such a value; any other key defines an own
    property. *)
Definition assign_property {A : Type} (object : list (string * A)) (key : string) (value : A)
    : list (string * A) :=
  if String.eqb key "__proto__" then object else define_property object key value.

(** The loop [for (const [key, value] of Object.entries(args.parameters))
    parameters[key] = String(value)], starting from the empty object. *)
Definition stringify_parameters (parameters : list (string * Json)) : list (string * string) :=
  foldl (fun (acc : list (string * string)) (entry : string * Json) =>
           assign_property acc entry.1 (js_String entry.2))
        [] parameters.

Definition createEngineClient (base : RawOpenapiClient) : EngineClient :=
  {| executeRequest := fun args =>
       if String.eqb (args_requestMethod args) "GET" then
         facade (raw_executeEndpointOnGet base (args_path args)
                   (stringify_parameters (args_parameters args)))
       else
         facade (raw_executeEndpointOnPost base (args_path args) (args_parameters args));
     getEndpoints := facade (raw_getEndpoints base);
     getStatus := facade (raw_getStatus base);
     getTargetDbStatus := fun slug => facade (raw_getTargetDbStatus base slug);
     executeReadonlyQuery := fun slug body => facade (raw_executeReadonlyQuery base slug body);
     executeReadWriteQuery := fun slug body => facade (raw_executeReadWriteQuery base slug body);
     getSchema := fun slug => facade (raw_getSchema base slug);
     getTargets := facade (raw_getTargets base) |}.

(** [testEngineClient]: the mock facade of test mode. *)
Definition testEngineClient : EngineClient :=
  {| getEndpoints :=
       inr {| data := [ {| description := Some "Test endpoint";
                           path := "test";
                           requestMethod := "GET";
                           params := [] |} ] |};
     getTargets :=
       inr (JObj [("data", JArr [
         JObj [("slug", JStr "test-clickhouse");
               ("description", JStr "Test ClickHouse database");
               ("engineType", JStr "clickhouse")];
         JObj [("slug", JStr "test-postgres");
               ("description", JStr "Test Postgres database");
               ("engineType", JStr "postgres")];
         JObj [("slug", JStr "test-db-down");
               ("description", JStr "Test database that is down");
               ("engineType", JStr "postgres")]])]);
     getStatus := inr (JObj [("ok", JBool true)]);
     getTargetDbStatus := fun targetSlug =>
       inr (JObj [("ok", JBool (negb (String.eqb targetSlug "test-db-down")))]);
     executeReadonlyQuery := fun target query =>
       inr (JObj [("target", JStr target); ("query", JStr query)]);
     executeReadWriteQuery := fun target query =>
       inr (JObj [("target", JStr target); ("query", JStr query)]);
     getSchema := fun target =>
       inr (JObj [("target", JStr target);
                  ("schema", JObj [("columns",
                     JArr [JObj [("name", JStr "i"); ("type", JStr "UInt64")]])])]);
     executeRequest := fun args =>
       inr (JObj [("args", JObj [
         ("path", JStr (args_path args));
         ("requestMethod", JStr (args_requestMethod args));
         ("parameters", JObj (args_parameters args))])]) |}.

(** ** Text helpers: [JSON.stringify] and [String.prototype.replace] *)

Definition dquote : ascii := "034"%char.
Definition backslash : ascii := "092"%char.
Definition newline : ascii := "010"%char.

Definition hex_digit (n : nat) : ascii :=
  nth n ["0"; "1"; "2"; "3"; "4"; "5"; "6"; "7"; "8"; "9"; "a"; "b"; "c"; "d"; "e"; "f"]%char
    "0"%char.

(** The escape of one character inside a JSON string literal. *)
Definition escape_char (c : ascii) : string :=
  let n := nat_of_ascii c in
  if Ascii.eqb c dquote then String backslash (String dquote "")
  else if Ascii.eqb c backslash then String backslash (String backslash "")
  else if Nat.eqb n 8 then String backslash "b"
  else if Nat.eqb n 9 then String backslash "t"
  else if Nat.eqb n 10 then String backslash "n"
  else if Nat.eqb n 12 then String backslash "f"
  else if Nat.eqb n 13 then String backslash "r"
  else if Nat.ltb n 32 then
    String backslash ("u00" +:+ String (hex_digit (n / 16)) (String (hex_digit (n mod 16)) ""))
  else String c "".

Fixpoint escape_chars (s : string) : string :=
  match s with
  | "" => ""
  | String c rest => escape_char c +:+ escape_chars rest
  end.

(** [JSON.stringify(s)] for a string [s]. *)
Definition quote_string (s : string) : string :=
  String dquote (escape_chars s +:+ String dquote "").

(** [JSON.stringify(value, null, gap)]: [gap] is the indentation unit (empty
    for the compact form) and [cur] the current indentation. *)
Fixpoint stringify (gap cur : string) (value : Json) : string :=
  let inner := cur +:+ gap in
  let opening := if String.eqb gap "" then "" else String newline inner in
  let closing := if String.eqb gap "" then "" else String newline cur in
  let colon := if String.eqb gap "" then ":" else ": " in
  match value with
  | JNull => "null"
  | JBool true => "true"
  | JBool false => "false"
  | JNum n => number_to_string n
  | JStr s => quote_string s
  | JArr [] => "[]"
  | JArr items =>
      "[" +:+ opening +:+ join ("," +:+ opening) (map (stringify gap inner) items)
          +:+ closing +:+ "]"
  | JObj [] => "{}"
  | JObj fields =>
      "{" +:+ opening
          +:+ join ("," +:+ opening)
                (map (fun kv : string * Json =>
                        quote_string kv.1 +:+ colon +:+ stringify gap inner kv.2) fields)
          +:+ closing +:+ "}"
  end.

Definition JSON_stringify (value : Json) : string := stringify "" "" value.
Definition JSON_stringify_indent2 (value : Json) : string := stringify "  " "" value.

(** [strip_prefix p s] is the rest of [s] after its prefix [p]. *)
Fixpoint strip_prefix (p s : string) : option string :=
  match p, s with
  | "", _ => Some s
  | String a p', String b s' => if Ascii.eqb a b then strip_prefix p' s' else None
  | String _ _, "" => None
  end.

(** [s.replace(/pattern/, "")] for a pattern that is a literal text and has
    no global flag: the first occurrence is removed, the rest is kept. *)
Fixpoint replace_first (pattern s : string) : string :=
  match strip_prefix pattern s with
  | Some rest => rest
  | None =>
      match s with
      | "" => ""
      | String c s' => String c (replace_first pattern s')
      end
  end.

(** ** Validators (the zod objects the compiler produces)

    The validators of the [zod] package that the generated code can build.
    [ZodOneOf] is [z.any().superRefine(...)] with the refinement that exactly
    one of the listed schemas passes; [ZodInteger] is [z.number().int()]. *)

Inductive UnknownKeys : Type := strip | strict.

Inductive ZodSchema : Type :=
| ZodAny
| ZodNever
| ZodString
| ZodNumber
| ZodInteger
| ZodBoolean
| ZodNull
| ZodLiteral (value : Json)
| ZodEnum (values : list string)
| ZodUnion (options : list ZodSchema)
| ZodArray (element : ZodSchema)
| ZodRecord (valueType : ZodSchema)
| ZodObject (shape : list (string * ZodSchema)) (unknownKeys : UnknownKeys)
    (catchall : option ZodSchema)
| ZodOptional (innerType : ZodSchema)
| ZodOneOf (schemas : list ZodSchema)
| ZodDescribed (innerType : ZodSchema) (text : string).

(** [a === b] for a literal [a]: primitives compare by value, objects and
    arrays by identity (never equal to parsed input). *)
Definition strict_equal (a b : Json) : bool :=
  match a, b with
  | JNull, JNull => true
  | JBool x, JBool y => Bool.eqb x y
  | JNum x, JNum y => number_eqb x y
  | JStr x, JStr y => String.eqb x y
  | _, _ => false
  end.

Definition has_key {A : Type} (key : string) (entries : list (string * A)) : bool :=
  existsb (fun kv : string * A => String.eqb kv.1 key) entries.

(** [schema.safeParse(input).success]; [None] is [undefined].  An object
    validator reads [data[key]] for the keys of its shape; here that is the
    own property, so a shape with a key that objects inherit from
    [Object.prototype] is outside this model, and no property below is
    about such a shape. *)
Fixpoint safeParse (schema : ZodSchema) (input : option Json) {struct schema} : bool :=
  match schema with
  | ZodAny => true
  | ZodNever => false
  | ZodString => match input with Some (JStr _) => true | _ => false end
  | ZodNumber => match input with Some (JNum _) => true | _ => false end
  | ZodInteger => match input with Some (JNum x) => is_integer x | _ => false end
  | ZodBoolean => match input with Some (JBool _) => true | _ => false end
  | ZodNull => match input with Some JNull => true | _ => false end
  | ZodLiteral value =>
      match input with Some x => strict_equal value x | None => false end
  | ZodEnum values =>
      match input with
      | Some (JStr s) => existsb (String.eqb s) values
      | _ => false
      end
  | ZodUnion options => existsb (fun option => safeParse option input) options
  | ZodArray element =>
      match input with
      | Some (JArr items) => forallb (fun item => safeParse element (Some item)) items
      | _ => false
      end
  | ZodRecord valueType =>
      match input with
      | Some (JObj fields) =>
          forallb (fun kv : string * Json => safeParse valueType (Some kv.2)) fields
      | _ => false
      end
  | ZodObject shape unknownKeys catchall =>
      match input with
      | Some (JObj fields) =>
          forallb (fun entry : string * ZodSchema =>
                     safeParse entry.2 (get_field entry.1 fields)) shape
          && forallb (fun kv : string * Json =>
                        has_key kv.1 shape
                        || match catchall with
                           | Some extra => safeParse extra (Some kv.2)
                           | None => match unknownKeys with strip => true | strict => false end
                           end) fields
      | _ => false
      end
  | ZodOptional innerType =>
      match input with
      | None => true
      | Some _ => safeParse innerType input
      end
  | ZodOneOf schemas =>
      Nat.eqb (length (List.filter (fun s => safeParse s input) schemas)) 1
  | ZodDescribed innerType _ => safeParse innerType input
  end.

(** ** The MCP server object (the SDK's [McpServer]) *)

Record TextContent : Type := {
  content_type : string;
  content_mimeType : string;
  content_text : string;
}.

Record CallToolResult : Type := {
  content : list TextContent;
}.

(** The argument object a tool callback receives. *)
Definition ToolArguments : Type := list (string * Json).

Record RegisteredTool : Type := {
  tool_description : string;
  tool_inputSchema : option (list (string * ZodSchema));
  tool_callback : ToolArguments -> Promise CallToolResult;
}.

(** [_registeredTools] in registration order. *)
Record McpServer : Type := {
  server_name : string;
  server_version : string;
  _registeredTools : list (string * RegisteredTool);
}.

(** What startup has done so far: the server it is filling and the calls
    it made to the engine. *)
Inductive EngineCall : Type := CallGetEndpoints.

Record State : Type := {
  server : McpServer;
  engine_calls : list EngineCall;
}.

(** Startup code: it reads and updates the state and either throws or
    returns. *)
Definition M (A : Type) : Type := State -> (Thrown + A) * State.

Definition ret {A : Type} (a : A) : M A := fun st => (inr a, st).

Definition throw {A : Type} (e : Thrown) : M A := fun st => (inl e, st).

Definition bind {A B : Type} (m : M A) (k : A -> M B) : M B :=
  fun st =>
    match m st with
    | (inl e, st') => (inl e, st')
    | (inr a, st') => k a st'
    end.

Notation "'do' x <- m ; k" := (bind m (fun x => k))
  (at level 10, x name, m at level 100, k at level 200).
Notation "m ;; k" := (bind m (fun _ => k))
  (at level 100, k at level 200, right associativity).

(** A synchronous computation that throws or returns, run inside startup. *)
Definition lift {A : Type} (r : Thrown + A) : M A :=
  match r with
  | inl e => throw e
  | inr a => ret a
  end.

Definition when (b : bool) (m : M unit) : M unit := if b then m else ret tt.

Definition registered (toolName : string) (s : McpServer) : bool :=
  has_key toolName (_registeredTools s).

(** [server.tool(name, description, paramsSchema?, cb)]: the SDK refuses a
    name that is already registered and adds the tool otherwise. *)
Definition server_tool (toolName toolDescription : string)
    (paramsSchema : option (list (string * ZodSchema)))
    (cb : ToolArguments -> Promise CallToolResult) : M unit :=
  fun st =>
    if registered toolName (server st) then
      (inl (ThrownError "Error" ("Tool " +:+ toolName +:+ " is already registered") None None), st)
    else
      (inr tt,
       {| server :=
            {| server_name := server_name (server st);
               server_version := server_version (server st);
               _registeredTools :=
                 _registeredTools (server st)
                   ++ [(toolName,
                        {| tool_description := toolDescription;
                           tool_inputSchema := paramsSchema;
                           tool_callback := cb |})] |};
          engine_calls := engine_calls st |}).

(** [await engine.getEndpoints()] during startup. *)
Definition await_getEndpoints (engine : EngineClient) : M GetEndpoints200Response :=
  fun st =>
    (getEndpoints engine,
     {| server := server st; engine_calls := engine_calls st ++ [CallGetEndpoints] |}).

(** The result every tool returns: one text block holding the JSON. *)
Definition json_content (result : Json) : CallToolResult :=
  {| content := [ {| content_type := "text";
                     content_mimeType := "application/json";
                     content_text := JSON_stringify result |} ] |}.

(** [args.<key>] of a validated string argument. *)
Definition string_argument (key : string) (args : ToolArguments) : string :=
  match get_field key args with
  | Some (JStr s) => s
  | _ => ""
  end.

(** ** Options of the server (main.ts, [MCPOptions]) *)

Record MCPOptions : Type := {
  name : string;
  toolPrefix : option string;
  dynamicEndpointTools : bool;
  testMode : option bool;
  engineBasePath : option string;
  engineApiKey : option string;
  disableTools : option (list string);
  port : option string;
}.

(** [disableTools?.includes(x)], read as a condition. *)
Definition includes (list : option (list string)) (x : string) : bool :=
  match list with
  | None => false
  | Some l => existsb (String.eqb x) l
  end.

(** [`${toolPrefix ? `${toolPrefix}_` : ""}${base}`] *)
Definition prefixed (toolPrefix : option string) (base : string) : string :=
  match toolPrefix with
  | Some p => if String.eqb p "" then base else p +:+ "_" +:+ base
  | None => base
  end.

(** [version] of package.json. *)
Definition version : string := "0.0.2-16".

Definition new_McpServer (serverName : string) : State :=
  {| server := {| server_name := serverName;
                  server_version := version;
                  _registeredTools := [] |};
     engine_calls := [] |}.

(** [map] with a callback that may throw: the first throw ends it. *)
Fixpoint map_throwing {A B : Type} (f : A -> Thrown + B) (l : list A) : Thrown + list B :=
  match l with
  | [] => inr []
  | a :: rest =>
      match f a with
      | inl e => inl e
      | inr b =>
          match map_throwing f rest with
          | inl e => inl e
          | inr bs => inr (b :: bs)
          end
      end
  end.

(** Which transport the started server listens on. *)
Inductive Transport : Type :=
| SseOnPort (listenPort : string)
| Stdio.

(** ** The compiler and the registrar (mcp.ts)

    The packages the code calls into are parameters: [jsonSchemaToZod]
    (json-schema-to-zod) turns a schema into the text of a zod expression or
    throws, [newFunction body] is [new Function("z", body)(z)], the
    evaluation of that text with the zod library in scope, and
    [DefaultApiFactory] builds the HTTP client for a base path and key. *)

Section Registrar.

Variable jsonSchemaToZod : Json -> Thrown + string.
Variable newFunction : string -> Thrown + ZodSchema.
Variable DefaultApiFactory : option string -> option string -> RawOpenapiClient.

(** [const tsAnnotationRegex = /<z\.ZodError\[\]>/] *)
Definition tsAnnotationRegex : string := "<z.ZodError[]>".

Definition getZodSchemaFromJsonSchema (jsonSchema : Json) : Thrown + ZodSchema :=
  match jsonSchemaToZod jsonSchema with
  | inl cause =>
      inl (ThrownError "ZodSchemaConversionError"
             ("Failed to convert JSON schema to Zod schema: "
                +:+ JSON_stringify_indent2 jsonSchema)
             (Some cause) (Some jsonSchema))
  | inr zodSchemaString =>
      let functionString :=
        "return " +:+ replace_first tsAnnotationRegex zodSchemaString +:+ ";" in
      newFunction functionString
  end.

(** The callback of [Object.entries(endpoint.params).map(...)]. *)
Definition compileParameter (endpoint : EndpointMetadata)
    (entry : string * QueryParameter) : Thrown + (string * ZodSchema) :=
  let '(paramName, param) := entry in
  match param_schema param with
  | Some jsonSchema =>
      if truthy (Some jsonSchema) then
        match getZodSchemaFromJsonSchema jsonSchema with
        | inl e => inl e
        | inr schema =>
            let schema := if param_optional param then ZodOptional schema else schema in
            inr (paramName, ZodDescribed schema (param_description param))
        end
      else
        inl (ThrownError "Error"
               ("No schema found for parameter " +:+ paramName
                  +:+ " in endpoint " +:+ path endpoint) None None)
  | None =>
      inl (ThrownError "Error"
             ("No schema found for parameter " +:+ paramName
                +:+ " in endpoint " +:+ path endpoint) None None)
  end.

(** The tool callback of an endpoint. *)
Definition endpoint_callback (engine : EngineClient) (endpoint : EndpointMetadata)
    (args : ToolArguments) : Promise CallToolResult :=
  promise_then
    (executeRequest engine
       {| args_path := path endpoint;
          args_requestMethod := requestMethod endpoint;
          args_parameters := args |})
    json_content.

Definition endpoint_description (endpoint : EndpointMetadata) : string :=
  "Defined Query"
    +:+ match description endpoint with
        | Some d => if String.eqb d "" then "" else ": " +:+ d
        | None => ""
        end.

(** One turn of the loop of [addEndpoints]. *)
Definition addEndpoint (engine : EngineClient) (toolPrefix : option string)
    (disableTools : option (list string)) (endpoint : EndpointMetadata) : M unit :=
  do parameterEntries <- lift (map_throwing (compileParameter endpoint) (params endpoint));
  when (negb (includes disableTools ("query_" +:+ path endpoint)))
    (server_tool (prefixed toolPrefix ("query_" +:+ path endpoint))
       (endpoint_description endpoint)
       (Some parameterEntries)
       (endpoint_callback engine endpoint)).

Fixpoint addEndpoints (engine : EngineClient) (endpoints : list EndpointMetadata)
    (toolPrefix : option string) (disableTools : option (list string)) : M unit :=
  match endpoints with
  | [] => ret tt
  | endpoint :: rest =>
      addEndpoint engine toolPrefix disableTools endpoint ;;
      addEndpoints engine rest toolPrefix disableTools
  end.

(** The names of the built-in tools, in registration order. *)
Definition builtin_names : list string :=
  ["system_list_databases"; "system_get_database_status"; "system_get_status";
   "system_get_database_schema"; "raw_readonly_query"; "raw_query"].

Definition target_shape : list (string * ZodSchema) := [("target", ZodString)].

Definition query_shape : list (string * ZodSchema) :=
  [("target", ZodDescribed ZodString "The database to query");
   ("query", ZodDescribed ZodString "The query to execute")].

(** The shape of [call_endpoint]'s arguments. *)
Definition call_endpoint_shape : list (string * ZodSchema) :=
  [("path", ZodString);
   ("requestMethod", ZodString);
   ("parameters", ZodRecord (ZodUnion [ZodString; ZodNumber; ZodBoolean]))].

(** The six built-in tools: description, argument shape, callback. *)
Definition system_list_databases (engine : EngineClient) : RegisteredTool :=
  {| tool_description := "List all the available databases";
     tool_inputSchema := None;
     tool_callback := fun _ => promise_then (getTargets engine) json_content |}.

Definition system_get_database_status (engine : EngineClient) : RegisteredTool :=
  {| tool_description := "Get the status of a given database";
     tool_inputSchema := Some target_shape;
     tool_callback := fun args =>
       promise_then (getTargetDbStatus engine (string_argument "target" args)) json_content |}.

Definition system_get_status (engine : EngineClient) : RegisteredTool :=
  {| tool_description := "Check if all databases are running";
     tool_inputSchema := Some [];
     tool_callback := fun _ => promise_then (getStatus engine) json_content |}.

Definition system_get_database_schema (engine : EngineClient) : RegisteredTool :=
  {| tool_description := "Get the schema for a given database";
     tool_inputSchema := Some target_shape;
     tool_callback := fun args =>
       promise_then (getSchema engine (string_argument "target" args)) json_content |}.

Definition raw_readonly_query (engine : EngineClient) : RegisteredTool :=
  {| tool_description := "Execute a raw query against a database with readonly access. Can only be called if the database allows raw readonly queries.";
     tool_inputSchema := Some query_shape;
     tool_callback := fun args =>
       promise_then
         (executeReadonlyQuery engine (string_argument "target" args)
            (string_argument "query" args)) json_content |}.

Definition raw_query (engine : EngineClient) : RegisteredTool :=
  {| tool_description := "Execute a raw query against a database with read/write access. Can only be called if the database allows raw read/write queries.";
     tool_inputSchema := Some query_shape;
     tool_callback := fun args =>
       promise_then
         (executeReadWriteQuery engine (string_argument "target" args)
            (string_argument "query" args)) json_content |}.

(** The built-in tools by name, in registration order. *)
Definition builtin_tools (engine : EngineClient) : list (string * RegisteredTool) :=
  [("system_list_databases", system_list_databases engine);
   ("system_get_database_status", system_get_database_status engine);
   ("system_get_status", system_get_status engine);
   ("system_get_database_schema", system_get_database_schema engine);
   ("raw_readonly_query", raw_readonly_query engine);
   ("raw_query", raw_query engine)].

(** [if (!disableTools?.includes(base)) server.tool(prefix + base, ...)] *)
Definition register_builtin (toolPrefix : option string)
    (disableTools : option (list string)) (base : string) (tool : RegisteredTool) : M unit :=
  when (negb (includes disableTools base))
    (server_tool (prefixed toolPrefix base) (tool_description tool)
       (tool_inputSchema tool) (tool_callback tool)).

(** An endpoint's metadata as the JSON it was received as. *)
Definition parameter_json (param : QueryParameter) : Json :=
  JObj ([("description", JStr (param_description param))]
          ++ match param_schema param with
             | Some jsonSchema => [("schema", jsonSchema)]
             | None => []
             end
          ++ [("optional", JBool (param_optional param))]).

Definition endpoint_json (endpoint : EndpointMetadata) : Json :=
  JObj (match description endpoint with
        | Some d => [("description", JStr d)]
        | None => []
        end
          ++ [("path", JStr (path endpoint));
              ("requestMethod", JStr (requestMethod endpoint));
              ("params",
               JObj (map (fun entry : string * QueryParameter =>
                            (entry.1, parameter_json entry.2))
                       (params endpoint)))]).

Definition system_get_endpoints_callback (engine : EngineClient)
    (args : ToolArguments) : Promise CallToolResult :=
  promise_then (getEndpoints engine)
    (fun endpoints => json_content (JArr (map endpoint_json (data endpoints)))).

Definition call_endpoint_callback (engine : EngineClient)
    (args : ToolArguments) : Promise CallToolResult :=
  promise_then
    (executeRequest engine
       {| args_path := string_argument "path" args;
          args_requestMethod := string_argument "requestMethod" args;
          args_parameters :=
            match get_field "parameters" args with
            | Some (JObj fields) => fields
            | _ => []
            end |})
    json_content.

(** [if (testMode) engine = testEngineClient; else engine = createEngineClient(...)] *)
Definition select_engine (options : MCPOptions) : EngineClient :=
  match testMode options with
  | Some true => testEngineClient
  | _ => createEngineClient
           (DefaultApiFactory (engineBasePath options) (engineApiKey options))
  end.

(** The last step: which transport the server is connected to. *)
Definition select_transport (options : MCPOptions) : Transport :=
  match port options with
  | Some p => if String.eqb p "" then Stdio else SseOnPort p
  | None => Stdio
  end.

Definition startMcpServer (options : MCPOptions) : (Thrown + Transport) * State :=
  let engine := select_engine options in
  (register_builtin (toolPrefix options) (disableTools options)
     "system_list_databases" (system_list_databases engine) ;;
   register_builtin (toolPrefix options) (disableTools options)
     "system_get_database_status" (system_get_database_status engine) ;;
   register_builtin (toolPrefix options) (disableTools options)
     "system_get_status" (system_get_status engine) ;;
   register_builtin (toolPrefix options) (disableTools options)
     "system_get_database_schema" (system_get_database_schema engine) ;;
   register_builtin (toolPrefix options) (disableTools options)
     "raw_readonly_query" (raw_readonly_query engine) ;;
   register_builtin (toolPrefix options) (disableTools options)
     "raw_query" (raw_query engine) ;;
   (if dynamicEndpointTools options then
      server_tool (prefixed (toolPrefix options) "system_get_endpoints")
        "Get all available endpoints for stored queries and workflows"
        (Some []) (system_get_endpoints_callback engine) ;;
      server_tool (prefixed (toolPrefix options) "call_endpoint")
        "Call a given stored query/playbook endpoint with the provided parameters"
        (Some call_endpoint_shape) (call_endpoint_callback engine)
    else
      do endpoints <- await_getEndpoints engine;
      addEndpoints engine (data endpoints) (toolPrefix options) (disableTools options)) ;;
   ret (select_transport options))
    (new_McpServer (name options)).

End Registrar.

(** ** The streaming HTTP transport: [POST /messages] *)

Record SSEServerTransport : Type := {
  sessionId : string;
}.

(** A value of [req.query]. *)
Inductive QueryValue : Type :=
| QueryUndefined
| QueryString (s : string)
| QueryArray (values : list string)
| QueryObject (fields : list (string * string)).

(** The properties every object literal inherits from [Object.prototype]. *)
Definition object_prototype_properties : list string :=
  ["constructor"; "__defineGetter__"; "__defineSetter__"; "hasOwnProperty";
   "__lookupGetter__"; "__lookupSetter__"; "isPrototypeOf"; "propertyIsEnumerable";
   "toString"; "valueOf"; "__proto__"; "toLocaleString"].

(** The result of reading [object[key]] on an object literal used as a map. *)
Inductive Property (A : Type) : Type :=
| OwnProperty (a : A)
| InheritedProperty (key : string)
| NoProperty.
Arguments OwnProperty {A} _.
Arguments InheritedProperty {A} _.
Arguments NoProperty {A}.

Definition get_property {A : Type} (object : gmap string A) (key : string) : Property A :=
  match object !! key with
  | Some a => OwnProperty a
  | None =>
      if existsb (String.eqb key) object_prototype_properties
      then InheritedProperty key
      else NoProperty
  end.

(** What the handler of [POST /messages] does with a request. *)
Inductive Outcome : Type :=
| Responded (status : Z) (body : Json)
| HandledBy (transport : SSEServerTransport)
| Threw (e : Thrown).

Definition invalid_sessionId : Outcome :=
  Responded 400 (JObj [("messages", JStr "Invalid sessionId.")]).

(** [app.post("/messages", ...)]: [transports] is the session registry, an
    object literal keyed by session id.  An inherited property is truthy
    and has no [handlePostMessage] method, so calling it throws. *)
Definition post_messages (transports : gmap string SSEServerTransport)
    (sessionIdParam : QueryValue) : Outcome :=
  match sessionIdParam with
  | QueryString id =>
      match get_property transports id with
      | OwnProperty transport => HandledBy transport
      | InheritedProperty _ =>
          Threw (ThrownError "TypeError"
                   "transport.handlePostMessage is not a function" None None)
      | NoProperty => invalid_sessionId
      end
  | _ => invalid_sessionId
  end.

(** [GET /sse] stores the new transport under its session id; closing the
    response deletes the entry. *)
Definition sse_open (transport : SSEServerTransport)
    (transports : gmap string SSEServerTransport) : gmap string SSEServerTransport :=
  <[sessionId transport := transport]> transports.

Definition sse_close (transport : SSEServerTransport)
    (transports : gmap string SSEServerTransport) : gmap string SSEServerTransport :=
  delete (sessionId transport) transports.

(** ** A model of the json-schema-to-zod package

    [parseSchema] follows the package's parser selection (object, array,
    oneOf, enum, the primitive types, and [z.any()] by default) and emits
    the package's text.  It covers the schemas that are structurally valid
    and use the keywords [type] (one type name), [items] (one schema),
    [properties], [required], [additionalProperties], [enum] and [oneOf],
    and the [null] sub-schema, on which the package throws a [TypeError].
    A schema with another keyword ([anyOf], [allOf], [not], [const],
    [minLength], [default], ...), or with [oneOf] beside the types object
    and array, is outside this model: the package adds text for them that
    [parseSchema] does not, and no property below is about such a schema. *)

Fixpoint find_map {B : Type} (f : Json -> B) (key : string)
    (fields : list (string * Json)) : option B :=
  match fields with
  | [] => None
  | (k, v) :: rest => if String.eqb k key then Some (f v) else find_map f key rest
  end.

Definition null_schema_error : Thrown :=
  ThrownError "TypeError" "Cannot read properties of null (reading 'nullable')" None None.

Definition enum_error : Thrown :=
  ThrownError "TypeError" "schema.enum.every is not a function" None None.

Definition is_string (value : Json) : bool :=
  match value with
  | JStr _ => true
  | _ => false
  end.

(** [parseEnum] *)
Definition parseEnum (members : list Json) : string :=
  match members with
  | [] => "z.never()"
  | [x] => "z.literal(" +:+ JSON_stringify x +:+ ")"
  | _ =>
      if forallb is_string members then
        "z.enum([" +:+ join "," (map JSON_stringify members) +:+ "])"
      else
        "z.union(["
          +:+ join ", " (map (fun x => "z.literal(" +:+ JSON_stringify x +:+ ")") members)
          +:+ "])"
  end.

(** The text around the alternatives of a [oneOf]. *)
Definition oneOf_open : string :=
  "z.any().superRefine((x, ctx) => {
    const schemas = [".

Definition oneOf_middle : string :=
  "];
    const errors = schemas.reduce".

Definition oneOf_close : string :=
  "(
      (errors, schema) =>
        ((result) =>
          result.error ? [...errors, result.error] : errors)(
          schema.safeParse(x),
        ),
      [],
    );
    if (schemas.length - errors.length !== 1) {
      ctx.addIssue({
        path: ctx.path,
        code: " +:+ quote_string "invalid_union" +:+ ",
        unionErrors: errors,
        message: " +:+ quote_string "Invalid input: Should pass single schema" +:+ ",
      });
    }
  })".

(** [required.includes(key)] or, without a list, [propSchema.required === true]. *)
Definition is_required (required : option Json) (key : string) (propSchema : Json) : bool :=
  match required with
  | Some (JArr names) => existsb (strict_equal (JStr key)) names
  | _ =>
      match propSchema with
      | JObj fields =>
          match get_field "required" fields with
          | Some (JBool true) => true
          | _ => false
          end
      | _ => false
      end
  end.

Definition sequence_results {A : Type} (results : list (Thrown + A)) : Thrown + list A :=
  map_throwing (fun r => r) results.

Fixpoint parseSchema (schema : Json) : Thrown + string :=
  match schema with
  | JNull => inl null_schema_error
  | JObj fields =>
      let type := get_field "type" fields in
      let parsedProperties :=
        find_map (fun props =>
                    match props with
                    | JObj entries =>
                        map (fun kv : string * Json =>
                               match parseSchema kv.2 with
                               | inl e => inl e
                               | inr text =>
                                   inr (quote_string kv.1 +:+ ": " +:+ text
                                          +:+ if is_required (get_field "required" fields) kv.1 kv.2
                                              then "" else ".optional()")
                               end) entries
                    | _ => []
                    end) "properties" fields in
      let parsedAdditional := find_map parseSchema "additionalProperties" fields in
      let parsedItems := find_map parseSchema "items" fields in
      let parsedOneOf :=
        find_map (fun alternatives =>
                    match alternatives with
                    | JArr list => map parseSchema list
                    | _ => []
                    end) "oneOf" fields in
      match type with
      | Some (JStr "object") =>
          (* parseObject *)
          let properties :=
            if truthy (get_field "properties" fields) then
              match sequence_results (parsedProperties ?? []) with
              | inl e => inl e
              | inr [] => inr (Some "z.object({})")
              | inr entries => inr (Some ("z.object({ " +:+ join ", " entries +:+ " })"))
              end
            else inr None in
          match properties, parsedAdditional with
          | inl e, _ => inl e
          | _, Some (inl e) => inl e
          | inr (Some object), Some (inr additional) =>
              if String.eqb additional "z.never()" then inr (object +:+ ".strict()")
              else inr (object +:+ ".catchall(" +:+ additional +:+ ")")
          | inr (Some object), None => inr object
          | inr None, Some (inr additional) => inr ("z.record(" +:+ additional +:+ ")")
          | inr None, None => inr "z.record(z.any())"
          end
      | Some (JStr "array") =>
          (* parseArray *)
          if truthy (get_field "items" fields) then
            match parsedItems with
            | Some (inr element) => inr ("z.array(" +:+ element +:+ ")")
            | Some (inl e) => inl e
            | None => inr "z.array(z.any())"
            end
          else inr "z.array(z.any())"
      | _ =>
          match get_field "oneOf" fields, get_field "enum" fields with
          | Some _, _ =>
              (* parseOneOf *)
              match sequence_results (parsedOneOf ?? []) with
              | inl e => inl e
              | inr [] => inr "z.any()"
              | inr [single] => inr single
              | inr alternatives =>
                  inr (oneOf_open +:+ join ", " alternatives +:+ oneOf_middle
                         +:+ "<z.ZodError[]>" +:+ oneOf_close)
              end
          | None, Some (JArr members) => inr (parseEnum members)
          | None, Some _ => inl enum_error
          | None, None =>
              match type with
              | Some (JStr "string") => inr "z.string()"
              | Some (JStr "number") => inr "z.number()"
              | Some (JStr "integer") => inr "z.number().int()"
              | Some (JStr "boolean") => inr "z.boolean()"
              | Some (JStr "null") => inr "z.null()"
              | _ => inr "z.any()"
              end
          end
      end
  | JArr _ => inr "z.any()"
  | other => inr (if truthy (Some other) then "z.any()" else "z.never()")
  end.

(** [jsonSchemaToZod(schema, { module: "none", noImport: true, type: false })] *)
Definition jsonSchemaToZod_model (schema : Json) : Thrown + string := parseSchema schema.

(** ** A model of evaluating the generated text

    [newFunction_model body] stands for [new Function("z", body)(z)] on the
    texts the package emits: it reads [return <zod expression>;] and builds
    the validator the expression denotes.  Text that is not such an
    expression, a TypeScript annotation left in it included, is a
    [SyntaxError]; its message is the one of the annotation that is left,
    [schemas.reduce<z.ZodError[]>(], where the parser stops at the bracket
    that closes the empty brackets. *)

Definition syntax_error : Thrown :=
  ThrownError "SyntaxError" "Unexpected token ']'" None None.

Definition hex_value (c : ascii) : option nat :=
  let n := nat_of_ascii c in
  if Nat.leb 48 n && Nat.leb n 57 then Some (n - 48)
  else if Nat.leb 97 n && Nat.leb n 102 then Some (n - 87)
  else if Nat.leb 65 n && Nat.leb n 70 then Some (n - 55)
  else None.

Definition cons_char (c : ascii) (r : option (string * string)) : option (string * string) :=
  match r with
  | Some (body, rest) => Some (String c body, rest)
  | None => None
  end.

(** The characters of a string literal after its opening quote, up to the
    closing quote, with the escapes undone. *)
Fixpoint read_string_body (s : string) : option (string * string) :=
  match s with
  | "" => None
  | String c rest =>
      if Ascii.eqb c dquote then Some ("", rest)
      else if Ascii.eqb c backslash then
        match rest with
        | String "u" (String "0" (String "0" (String h (String l rest')))) =>
            match hex_value h, hex_value l with
            | Some a, Some b => cons_char (ascii_of_nat (16 * a + b)) (read_string_body rest')
            | _, _ => None
            end
        | String e rest' =>
            if Ascii.eqb e dquote then cons_char dquote (read_string_body rest')
            else if Ascii.eqb e backslash then cons_char backslash (read_string_body rest')
            else if Ascii.eqb e "b" then cons_char (ascii_of_nat 8) (read_string_body rest')
            else if Ascii.eqb e "t" then cons_char (ascii_of_nat 9) (read_string_body rest')
            else if Ascii.eqb e "n" then cons_char (ascii_of_nat 10) (read_string_body rest')
            else if Ascii.eqb e "f" then cons_char (ascii_of_nat 12) (read_string_body rest')
            else if Ascii.eqb e "r" then cons_char (ascii_of_nat 13) (read_string_body rest')
            else None
        | "" => None
        end
      else cons_char c (read_string_body rest)
  end.

Definition read_string_literal (s : string) : option (string * string) :=
  match s with
  | String c rest => if Ascii.eqb c dquote then read_string_body rest else None
  | "" => None
  end.

Definition digit_value (c : ascii) : option Z :=
  let n := nat_of_ascii c in
  if Nat.leb 48 n && Nat.leb n 57 then Some (Z.of_nat (n - 48)) else None.

Fixpoint read_digits (acc : Z) (s : string) : Z * string :=
  match s with
  | String c rest =>
      match digit_value c with
      | Some d => read_digits (10 * acc + d) rest
      | None => (acc, s)
      end
  | "" => (acc, s)
  end.

(** The digits after the decimal point: they extend the digits read so
    far, and each one lowers the exponent. *)
Fixpoint read_fraction (acc count : Z) (s : string) : Z * Z * string :=
  match s with
  | String c rest =>
      match digit_value c with
      | Some d => read_fraction (10 * acc + d) (count + 1) rest
      | None => (acc, count, s)
      end
  | "" => (acc, count, s)
  end.

(** The exponent part [e+digits] or [e-digits], when there is one. *)
Definition read_exponent (s : string) : Z * string :=
  match s with
  | String "e" (String sign (String c rest)) =>
      match digit_value c with
      | Some d =>
          if Ascii.eqb sign "+" then read_digits d rest
          else if Ascii.eqb sign "-" then
            let '(n, r) := read_digits d rest in ((- n)%Z, r)
          else (0%Z, s)
      | None => (0%Z, s)
      end
  | _ => (0%Z, s)
  end.

(** The digits of a number with its fraction and its exponent. *)
Definition read_unsigned_number (d : Z) (s : string) : JsNumber * string :=
  let '(whole, after_whole) := read_digits d s in
  let '(digits, count, after_fraction) :=
    match after_whole with
    | String "." (String c rest) =>
        match digit_value c with
        | Some _ => read_fraction whole 0 (String c rest)
        | None => (whole, 0%Z, after_whole)
        end
    | _ => (whole, 0%Z, after_whole)
    end in
  let '(power, rest) := read_exponent after_fraction in
  ({| mantissa := digits; exponent := power - count |}, rest).

(** A number literal, as [JSON.stringify] writes it. *)
Definition read_number (s : string) : option (JsNumber * string) :=
  match s with
  | String "-" (String c rest) =>
      match digit_value c with
      | Some d =>
          let '(x, r) := read_unsigned_number d rest in
          Some ({| mantissa := - mantissa x; exponent := exponent x |}, r)
      | None => None
      end
  | String c rest =>
      match digit_value c with
      | Some d => Some (read_unsigned_number d rest)
      | None => None
      end
  | "" => None
  end.

(** A primitive literal, as [JSON.stringify] writes it. *)
Definition read_literal (s : string) : option (Json * string) :=
  match read_string_literal s with
  | Some (text, rest) => Some (JStr text, rest)
  | None =>
      match strip_prefix "true" s, strip_prefix "false" s, strip_prefix "null" s with
      | Some rest, _, _ => Some (JBool true, rest)
      | _, Some rest, _ => Some (JBool false, rest)
      | _, _, Some rest => Some (JNull, rest)
      | None, None, None =>
          match read_number s with
          | Some (n, rest) => Some (JNum n, rest)
          | None => None
          end
      end
  end.

(** One or more items separated by [sep]. *)
Fixpoint read_list {A : Type} (item : string -> option (A * string)) (sep : string)
    (fuel : nat) (s : string) : option (list A * string) :=
  match fuel with
  | 0 => None
  | S fuel' =>
      match item s with
      | None => None
      | Some (a, rest) =>
          match strip_prefix sep rest with
          | Some rest' =>
              match read_list item sep fuel' rest' with
              | Some (others, r) => Some (a :: others, r)
              | None => None
              end
          | None => Some ([a], rest)
          end
      end
  end.

(** [expect p r k]: after a parsed value, the text must go on with [p]. *)
Definition expect {A B : Type} (p : string) (r : option (A * string))
    (k : A -> string -> option B) : option B :=
  match r with
  | Some (a, rest) =>
      match strip_prefix p rest with
      | Some rest' => k a rest'
      | None => None
      end
  | None => None
  end.

Definition read_field (expr : string -> option (ZodSchema * string)) (s : string)
    : option ((string * ZodSchema) * string) :=
  expect ": " (read_string_literal s)
    (fun key rest =>
       match expr rest with
       | Some (schema, rest') =>
           match strip_prefix ".optional()" rest' with
           | Some rest'' => Some ((key, ZodOptional schema), rest'')
           | None => Some ((key, schema), rest')
           end
       | None => None
       end).

(** The own properties of an object literal [{ "k": v, ... }] whose keys
    are written in enumeration order: a key written twice keeps its first
    place and its last value; the key ["__proto__"] sets the prototype and
    makes no own property, and written twice it is a [SyntaxError]. *)
Definition is_proto {A : Type} (entry : string * A) : bool := String.eqb entry.1 "__proto__".

Definition object_literal {A : Type} (entries : list (string * A))
    : option (list (string * A)) :=
  if Nat.leb 2 (length (List.filter is_proto entries)) then None
  else Some (foldl (fun (acc : list (string * A)) (entry : string * A) =>
                      define_property acc entry.1 entry.2)
               [] (List.filter (fun entry => negb (is_proto entry)) entries)).

(** The methods that may follow [z.object({ ... })]. *)
Definition read_object_tail (expr : string -> option (ZodSchema * string))
    (shape : list (string * ZodSchema)) (s : string) : option (ZodSchema * string) :=
  match strip_prefix ".strict()" s, strip_prefix ".catchall(" s with
  | Some rest, _ => Some (ZodObject shape strict None, rest)
  | None, Some rest =>
      expect ")" (expr rest) (fun extra rest' => Some (ZodObject shape strip (Some extra), rest'))
  | None, None => Some (ZodObject shape strip None, s)
  end.

Fixpoint eval_expr (fuel : nat) (s : string) : option (ZodSchema * string) :=
  match fuel with
  | 0 => None
  | S fuel' =>
      let expr := eval_expr fuel' in
      match strip_prefix oneOf_open s with
      | Some rest =>
          expect oneOf_middle (read_list expr ", " fuel' rest)
            (fun schemas rest' =>
               match strip_prefix oneOf_close rest' with
               | Some rest'' => Some (ZodOneOf schemas, rest'')
               | None => None
               end)
      | None =>
      match strip_prefix "z.any()" s with
      | Some rest => Some (ZodAny, rest)
      | None =>
      match strip_prefix "z.never()" s with
      | Some rest => Some (ZodNever, rest)
      | None =>
      match strip_prefix "z.string()" s with
      | Some rest => Some (ZodString, rest)
      | None =>
      match strip_prefix "z.number().int()" s with
      | Some rest => Some (ZodInteger, rest)
      | None =>
      match strip_prefix "z.number()" s with
      | Some rest => Some (ZodNumber, rest)
      | None =>
      match strip_prefix "z.boolean()" s with
      | Some rest => Some (ZodBoolean, rest)
      | None =>
      match strip_prefix "z.null()" s with
      | Some rest => Some (ZodNull, rest)
      | None =>
      match strip_prefix "z.array(" s with
      | Some rest => expect ")" (expr rest) (fun element rest' => Some (ZodArray element, rest'))
      | None =>
      match strip_prefix "z.record(" s with
      | Some rest => expect ")" (expr rest) (fun value rest' => Some (ZodRecord value, rest'))
      | None =>
      match strip_prefix "z.enum([" s with
      | Some rest =>
          expect "])" (read_list read_string_literal "," fuel' rest)
            (fun values rest' => Some (ZodEnum values, rest'))
      | None =>
      match strip_prefix "z.literal(" s with
      | Some rest =>
          expect ")" (read_literal rest) (fun value rest' => Some (ZodLiteral value, rest'))
      | None =>
      match strip_prefix "z.union([" s with
      | Some rest =>
          expect "])" (read_list expr ", " fuel' rest)
            (fun options rest' => Some (ZodUnion options, rest'))
      | None =>
      match strip_prefix "z.object({})" s with
      | Some rest => read_object_tail expr [] rest
      | None =>
      match strip_prefix "z.object({ " s with
      | Some rest =>
          expect " })" (read_list (read_field expr) ", " fuel' rest)
            (fun entries rest' =>
               match object_literal entries with
               | Some shape => read_object_tail expr shape rest'
               | None => None
               end)
      | None => None
      end end end end end end end end end end end end end end end
  end.

Definition newFunction_model (body : string) : Thrown + ZodSchema :=
  match strip_prefix "return " body with
  | Some text =>
      match eval_expr (String.length text) text with
      | Some (schema, ";") => inr schema
      | _ => inl syntax_error
      end
  | None => inl syntax_error
  end.

(** The compiler with the modelled packages. *)
Definition compile (jsonSchema : Json) : Thrown + ZodSchema :=
  getZodSchemaFromJsonSchema jsonSchemaToZod_model newFunction_model jsonSchema.

(** ** A model of the zod-to-json-schema package (used by mcp.test.ts)

    [parseDef] renders a validator as a JSON-Schema, as the package does
    with its default options; [None] marks the validators whose rendering
    is not modelled (literals, unions, an optional outside a property). *)

Fixpoint all_some {A : Type} (l : list (option A)) : option (list A) :=
  match l with
  | [] => Some []
  | None :: _ => None
  | Some a :: rest =>
      match all_some rest with
      | Some others => Some (a :: others)
      | None => None
      end
  end.

Definition is_any (schema : ZodSchema) : bool :=
  match schema with
  | ZodAny => true
  | _ => false
  end.

Definition is_optional (schema : ZodSchema) : bool :=
  match schema with
  | ZodOptional _ => true
  | _ => false
  end.

Fixpoint parseDef (schema : ZodSchema) : option Json :=
  match schema with
  | ZodAny => Some (JObj [])
  | ZodNever => Some (JObj [("not", JObj [])])
  | ZodString => Some (JObj [("type", JStr "string")])
  | ZodNumber => Some (JObj [("type", JStr "number")])
  | ZodInteger => Some (JObj [("type", JStr "integer")])
  | ZodBoolean => Some (JObj [("type", JStr "boolean")])
  | ZodNull => Some (JObj [("type", JStr "null")])
  | ZodLiteral _ => None
  | ZodEnum values => Some (JObj [("type", JStr "string"); ("enum", JArr (map JStr values))])
  | ZodUnion _ => None
  | ZodArray element =>
      if is_any element then Some (JObj [("type", JStr "array")])
      else
        match parseDef element with
        | Some items => Some (JObj [("type", JStr "array"); ("items", items)])
        | None => None
        end
  | ZodRecord valueType =>
      match parseDef valueType with
      | Some additional =>
          Some (JObj [("type", JStr "object"); ("additionalProperties", additional)])
      | None => None
      end
  | ZodObject shape unknownKeys catchall =>
      let properties :=
        all_some (map (fun entry : string * ZodSchema =>
                         match parseDef match entry.2 with
                                        | ZodOptional innerType => innerType
                                        | _ => entry.2
                                        end with
                         | Some rendered => Some (entry.1, rendered)
                         | None => None
                         end) shape) in
      let required :=
        map (fun entry : string * ZodSchema => JStr entry.1)
          (List.filter (fun entry : string * ZodSchema => negb (is_optional entry.2)) shape) in
      let additional :=
        match catchall with
        | Some extra => parseDef extra
        | None => Some (JBool false)
        end in
      match properties, additional with
      | Some rendered, Some extra =>
          Some (JObj ([("type", JStr "object"); ("properties", JObj rendered)]
                        ++ match required with
                           | [] => []
                           | _ => [("required", JArr required)]
                           end
                        ++ [("additionalProperties", extra)]))
      | _, _ => None
      end
  | ZodOptional _ => None
  | ZodOneOf _ => Some (JObj [])
  | ZodDescribed innerType text =>
      match parseDef innerType with
      | Some (JObj fields) => Some (JObj (fields ++ [("description", JStr text)]))
      | _ => None
      end
  end.

Definition draft07 : string := "http://json-schema.org/draft-07/schema#".

(** [{ $schema: "http://json-schema.org/draft-07/schema#", ...fields }], the
    object that mcp.test.ts expects. *)
Definition with_schema_marker (jsonSchema : Json) : Json :=
  match jsonSchema with
  | JObj fields => JObj (("$schema", JStr draft07) :: fields)
  | other => other
  end.

(** [zodToJsonSchema(schema)]: the package renders the validator and then
    sets [$schema] on the result, so that it is its last key. *)
Definition zodToJsonSchema (schema : ZodSchema) : option Json :=
  match parseDef schema with
  | Some (JObj fields) => Some (JObj (fields ++ [("$schema", JStr draft07)]))
  | Some other => Some other
  | None => None
  end.

(** Compile a schema and convert the validator back. *)
Definition roundtrip (jsonSchema : Json) : option Json :=
  match compile jsonSchema with
  | inr zodSchema => zodToJsonSchema zodSchema
  | inl _ => None
  end.

(** [expect(a).toEqual(b)]: recursive equality; the order of the keys of an
    object does not count. *)
Fixpoint json_equal (a b : Json) : bool :=
  match a, b with
  | JNull, JNull => true
  | JBool x, JBool y => Bool.eqb x y
  | JNum x, JNum y => number_eqb x y
  | JStr x, JStr y => String.eqb x y
  | JArr xs, JArr ys =>
      (fix all2 (xs : list Json) (ys : list Json) : bool :=
         match xs, ys with
         | [], [] => true
         | x :: xs', y :: ys' => json_equal x y && all2 xs' ys'
         | _, _ => false
         end) xs ys
  | JObj fa, JObj fb =>
      Nat.eqb (length fa) (length fb)
      && forallb (fun kv : string * Json =>
                    match get_field kv.1 fb with
                    | Some v => json_equal kv.2 v
                    | None => false
                    end) fa
  | _, _ => false
  end.

(** ** The test table of mcp.test.ts *)

Record TestCase : Type := {
  test_description : string;
  test_jsonSchema : Json;
  test_expected : option Json;
  test_shouldparse : list Json;
  test_shouldnotparse : list Json;
}.

Definition test_cases : list TestCase :=
  [ {| test_description := "string";
       test_jsonSchema := JObj [("type", JStr "string")];
       test_expected := None;
       test_shouldparse := [JStr "a"; JStr "b"; JStr "c"];
       test_shouldnotparse := [JNum 1; JNum 2; JNum 3] |};
    {| test_description := "number";
       test_jsonSchema := JObj [("type", JStr "number")];
       test_expected := None;
       test_shouldparse := [JNum 1; JNum 2; JNum 3];
       test_shouldnotparse := [JStr "a"; JStr "b"; JStr "c"] |};
    {| test_description := "boolean";
       test_jsonSchema := JObj [("type", JStr "boolean")];
       test_expected := None;
       test_shouldparse := [JBool true; JBool false];
       test_shouldnotparse := [JStr "a"; JStr "b"; JStr "c"] |};
    {| test_description := "array";
       test_jsonSchema := JObj [("type", JStr "array"); ("items", JObj [("type", JStr "number")])];
       test_expected := None;
       test_shouldparse := [JArr [JNum 1; JNum 2; JNum 3]; JArr [JNum 4; JNum 5; JNum 6]];
       test_shouldnotparse :=
         [JNum 1; JStr "a"; JBool true; JObj [("a", JNum 1)]; JArr [JNum 1; JStr "a"]] |};
    {| test_description := "object";
       test_jsonSchema := JObj [("type", JStr "object")];
       test_expected := Some (JObj [("type", JStr "object"); ("additionalProperties", JObj [])]);
       test_shouldparse := [JObj [("a", JNum 1)]; JObj [("b", JNum 2)]; JObj [("c", JNum 3)]];
       test_shouldnotparse := [JNum 1; JStr "a"; JBool true; JArr [JNum 1; JStr "a"]] |};
    {| test_description := "enum";
       test_jsonSchema :=
         JObj [("type", JStr "string"); ("enum", JArr [JStr "a"; JStr "b"; JStr "c"])];
       test_expected := None;
       test_shouldparse := [JStr "a"; JStr "b"; JStr "c"];
       test_shouldnotparse := [JStr "d"; JStr "e"; JStr "f"] |};
    {| test_description := "oneOf";
       test_jsonSchema :=
         JObj [("oneOf", JArr [JObj [("type", JStr "string")]; JObj [("type", JStr "number")]])];
       test_expected := Some (JObj []);
       test_shouldparse := [JStr "a"; JNum 1];
       test_shouldnotparse := [JBool false; JObj []; JNull; JArr []] |};
    {| test_description := "complex";
       test_jsonSchema :=
         JObj [("type", JStr "object");
               ("properties", JObj [("name", JObj [("type", JStr "string")]);
                                    ("age", JObj [("type", JStr "number")])]);
               ("required", JArr [JStr "name"]);
               ("additionalProperties", JBool false)];
       test_expected := None;
       test_shouldparse :=
         [JObj [("name", JStr "John"); ("age", JNum 30)];
          JObj [("name", JStr "Jane"); ("age", JNum 25)]];
       test_shouldnotparse :=
         [JNum 1; JStr "a"; JBool true; JObj [("a", JNum 1)]; JArr [JNum 1; JStr "a"]] |} ].

(** The body of the test: the schema compiles, the validator parses what it
    should and nothing it should not, and converting it back gives the
    expected schema (the original one unless the row says otherwise). *)
Definition test_passes (t : TestCase) : bool :=
  match compile (test_jsonSchema t) with
  | inr zodSchema =>
      forallb (fun value => safeParse zodSchema (Some value)) (test_shouldparse t)
      && forallb (fun value => negb (safeParse zodSchema (Some value))) (test_shouldnotparse t)
      && match zodToJsonSchema zodSchema with
         | Some back =>
             json_equal back (with_schema_marker (test_expected t ?? test_jsonSchema t))
         | None => false
         end
  | inl _ => false
  end.

(** ** Views of the registrar used in the statements *)

(** The state with more tools at the end of the registry. *)
Definition add_tools (extra : list (string * RegisteredTool)) (st : State) : State :=
  {| server := {| server_name := server_name (server st);
                  server_version := server_version (server st);
                  _registeredTools := _registeredTools (server st) ++ extra |};
     engine_calls := engine_calls st |}.

(** The entry [server.tool] stores for a tool. *)
Definition tool_entry (toolPrefix : option string) (entry : string * RegisteredTool)
    : string * RegisteredTool :=
  (prefixed toolPrefix entry.1,
   {| tool_description := tool_description entry.2;
      tool_inputSchema := tool_inputSchema entry.2;
      tool_callback := tool_callback entry.2 |}).

Definition enabled (disableTools : option (list string)) (base : string) : bool :=
  negb (includes disableTools base).

(** The registry after the built-in phase. *)
Definition expected_builtins (engine : EngineClient) (toolPrefix : option string)
    (disableTools : option (list string)) : list (string * RegisteredTool) :=
  map (tool_entry toolPrefix)
    (List.filter (fun entry : string * RegisteredTool => enabled disableTools entry.1)
       (builtin_tools engine)).

(** The built-in phase as a loop over the tools, followed by the rest. *)
Fixpoint register_list {A : Type} (toolPrefix : option string)
    (disableTools : option (list string)) (tools : list (string * RegisteredTool))
    (rest : M A) : M A :=
  match tools with
  | [] => rest
  | entry :: others =>
      register_builtin toolPrefix disableTools entry.1 entry.2 ;;
      register_list toolPrefix disableTools others rest
  end.

(** The names in the registry of a state. *)
Definition tool_names (st : State) : list string := (_registeredTools (server st)).*1.

(** [grows Q m]: running [m] only appends tools, all with names in [Q], and
    keeps the names of the registry distinct. *)
Definition grows {A : Type} (Q : string -> Prop) (m : M A) : Prop :=
  forall st,
    exists extra : list (string * RegisteredTool),
      _registeredTools (server (m st).2) = (_registeredTools (server st) ++ extra)%list
      /\ Forall (fun entry : string * RegisteredTool => Q entry.1) extra
      /\ (NoDup (tool_names st) -> NoDup (tool_names (m st).2)).

Section RegistrarViews.

Variable jsonSchemaToZod : Json -> Thrown + string.
Variable newFunction : string -> Thrown + ZodSchema.
Variable DefaultApiFactory : option string -> option string -> RawOpenapiClient.

(** What startup does after the built-in phase. *)
Definition endpoint_phase (options : MCPOptions) : M unit :=
  if dynamicEndpointTools options then
    server_tool (prefixed (toolPrefix options) "system_get_endpoints")
      "Get all available endpoints for stored queries and workflows"
      (Some []) (system_get_endpoints_callback (select_engine DefaultApiFactory options)) ;;
    server_tool (prefixed (toolPrefix options) "call_endpoint")
      "Call a given stored query/playbook endpoint with the provided parameters"
      (Some call_endpoint_shape) (call_endpoint_callback (select_engine DefaultApiFactory options))
  else
    do endpoints <- await_getEndpoints (select_engine DefaultApiFactory options);
    addEndpoints jsonSchemaToZod newFunction (select_engine DefaultApiFactory options)
      (data endpoints) (toolPrefix options) (disableTools options).

Definition after_builtins (options : MCPOptions) : State :=
  add_tools
    (expected_builtins (select_engine DefaultApiFactory options) (toolPrefix options)
       (disableTools options))
    (new_McpServer (name options)).

(** The registry entry of an endpoint's tool, for a compiled shape. *)
Definition endpoint_entry (options : MCPOptions) (endpoint : EndpointMetadata)
    (shape : list (string * ZodSchema)) : string * RegisteredTool :=
  (prefixed (toolPrefix options) ("query_" +:+ path endpoint),
   {| tool_description := endpoint_description endpoint;
      tool_inputSchema := Some shape;
      tool_callback := endpoint_callback (select_engine DefaultApiFactory options) endpoint |}).

Definition endpoint_enabled (options : MCPOptions) (endpoint : EndpointMetadata) : bool :=
  enabled (disableTools options) ("query_" +:+ path endpoint).

(** An endpoint's tool as the registrar must have stored it. *)
Definition registered_for (options : MCPOptions) (endpoint : EndpointMetadata)
    (entry : string * RegisteredTool) : Prop :=
  exists shape,
    map_throwing (compileParameter jsonSchemaToZod newFunction endpoint) (params endpoint)
    = inr shape
    /\ entry = endpoint_entry options endpoint shape.

(** The names the endpoint phase may register. *)
Definition endpoint_phase_name (options : MCPOptions) (toolName : string) : Prop :=
  exists base, toolName = prefixed (toolPrefix options) base /\ base ∉ builtin_names.

(** The options with [base] taken off the disable-list. *)
Definition without_disabled (base : string) (options : MCPOptions) : MCPOptions :=
  {| name := name options;
     toolPrefix := toolPrefix options;
     dynamicEndpointTools := dynamicEndpointTools options;
     testMode := testMode options;
     engineBasePath := engineBasePath options;
     engineApiKey := engineApiKey options;
     disableTools :=
       List.filter (fun x => negb (String.eqb x base)) <$> disableTools options;
     port := port options |}.

(** The server object when startup ends, whether it threw or not. *)
Definition final_server (options : MCPOptions) : McpServer :=
  server (startMcpServer jsonSchemaToZod newFunction DefaultApiFactory options).2.

(** The two generic tools of dynamic endpoint mode. *)
Definition system_get_endpoints_tool (options : MCPOptions) : RegisteredTool :=
  {| tool_description := "Get all available endpoints for stored queries and workflows";
     tool_inputSchema := Some [];
     tool_callback :=
       system_get_endpoints_callback (select_engine DefaultApiFactory options) |}.

Definition call_endpoint_tool (options : MCPOptions) : RegisteredTool :=
  {| tool_description :=
       "Call a given stored query/playbook endpoint with the provided parameters";
     tool_inputSchema := Some call_endpoint_shape;
     tool_callback := call_endpoint_callback (select_engine DefaultApiFactory options) |}.

Definition dynamic_tools (options : MCPOptions) : list (string * RegisteredTool) :=
  [(prefixed (toolPrefix options) "system_get_endpoints", system_get_endpoints_tool options);
   (prefixed (toolPrefix options) "call_endpoint", call_endpoint_tool options)].

End RegistrarViews.

(** ** The supported schema shapes *)

(** A schema of a fully supported shape: a primitive type, an array of
    such, an enumeration of strings, or an object that declares its
    properties (each required or not) and admits no others. *)
Inductive Shape : Type :=
| SString
| SNumber
| SBoolean
| SArray (item : Shape)
| SEnum (values : list string)
| SObject (properties : list (string * bool * Shape)).

Definition required_names (properties : list (string * bool * Shape)) : list Json :=
  map (fun p : string * bool * Shape => JStr p.1.1)
    (List.filter (fun p : string * bool * Shape => p.1.2) properties).

(** The JSON-Schema of a shape; [required] is written when it is not empty. *)
Fixpoint schema_of (shape : Shape) : Json :=
  match shape with
  | SString => JObj [("type", JStr "string")]
  | SNumber => JObj [("type", JStr "number")]
  | SBoolean => JObj [("type", JStr "boolean")]
  | SArray item => JObj [("type", JStr "array"); ("items", schema_of item)]
  | SEnum values => JObj [("type", JStr "string"); ("enum", JArr (map JStr values))]
  | SObject properties =>
      JObj ([("type", JStr "object");
             ("properties",
              JObj (map (fun p : string * bool * Shape => (p.1.1, schema_of p.2)) properties))]
              ++ match required_names properties with
                 | [] => []
                 | names => [("required", JArr names)]
                 end
              ++ [("additionalProperties", JBool false)])
  end.

(** [occurs pattern s]: the text [pattern] occurs somewhere in [s]. *)
Fixpoint occurs (pattern s : string) : bool :=
  match strip_prefix pattern s with
  | Some _ => true
  | None =>
      match s with
      | "" => false
      | String _ rest => occurs pattern rest
      end
  end.

(** A string that does not contain the text of the TypeScript annotation. *)
Definition annotation_free (s : string) : bool := negb (occurs "<z.ZodError[]>" s).

Definition distinct (keys : list string) : bool := bool_decide (NoDup keys).

(** A canonical array index, [0], [1], [42], ...: JavaScript enumerates
    such keys of an object before its other keys, in ascending order. *)
Fixpoint all_digits (s : string) : bool :=
  match s with
  | "" => true
  | String c rest =>
      match digit_value c with
      | Some _ => all_digits rest
      | None => false
      end
  end.

Definition is_array_index (key : string) : bool :=
  match key with
  | "" => false
  | String c rest => all_digits key && (negb (Ascii.eqb c "0") || String.eqb rest "")
  end.

(** A property name that stays where it is written and that an object
    literal does not inherit: the evaluated text [{ "__proto__": ... }]
    sets the prototype instead of a property, a validator reads
    [data[key]], which finds the inherited value where the input has no own
    property of that name, and an array index moves to the front. *)
Definition own_name (key : string) : bool :=
  negb (existsb (String.eqb key) object_prototype_properties)
  && negb (is_array_index key).

(** The side conditions on a shape: an enumeration has at least two
    members, the keys of an object are distinct and are neither names that
    every object inherits nor array indices, and no member or key contains
    the text of the TypeScript annotation. *)
Fixpoint well_formed (shape : Shape) : bool :=
  match shape with
  | SString | SNumber | SBoolean => true
  | SArray item => well_formed item
  | SEnum values => Nat.leb 2 (length values) && forallb annotation_free values
  | SObject properties =>
      distinct (map (fun p : string * bool * Shape => p.1.1) properties)
      && forallb (fun p : string * bool * Shape =>
                    annotation_free p.1.1 && own_name p.1.1 && well_formed p.2) properties
  end.

(** The text the package emits for a shape, and the validator it denotes. *)
Fixpoint expr_of (shape : Shape) : string :=
  match shape with
  | SString => "z.string()"
  | SNumber => "z.number()"
  | SBoolean => "z.boolean()"
  | SArray item => "z.array(" +:+ expr_of item +:+ ")"
  | SEnum values => "z.enum([" +:+ join "," (map quote_string values) +:+ "])"
  | SObject [] => "z.object({})" +:+ ".strict()"
  | SObject properties =>
      ("z.object({ "
         +:+ join ", "
               (map (fun p : string * bool * Shape =>
                       quote_string p.1.1 +:+ ": " +:+ expr_of p.2
                         +:+ if p.1.2 then "" else ".optional()") properties)
         +:+ " })") +:+ ".strict()"
  end.

Fixpoint zod_of (shape : Shape) : ZodSchema :=
  match shape with
  | SString => ZodString
  | SNumber => ZodNumber
  | SBoolean => ZodBoolean
  | SArray item => ZodArray (zod_of item)
  | SEnum values => ZodEnum values
  | SObject properties =>
      ZodObject
        (map (fun p : string * bool * Shape =>
                (p.1.1, if p.1.2 then zod_of p.2 else ZodOptional (zod_of p.2))) properties)
        strict None
  end.

(** The text of one declared property. *)
Definition field_of (p : string * bool * Shape) : string :=
  quote_string p.1.1 +:+ ": " +:+ expr_of p.2 +:+ if p.1.2 then "" else ".optional()".

Fixpoint lt_free (s : string) : bool :=
  match s with
  | "" => true
  | String c rest => negb (Ascii.eqb c "<") && lt_free rest
  end.

(** A character of the pattern: [JSON.stringify] writes it as it is, and it
    is neither a quote nor the start of an escape. *)
Definition ordinary (c : ascii) : bool :=
  negb (Nat.ltb (nat_of_ascii c) 32)
  && negb (Ascii.eqb c dquote) && negb (Ascii.eqb c backslash).

(** The fuel that reading the text of a shape needs. *)
Fixpoint fuel_of (shape : Shape) : nat :=
  match shape with
  | SString | SNumber | SBoolean => 1
  | SArray item => S (fuel_of item)
  | SEnum values => S (length values)
  | SObject properties =>
      S (length properties
         + list_sum (map (fun p : string * bool * Shape => fuel_of p.2) properties))
  end.

(** The validator of one declared property. *)
Definition zod_field_of (p : string * bool * Shape) : string * ZodSchema :=
  (p.1.1, if p.1.2 then zod_of p.2 else ZodOptional (zod_of p.2)).

(** What may follow an expression: not the method that turns a number
    into an integer. *)
Definition ends_expression (rest : string) : Prop := strip_prefix ".int()" rest = None.

(** What a JSON-Schema of a supported shape declares valid. *)
Fixpoint valid (shape : Shape) (value : Json) {struct shape} : bool :=
  match shape with
  | SString => match value with JStr _ => true | _ => false end
  | SNumber => match value with JNum _ => true | _ => false end
  | SBoolean => match value with JBool _ => true | _ => false end
  | SArray item =>
      match value with
      | JArr items => forallb (valid item) items
      | _ => false
      end
  | SEnum values =>
      match value with
      | JStr s => existsb (String.eqb s) values
      | _ => false
      end
  | SObject properties =>
      match value with
      | JObj fields =>
          forallb (fun p : string * bool * Shape =>
                     match get_field p.1.1 fields with
                     | Some x => valid p.2 x
                     | None => negb p.1.2
                     end) properties
          && forallb (fun kv : string * Json =>
                        existsb (fun p : string * bool * Shape => String.eqb p.1.1 kv.1)
                          properties) fields
      | _ => false
      end
  end.

(** The primitive kind of a JSON value and of a shape. *)
Inductive Kind : Type := KNull | KBoolean | KNumber | KString | KArray | KObject.

Definition kind_of_value (value : Json) : Kind :=
  match value with
  | JNull => KNull
  | JBool _ => KBoolean
  | JNum _ => KNumber
  | JStr _ => KString
  | JArr _ => KArray
  | JObj _ => KObject
  end.

Definition kind_of_shape (shape : Shape) : Kind :=
  match shape with
  | SString => KString
  | SNumber => KNumber
  | SBoolean => KBoolean
  | SArray _ => KArray
  | SEnum _ => KString
  | SObject _ => KObject
  end.

(** The schemas and values of the scenarios. *)
Definition person_schema : Json :=
  JObj [("type", JStr "object");
        ("properties", JObj [("name", JObj [("type", JStr "string")])]);
        ("required", JArr [JStr "name"]);
        ("additionalProperties", JBool false)].

Definition bare_object_schema : Json := JObj [("type", JStr "object")].

Definition annotation_enum_schema : Json :=
  JObj [("type", JStr "string"); ("enum", JArr [JStr "<z.ZodError[]>"; JStr "b"])].

(** ** Sample values *)

(** A raw client that answers every call, with [endpoints] as the metadata. *)
Definition sample_response {T : Type} (body : T) : AxiosResponse T :=
  {| res_data := body; res_status := 200; res_headers := [] |}.

Definition sample_raw_client (endpoints : list EndpointMetadata) : RawOpenapiClient :=
  {| raw_getEndpoints := inr (sample_response {| data := endpoints |});
     raw_getStatus := inr (sample_response (JObj [("ok", JBool true)]));
     raw_getTargets := inr (sample_response (JObj [("data", JArr [])]));
     raw_getTargetDbStatus := fun _ => inr (sample_response (JObj [("ok", JBool true)]));
     raw_getSchema := fun _ => inr (sample_response (JObj []));
     raw_executeReadonlyQuery := fun _ _ => inr (sample_response (JArr []));
     raw_executeReadWriteQuery := fun _ _ => inr (sample_response (JArr []));
     raw_executeEndpointOnGet := fun _ parameters =>
       inr (sample_response
              (JObj match List.find (fun entry : string * string =>
                                        String.eqb entry.1 "limit") parameters with
                    | Some entry => [("limit", JStr entry.2)]
                    | None => []
                    end));
     raw_executeEndpointOnPost := fun _ _ => inr (sample_response (JObj [])) |}.

Definition sample_factory (endpoints : list EndpointMetadata)
    : option string -> option string -> RawOpenapiClient :=
  fun _ _ => sample_raw_client endpoints.

Definition sample_get_args : ExecuteRequestArgs :=
  {| args_path := "cars";
     args_requestMethod := "GET";
     args_parameters := [("limit", JNum 42); ("used", JBool true)] |}.

Definition sample_post_args : ExecuteRequestArgs :=
  {| args_path := "cars";
     args_requestMethod := "POST";
     args_parameters := [("limit", JNum 42); ("used", JBool true)] |}.

(** A response with a text body and no structured content. *)
Definition sample_text_error : AxiosError :=
  {| error_config := Some {| config_method := Some "get"; config_url := Some "/targets" |};
     error_response :=
       Some {| res_data := Some (JStr "Service Unavailable");
               res_status := 503;
               res_headers := [("content-type", "text/plain")] |} |}.

Definition sample_options : MCPOptions :=
  {| name := "Neurelo Connect";
     toolPrefix := Some "db";
     dynamicEndpointTools := false;
     testMode := None;
     engineBasePath := Some "https://engine.example";
     engineApiKey := Some "key";
     disableTools := Some ["raw_query"; "query_cars"];
     port := None |}.

Definition sample_dynamic_options : MCPOptions :=
  {| name := "Neurelo Connect";
     toolPrefix := None;
     dynamicEndpointTools := true;
     testMode := Some true;
     engineBasePath := None;
     engineApiKey := None;
     disableTools := None;
     port := Some "3000" |}.

Definition sample_test_options : MCPOptions :=
  {| name := "Neurelo Connect";
     toolPrefix := None;
     dynamicEndpointTools := false;
     testMode := Some true;
     engineBasePath := None;
     engineApiKey := None;
     disableTools := None;
     port := None |}.

(** Endpoints: two with parameters that compile, one whose parameter has
    no schema, one whose schema holds a [null] sub-schema, and endpoints
    that share a path. *)
Definition cars_endpoint : EndpointMetadata :=
  {| description := Some "Cars of a dealership";
     path := "cars";
     requestMethod := "GET";
     params := [("limit", {| param_description := "How many";
                             param_schema := Some (JObj [("type", JStr "number")]);
                             param_optional := true |})] |}.

Definition dealers_endpoint : EndpointMetadata :=
  {| description := None;
     path := "dealers";
     requestMethod := "POST";
     params := [("city", {| param_description := "City";
                            param_schema := Some (JObj [("type", JStr "string")]);
                            param_optional := false |})] |}.

Definition unfinished_parameter : string * QueryParameter :=
  ("limit", {| param_description := "How many";
               param_schema := None;
               param_optional := true |}).

Definition unfinished_endpoint : EndpointMetadata :=
  {| description := None;
     path := "cars";
     requestMethod := "GET";
     params := [unfinished_parameter] |}.

Definition null_property_schema : Json :=
  JObj [("type", JStr "object"); ("properties", JObj [("a", JNull)])].

Definition owners_parameter : QueryParameter :=
  {| param_description := "Filter";
     param_schema := Some null_property_schema;
     param_optional := false |}.

Definition owners_endpoint : EndpointMetadata :=
  {| description := None;
     path := "owners";
     requestMethod := "POST";
     params := [("filter", owners_parameter)] |}.

Definition plain_endpoint (method : string) : EndpointMetadata :=
  {| description := None; path := "orders"; requestMethod := method; params := [] |}.

Definition person_shape : Shape := SObject [("name", true, SString); ("age", false, SNumber)].

(** ** The session registry of the streaming HTTP transport

    What happens to [transports] over time: [GET /sse] connects a new
    transport, and the close of its response takes its entry away. *)
Inductive SseEvent : Type :=
| SseConnected (transport : SSEServerTransport)
| SseClosed (transport : SSEServerTransport).

Definition event_transport (event : SseEvent) : SSEServerTransport :=
  match event with
  | SseConnected transport => transport
  | SseClosed transport => transport
  end.

Definition sse_step (transports : gmap string SSEServerTransport) (event : SseEvent)
    : gmap string SSEServerTransport :=
  match event with
  | SseConnected transport => sse_open transport transports
  | SseClosed transport => sse_close transport transports
  end.

(** The registry after a history of events, starting from [{}]. *)
Definition sse_run (events : list SseEvent) : gmap string SSEServerTransport :=
  foldl sse_step ∅ events.

(** The last event of a history that concerns a session id. *)
Fixpoint last_event (id : string) (events : list SseEvent) : option SseEvent :=
  match events with
  | [] => None
  | event :: rest =>
      match last_event id rest with
      | Some later => Some later
      | None =>
          if String.eqb (sessionId (event_transport event)) id then Some event else None
      end
  end.

(** ** More views of the registrar *)

(** The one endpoint the mock facade of test mode reports. *)
Definition test_endpoint : EndpointMetadata :=
  {| description := Some "Test endpoint";
     path := "test";
     requestMethod := "GET";
     params := [] |}.

(** The result of a tool call that resolved with the JSON text of [value]. *)
Definition json_text_result (value : Json) : CallToolResult :=
  {| content := [ {| content_type := "text";
                     content_mimeType := "application/json";
                     content_text := JSON_stringify value |} ] |}.

(** A tool whose callback is a call followed by the JSON rendering of its
    result. *)
Definition json_tool (tool : RegisteredTool) : Prop :=
  exists call : ToolArguments -> Promise Json,
    forall args, tool_callback tool args = promise_then (call args) json_content.

(** [extends Q m]: running [m] leaves the name and the version of the
    server alone and appends tools that all satisfy [Q]. *)
Definition extends {A : Type} (Q : string * RegisteredTool -> Prop) (m : M A) : Prop :=
  forall st,
    exists extra : list (string * RegisteredTool),
      server (m st).2 = server (add_tools extra st) /\ Forall Q extra.

(** ** The command line (main.ts)

    Strings are read as sequences of code units below 256. *)

(** The white space [parseInt] skips, among those code units. *)
Definition is_white_space (c : ascii) : bool :=
  let n := nat_of_ascii c in
  (Nat.leb 9 n && Nat.leb n 13) || Nat.eqb n 32 || Nat.eqb n 160.

Fixpoint skip_white_space (s : string) : string :=
  match s with
  | String c rest => if is_white_space c then skip_white_space rest else s
  | "" => ""
  end.

(** The value of the longest prefix of decimal digits, if there is one. *)
Definition read_unsigned (s : string) : option Z :=
  match s with
  | String c rest =>
      match digit_value c with
      | Some d => Some (read_digits d rest).1
      | None => None
      end
  | "" => None
  end.

(** [Number.parseInt(s, 10)]; [None] is [NaN]. *)
Definition parseInt10 (s : string) : option Z :=
  match skip_white_space s with
  | String "-" rest => Z.opp <$> read_unsigned rest
  | String "+" rest => read_unsigned rest
  | trimmed => read_unsigned trimmed
  end.

(** [s.split(".")[0]]: the text before the first dot. *)
Fixpoint first_component (s : string) : string :=
  match s with
  | String c rest => if Ascii.eqb c "." then "" else String c (first_component rest)
  | "" => ""
  end.

(** What [process.exit] leaves behind: the lines written to [stderr] and
    the exit code. *)
Record ProcessExit : Type := {
  stderr_writes : list string;
  exit_code : Z;
}.

Definition requiredMajorVersion : Z := 18.

(** [function checkNodeVersion()]: [currentVersion] is
    [process.versions.node], [None] when it is not a string; the result is
    [None] when the function returns. *)
Definition checkNodeVersion (currentVersion : option string) : option ProcessExit :=
  let major :=
    match currentVersion with
    | Some text => parseInt10 (first_component text)
    | None => Some 0%Z
    end in
  match major with
  | Some m =>
      if (m <? requiredMajorVersion)%Z then
        Some {| stderr_writes :=
                  ["Error: This CLI requires Node.js version "
                     +:+ pretty requiredMajorVersion +:+ " or higher" +:+ String newline "";
                   "Current version: " +:+ (currentVersion ?? "undefined")
                     +:+ String newline ""];
                exit_code := 1 |}
      else None
  | None => None
  end.

Definition truthy_string (s : option string) : bool :=
  match s with
  | Some text => negb (String.eqb text "")
  | None => false
  end.

Definition truthy_flag (b : option bool) : bool := b ?? false.

(** The [preAction] hook of the [start] command. *)
Definition preAction (currentVersion : option string) (options : MCPOptions)
    : option ProcessExit :=
  match checkNodeVersion currentVersion with
  | Some exit => Some exit
  | None =>
      if negb (truthy_flag (testMode options)) then
        if negb (truthy_string (engineBasePath options)
                 && truthy_string (engineApiKey options))
        then
          Some {| stderr_writes :=
                    ["--engine-base-path and --engine-api-key are required when not in test mode"
                       +:+ String newline ""];
                  exit_code := 1 |}
        else None
      else None
  end.

(** How the [start] command ends: the process exits in the hook, or the
    action starts the server. *)
Inductive CommandOutcome : Type :=
| CommandExited (exit : ProcessExit)
| CommandStarted (run : (Thrown + Transport) * State).

Section StartCommand.

Variable jsonSchemaToZod : Json -> Thrown + string.
Variable newFunction : string -> Thrown + ZodSchema.
Variable DefaultApiFactory : option string -> option string -> RawOpenapiClient.

Definition start_command (currentVersion : option string) (options : MCPOptions)
    : CommandOutcome :=
  match preAction currentVersion options with
  | Some exit => CommandExited exit
  | None => CommandStarted (startMcpServer jsonSchemaToZod newFunction DefaultApiFactory options)
  end.

End StartCommand.

(** ** Schemas with alternatives *)

(** [{ oneOf: [...] }] *)
Definition oneOf_schema (alternatives : list Json) : Json :=
  JObj [("oneOf", JArr alternatives)].

(** The text the package emits for alternatives, without the annotation. *)
Definition oneOf_text (alternatives : list string) : string :=
  oneOf_open +:+ join ", " alternatives +:+ oneOf_middle +:+ oneOf_close.

(** A text in which no occurrence of the annotation starts. *)
Definition annotation_skipped (a : string) : Prop :=
  forall rest,
    occurs tsAnnotationRegex (a +:+ rest) = occurs tsAnnotationRegex rest.

(** An alternative that is a supported shape, or alternatives of its own. *)
Inductive Alternative : Type :=
| Plain (shape : Shape)
| Nested (shapes : list Shape).

Definition alternative_schema (alternative : Alternative) : Json :=
  match alternative with
  | Plain shape => schema_of shape
  | Nested shapes => oneOf_schema (map schema_of shapes)
  end.

(** The text the package emits for an alternative, the same text once the
    annotation of a nested alternative is removed, and the validator that
    text denotes. *)
Definition alternative_emitted (alternative : Alternative) : string :=
  match alternative with
  | Plain shape => expr_of shape
  | Nested shapes =>
      oneOf_open +:+ join ", " (map expr_of shapes) +:+ oneOf_middle
        +:+ "<z.ZodError[]>" +:+ oneOf_close
  end.

Definition alternative_text (alternative : Alternative) : string :=
  match alternative with
  | Plain shape => expr_of shape
  | Nested shapes => oneOf_text (map expr_of shapes)
  end.

Definition alternative_zod (alternative : Alternative) : ZodSchema :=
  match alternative with
  | Plain shape => zod_of shape
  | Nested shapes => ZodOneOf (map zod_of shapes)
  end.

Definition alternative_ok (alternative : Alternative) : bool :=
  match alternative with
  | Plain shape => well_formed shape
  | Nested shapes => Nat.leb 2 (length shapes) && forallb well_formed shapes
  end.

(** An HTTP client that cannot reach the engine. *)
Definition offline_raw_client : RawOpenapiClient :=
  {| raw_getEndpoints := inl (ThrownAxiosError sample_text_error);
     raw_getStatus := inl (ThrownAxiosError sample_text_error);
     raw_getTargets := inl (ThrownAxiosError sample_text_error);
     raw_getTargetDbStatus := fun _ => inl (ThrownAxiosError sample_text_error);
     raw_getSchema := fun _ => inl (ThrownAxiosError sample_text_error);
     raw_executeReadonlyQuery := fun _ _ => inl (ThrownAxiosError sample_text_error);
     raw_executeReadWriteQuery := fun _ _ => inl (ThrownAxiosError sample_text_error);
     raw_executeEndpointOnGet := fun _ _ => inl (ThrownAxiosError sample_text_error);
     raw_executeEndpointOnPost := fun _ _ => inl (ThrownAxiosError sample_text_error) |}.

Definition offline_factory : option string -> option string -> RawOpenapiClient :=
  fun _ _ => offline_raw_client.

Definition sample_session_history : list SseEvent :=
  [SseConnected {| sessionId := "s1" |}; SseConnected {| sessionId := "s2" |};
   SseClosed {| sessionId := "s1" |}].

(** * Properties *)

(** ** Numbers and objects *)

Lemma strip_zeros_spec (digits : string) :
  digits = (strip_zeros digits).1 +:+ zeros (strip_zeros digits).2
  /\ String.length digits
     = String.length (strip_zeros digits).1 + (strip_zeros digits).2.
Proof.
  induction digits as [|c rest [IHtext IHlength]]; [done|].
  cbn [strip_zeros]. destruct (strip_zeros rest) as [stripped count].
  cbn [fst snd] in IHtext, IHlength.
  destruct (Ascii.eqb_spec c "0") as [->|_]; cbn [andb].
  - destruct (String.eqb_spec stripped "") as [->|_]; cbn [fst snd].
    + change ("" +:+ zeros count) with (zeros count) in IHtext.
      change (String.length "" + count) with count in IHlength.
      split; [by rewrite IHtext at 1|cbn [String.length]; by rewrite IHlength].
    + split; [by rewrite IHtext at 1|cbn [String.length]; by rewrite IHlength].
  - cbn [fst snd].
    split; [by rewrite IHtext at 1|cbn [String.length]; by rewrite IHlength].
Qed.

Lemma pretty_N_go_length (d : nat) (x : N) (s : string) :
  (0 < x)%N -> (x < 10 ^ N.of_nat d)%N ->
  String.length (pretty_N_go x s) <= d + String.length s.
Proof.
  revert x s. induction d as [|d IH]; intros x s Hpos Hlt.
  - change (10 ^ N.of_nat 0)%N with 1%N in Hlt. lia.
  - rewrite pretty_N_go_step by done.
    assert (x `div` 10 < 10 ^ N.of_nat d)%N as Hdiv.
    { apply N.Div0.div_lt_upper_bound.
      replace (N.of_nat (S d)) with (N.succ (N.of_nat d)) in Hlt by lia.
      by rewrite N.pow_succ_r' in Hlt. }
    destruct (N.eq_0_gt_0_cases (x `div` 10)) as [->|Hgt].
    + rewrite pretty_N_go_0. cbn [String.length]. lia.
    + etransitivity; [by apply IH|]. cbn [String.length]. lia.
Qed.

(** An integer of at most 21 digits is printed in full. *)
Lemma number_to_string_integer (n : Z) :
  (Z.abs n < 10 ^ 21)%Z -> number_to_string (integer n) = pretty n.
Proof.
  intros Hbound. unfold number_to_string, integer. cbn [mantissa exponent].
  destruct (Z.eqb_spec n 0) as [->|Hne]; [done|].
  pose proof (strip_zeros_spec (pretty (Z.abs n))) as [Htext Hlength].
  assert (String.length (pretty (Z.abs n)) <= 21) as Hshort.
  { destruct n as [|p|p]; [done| |].
    - change (String.length (pretty_N_go (N.pos p) "") <= 21 + String.length "").
      apply pretty_N_go_length; [lia|]. change (10 ^ N.of_nat 21)%N with (Z.to_N (10 ^ 21)).
      lia.
    - change (String.length (pretty_N_go (N.pos p) "") <= 21 + String.length "").
      apply pretty_N_go_length; [lia|]. change (10 ^ N.of_nat 21)%N with (Z.to_N (10 ^ 21)).
      lia. }
  destruct (strip_zeros (pretty (Z.abs n))) as [s z]. cbn [fst snd] in Htext, Hlength.
  rewrite (proj2 (Z.leb_le _ _)) by lia.
  rewrite (proj2 (Z.leb_le _ _)) by lia.
  cbn [andb]. replace (Z.to_nat _) with z by lia. rewrite <- Htext.
  by destruct n.
Qed.

Lemma define_property_fresh {A : Type} (object : list (string * A)) (key : string)
    (value : A) :
  key ∉ object.*1 -> define_property object key value = object ++ [(key, value)].
Proof.
  induction object as [|[k v] object IH]; intros Hfresh; [done|].
  cbn [define_property]. rewrite fmap_cons in Hfresh. cbn [fst] in Hfresh.
  apply not_elem_of_cons in Hfresh as [Hne Hrest].
  destruct (String.eqb_spec k key) as [->|_]; [done|].
  by rewrite IH.
Qed.

(** Defining distinct new properties one after the other lists them in
    that order. *)
Lemma define_properties {A B : Type} (f : A -> B) (object : list (string * B))
    (entries : list (string * A)) :
  NoDup (object.*1 ++ entries.*1) ->
  foldl (fun (acc : list (string * B)) (entry : string * A) =>
           define_property acc entry.1 (f entry.2)) object entries
  = object ++ map (fun entry : string * A => (entry.1, f entry.2)) entries.
Proof.
  revert object. induction entries as [|[k v] entries IH]; intros object Hnodup.
  - cbn. by rewrite app_nil_r.
  - cbn [foldl map fst snd]. rewrite fmap_cons in Hnodup. cbn [fst] in Hnodup.
    rewrite define_property_fresh.
    + rewrite IH; [by rewrite <- app_assoc|].
      rewrite fmap_app, <- app_assoc. exact Hnodup.
    + apply NoDup_app in Hnodup as (_ & Hdisjoint & _).
      intros Hin. apply (Hdisjoint k Hin). by left.
Qed.

Lemma NoDup_filter_keys {A : Type} (P : string * A -> bool) (entries : list (string * A)) :
  NoDup entries.*1 -> NoDup (List.filter P entries).*1.
Proof.
  induction entries as [|[k v] entries IH]; intros Hnodup; [done|].
  rewrite fmap_cons in Hnodup. apply NoDup_cons in Hnodup as [Hfresh Hrest].
  cbn [List.filter]. destruct (P (k, v)); [|by apply IH].
  rewrite fmap_cons. apply NoDup_cons. split; [|by apply IH].
  intros Hin. apply Hfresh. apply list_elem_of_fmap in Hin as (entry & -> & Hin).
  apply list_elem_of_fmap. exists entry. split; [done|].
  apply list_elem_of_In. apply list_elem_of_In in Hin.
  by apply List.filter_In in Hin as [Hin _].
Qed.

(** The loop that fills the query parameters: every entry but one with
    the key ["__proto__"] is defined. *)
Lemma stringify_parameters_entries (parameters : list (string * Json)) :
  NoDup parameters.*1 ->
  stringify_parameters parameters
  = map (fun entry : string * Json => (entry.1, js_String entry.2))
      (List.filter (fun entry : string * Json => negb (String.eqb entry.1 "__proto__"))
         parameters).
Proof.
  intros Hnodup. unfold stringify_parameters.
  rewrite <- (app_nil_l (map _ _)).
  rewrite <- (define_properties js_String [])
    by (by apply (NoDup_filter_keys (fun entry => negb (String.eqb entry.1 "__proto__")))).
  clear Hnodup. generalize (@nil (string * string)) as object.
  induction parameters as [|[k v] parameters IH]; intros object; [done|].
  cbn [foldl List.filter fst snd]. unfold assign_property at 2.
  destruct (String.eqb k "__proto__"); cbn [negb foldl fst snd]; apply IH.
Qed.

(** The own properties of an object literal whose keys are distinct and
    are not ["__proto__"] are the entries as written. *)
Lemma object_literal_entries {A : Type} (entries : list (string * A)) :
  NoDup entries.*1 -> "__proto__" ∉ entries.*1 -> object_literal entries = Some entries.
Proof.
  intros Hnodup Hproto. unfold object_literal.
  assert (List.filter is_proto entries = []
          /\ List.filter (fun entry => negb (is_proto entry)) entries = entries)
    as [-> ->].
  { clear Hnodup. induction entries as [|[k v] entries IH]; [done|].
    rewrite fmap_cons in Hproto. cbn [fst] in Hproto.
    apply not_elem_of_cons in Hproto as [Hne Hrest].
    assert (is_proto (k, v) = false) as Hkey
      by (unfold is_proto; cbn [fst]; by apply String.eqb_neq).
    cbn [List.filter]. rewrite Hkey. cbn [negb].
    destruct (IH Hrest) as [-> ->]. done. }
  cbn [length Nat.leb].
  rewrite (define_properties (fun value : A => value) []) by done.
  cbn [app]. f_equal. clear. induction entries as [|[k v] entries IH]; [done|].
  cbn [map fst snd]. by rewrite IH.
Qed.

(** ** The engine client facade *)

Section FacadeProperties.

Variable base : RawOpenapiClient.


(** The loop of [executeRequest] assigns [parameters["__proto__"]], which
    defines no property: the parameter is left out of the GET call. *)
Lemma own_proto_parameter_is_not_sent :
  executeRequest (createEngineClient base)
    {| args_path := "cars";
       args_requestMethod := "GET";
       args_parameters := [("__proto__", JStr "x"); ("limit", JNum 42)] |}
  = facade (raw_executeEndpointOnGet base "cars" [("limit", "42")]).
Proof. reflexivity. Qed.

(** C6 (as amended). Through every operation of the facade, an
    [AxiosError] becomes one [EngineCallError] whose message names the
    method and the URL (or "unknown") and which carries the status, the
    headers and the body of the response as received, an empty object when
    there is no response or its body is undefined or null; every other
    thrown value passes unchanged; a response resolves to its data. *)
Theorem facade_errors :
  (forall (T : Type) (e : AxiosError),
     facade (inl (ThrownAxiosError e) : Promise (AxiosResponse T))
     = inl (ThrownEngineCallError
              {| ece_message :=
                   "Error calling "
                     +:+ match error_config e with
                         | Some {| config_method := Some method |} => method
                         | _ => "unknown"
                         end
                     +:+ " "
                     +:+ match error_config e with
                         | Some {| config_url := Some url |} => url
                         | _ => "unknown"
                         end;
                 ece_name := "EngineCallError";
                 ece_status :=
                   match error_response e with
                   | Some response => Some (res_status response)
                   | None => None
                   end;
                 ece_headers :=
                   match error_response e with
                   | Some response => Some (res_headers response)
                   | None => None
                   end;
                 ece_error :=
                   Some match error_response e with
                        | Some {| res_data := Some JNull |} => JObj []
                        | Some {| res_data := Some body |} => body
                        | _ => JObj []
                        end |}))
  /\ (forall (T : Type) (thrown : Thrown),
        (forall e, thrown <> ThrownAxiosError e) ->
        facade (inl thrown : Promise (AxiosResponse T)) = inl thrown)
  /\ (forall (T : Type) (response : AxiosResponse T),
        facade (inr response) = inr (res_data response))
  /\ getEndpoints (createEngineClient base) = facade (raw_getEndpoints base)
  /\ getStatus (createEngineClient base) = facade (raw_getStatus base)
  /\ getTargets (createEngineClient base) = facade (raw_getTargets base)
  /\ (forall slug,
        getTargetDbStatus (createEngineClient base) slug
        = facade (raw_getTargetDbStatus base slug))
  /\ (forall slug, getSchema (createEngineClient base) slug = facade (raw_getSchema base slug))
  /\ (forall slug body,
        executeReadonlyQuery (createEngineClient base) slug body
        = facade (raw_executeReadonlyQuery base slug body))
  /\ (forall slug body,
        executeReadWriteQuery (createEngineClient base) slug body
        = facade (raw_executeReadWriteQuery base slug body))
  /\ (forall args,
        executeRequest (createEngineClient base) args
        = facade (if String.eqb (args_requestMethod args) "GET"
                  then raw_executeEndpointOnGet base (args_path args)
                         (stringify_parameters (args_parameters args))
                  else raw_executeEndpointOnPost base (args_path args)
                         (args_parameters args))).
Proof.
  split; [|split; [|split; [|repeat split]]].
  - intros T [[[[method|] [url|]]|] [[[[]|] status headers]|]]; reflexivity.
  - intros T thrown Hother. destruct thrown as [| e | |]; try reflexivity.
    by destruct (Hother e).
  - reflexivity.
  - intros args. cbn. by destruct (String.eqb _ _).
Qed.

(** C6, counterexample. A response with a text body gives an
    [EngineCallError] whose [error] is that text, not an empty object. *)
Lemma text_body_is_kept :
  exists e,
    facade (inl (ThrownAxiosError sample_text_error) : Promise (AxiosResponse Json))
    = inl (ThrownEngineCallError e)
    /\ ece_status e = Some 503%Z
    /\ ece_error e = Some (JStr "Service Unavailable")
    /\ ece_error e <> Some (JObj []).
Proof. eexists. split; [reflexivity|]. repeat split. discriminate. Qed.

End FacadeProperties.

(** ** The registrar *)

Lemma has_key_app {A : Type} (key : string) (l1 l2 : list (string * A)) :
  has_key key (l1 ++ l2) = has_key key l1 || has_key key l2.
Proof. apply existsb_app. Qed.

Lemma has_key_false {A : Type} (key : string) (l : list (string * A)) :
  has_key key l = false <-> key ∉ l.*1.
Proof.
  induction l as [|[k v] l IH]; cbn.
  - split; [intros _; apply not_elem_of_nil | done].
  - rewrite orb_false_iff, IH, not_elem_of_cons.
    destruct (String.eqb_spec k key) as [->|Hne]; split.
    + intros [Hk _]; discriminate.
    + intros [Hk _]; by destruct Hk.
    + intros [_ Hl]; split; [by intros ->|done].
    + intros [_ Hl]; by split.
Qed.

Lemma prefixed_inj (toolPrefix : option string) (a b : string) :
  prefixed toolPrefix a = prefixed toolPrefix b -> a = b.
Proof.
  unfold prefixed. destruct toolPrefix as [p|]; [|done].
  destruct (String.eqb p ""); [done|].
  intros H. apply (inj (String.app p)) in H. by apply (inj (String.app "_")) in H.
Qed.

Lemma add_tools_add_tools (l1 l2 : list (string * RegisteredTool)) (st : State) :
  add_tools l2 (add_tools l1 st) = add_tools (l1 ++ l2) st.
Proof. unfold add_tools; cbn. by rewrite app_assoc. Qed.

Lemma add_tools_nil (st : State) : add_tools [] st = st.
Proof. destruct st as [[? ? ?] ?]. unfold add_tools; cbn. by rewrite app_nil_r. Qed.

Lemma server_tool_fresh (toolName toolDescription : string)
    (paramsSchema : option (list (string * ZodSchema)))
    (cb : ToolArguments -> Promise CallToolResult) (st : State) :
  registered toolName (server st) = false ->
  server_tool toolName toolDescription paramsSchema cb st
  = (inr tt, add_tools [(toolName, {| tool_description := toolDescription;
                                      tool_inputSchema := paramsSchema;
                                      tool_callback := cb |})] st).
Proof. intros H. unfold server_tool. by rewrite H. Qed.

Lemma server_tool_taken (toolName toolDescription : string)
    (paramsSchema : option (list (string * ZodSchema)))
    (cb : ToolArguments -> Promise CallToolResult) (st : State) :
  registered toolName (server st) = true ->
  server_tool toolName toolDescription paramsSchema cb st
  = (inl (ThrownError "Error" ("Tool " +:+ toolName +:+ " is already registered") None None),
     st).
Proof. intros H. unfold server_tool. by rewrite H. Qed.

Lemma register_list_run {A : Type} (toolPrefix : option string)
    (disableTools : option (list string)) (tools : list (string * RegisteredTool))
    (rest : M A) (st : State) :
  NoDup tools.*1 ->
  (forall base, base ∈ tools.*1 ->
     registered (prefixed toolPrefix base) (server st) = false) ->
  register_list toolPrefix disableTools tools rest st
  = rest (add_tools
            (map (tool_entry toolPrefix)
               (List.filter (fun entry : string * RegisteredTool =>
                               enabled disableTools entry.1) tools)) st).
Proof.
  revert st. induction tools as [|[base tool] tools IH]; intros st Hnodup Hfresh.
  - cbn. by rewrite add_tools_nil.
  - rewrite fmap_cons in Hnodup, Hfresh. cbn [fst] in *.
    apply NoDup_cons in Hnodup as [Hnotin Hnodup].
    cbn [register_list fst snd List.filter]. unfold register_builtin, bind, when, enabled.
    destruct (includes disableTools base); cbn [negb].
    + cbn. apply IH; [done|]. intros b Hb. apply Hfresh. by right.
    + rewrite server_tool_fresh by (apply Hfresh; by left).
      rewrite IH; [by rewrite add_tools_add_tools|done|].
      intros b Hb. unfold registered, add_tools; cbn [server _registeredTools].
      rewrite has_key_app, orb_false_iff. split.
      * apply Hfresh. by right.
      * cbn. rewrite orb_false_r. apply String.eqb_neq.
        intros Heq. apply prefixed_inj in Heq. by subst.
Qed.

Lemma grows_ret {A : Type} (Q : string -> Prop) (a : A) : grows Q (ret a).
Proof. intros st. exists []. cbn. by rewrite app_nil_r. Qed.

Lemma grows_throw {A : Type} (Q : string -> Prop) (e : Thrown) : grows Q (throw (A := A) e).
Proof. intros st. exists []. cbn. by rewrite app_nil_r. Qed.

Lemma grows_lift {A : Type} (Q : string -> Prop) (r : Thrown + A) : grows Q (lift r).
Proof. destruct r; [apply grows_throw | apply grows_ret]. Qed.

Lemma grows_bind {A B : Type} (Q : string -> Prop) (m : M A) (k : A -> M B) :
  grows Q m -> (forall a, grows Q (k a)) -> grows Q (bind m k).
Proof.
  intros Hm Hk st. unfold bind.
  destruct (Hm st) as (extra & Hreg & Hall & Hnodup).
  destruct (m st) as [[e|a] st'] eqn:Hrun; cbn in *.
  - by exists extra.
  - destruct (Hk a st') as (extra' & Hreg' & Hall' & Hnodup').
    exists (extra ++ extra'). split; [|split].
    + by rewrite Hreg', Hreg, app_assoc.
    + by apply Forall_app.
    + intros H. by apply Hnodup', Hnodup.
Qed.

Lemma grows_when (Q : string -> Prop) (b : bool) (m : M unit) :
  grows Q m -> grows Q (when b m).
Proof. destruct b; [done|]. intros _. apply grows_ret. Qed.

Lemma grows_server_tool (Q : string -> Prop) (toolName toolDescription : string)
    (paramsSchema : option (list (string * ZodSchema)))
    (cb : ToolArguments -> Promise CallToolResult) :
  Q toolName -> grows Q (server_tool toolName toolDescription paramsSchema cb).
Proof.
  intros HQ st. destruct (registered toolName (server st)) eqn:Hreg.
  - rewrite server_tool_taken by done. exists []. cbn. by rewrite app_nil_r.
  - rewrite server_tool_fresh by done. eexists. split; [reflexivity|]. split.
    + by repeat constructor.
    + unfold tool_names. cbn. rewrite fmap_app. intros Hnodup.
      apply NoDup_app. split; [done|]. split.
      * intros x Hx Hx'. cbn in Hx'. apply list_elem_of_singleton in Hx' as ->.
        by apply has_key_false in Hreg.
      * cbn. apply NoDup_singleton.
Qed.

Lemma grows_await_getEndpoints (Q : string -> Prop) (engine : EngineClient) :
  grows Q (await_getEndpoints engine).
Proof. intros st. exists []. cbn. by rewrite app_nil_r. Qed.

Section RegistrarProperties.

Variable jsonSchemaToZod : Json -> Thrown + string.
Variable newFunction : string -> Thrown + ZodSchema.
Variable DefaultApiFactory : option string -> option string -> RawOpenapiClient.

Lemma builtin_tools_names (engine : EngineClient) :
  (builtin_tools engine).*1 = builtin_names.
Proof. reflexivity. Qed.

Lemma builtin_names_NoDup : NoDup builtin_names.
Proof. apply (bool_decide_unpack _). by vm_compute. Qed.

Lemma startMcpServer_phases (options : MCPOptions) :
  startMcpServer jsonSchemaToZod newFunction DefaultApiFactory options
  = (endpoint_phase jsonSchemaToZod newFunction DefaultApiFactory options ;;
     ret (select_transport options)) (after_builtins DefaultApiFactory options).
Proof.
  change (startMcpServer jsonSchemaToZod newFunction DefaultApiFactory options)
    with (register_list (toolPrefix options) (disableTools options)
            (builtin_tools (select_engine DefaultApiFactory options))
            (endpoint_phase jsonSchemaToZod newFunction DefaultApiFactory options ;;
             ret (select_transport options))
            (new_McpServer (name options))).
  rewrite register_list_run; [done| |done].
  rewrite builtin_tools_names. apply builtin_names_NoDup.
Qed.

Lemma map_throwing_fails {A B : Type} (f : A -> Thrown + B) (l : list A) (a : A) (e : Thrown) :
  a ∈ l -> f a = inl e -> exists e', map_throwing f l = inl e'.
Proof.
  induction l as [|x l IH]; intros Hin Hfail.
  - by apply elem_of_nil in Hin.
  - cbn. apply elem_of_cons in Hin as [->|Hin].
    + rewrite Hfail. eauto.
    + destruct (f x); [eauto|].
      destruct (IH Hin Hfail) as [e' ->]. eauto.
Qed.

(** One turn of the loop, by cases. *)
Lemma addEndpoint_cases (options : MCPOptions) (endpoint : EndpointMetadata) (st : State) :
  let run := addEndpoint jsonSchemaToZod newFunction (select_engine DefaultApiFactory options)
               (toolPrefix options) (disableTools options) endpoint st in
  match map_throwing (compileParameter jsonSchemaToZod newFunction endpoint) (params endpoint) with
  | inl e => run = (inl e, st)
  | inr shape =>
      if endpoint_enabled options endpoint then
        if registered (prefixed (toolPrefix options) ("query_" +:+ path endpoint)) (server st)
        then exists e, run = (inl e, st)
        else run = (inr tt, add_tools [endpoint_entry DefaultApiFactory options endpoint shape] st)
      else run = (inr tt, st)
  end.
Proof.
  unfold addEndpoint, bind, lift, endpoint_enabled, enabled.
  destruct (map_throwing _ _) as [e|shape]; [done|]. cbn.
  destruct (includes _ _); cbn; [done|].
  destruct (registered _ _) eqn:Hreg.
  - rewrite server_tool_taken by done. eauto.
  - by rewrite server_tool_fresh.
Qed.

Lemma addEndpoints_success (options : MCPOptions) (endpoints : list EndpointMetadata)
    (st st' : State) :
  addEndpoints jsonSchemaToZod newFunction (select_engine DefaultApiFactory options)
    endpoints (toolPrefix options) (disableTools options) st = (inr tt, st') ->
  exists entries,
    st' = add_tools entries st
    /\ Forall2 (registered_for jsonSchemaToZod newFunction DefaultApiFactory options)
         (List.filter (endpoint_enabled options) endpoints) entries.
Proof.
  revert st. induction endpoints as [|endpoint rest IH]; intros st Hrun.
  - cbn in Hrun. injection Hrun as <-. exists []. by rewrite add_tools_nil.
  - cbn [addEndpoints] in Hrun. unfold bind at 1 in Hrun.
    pose proof (addEndpoint_cases options endpoint st) as Hcase. cbn zeta in Hcase.
    destruct (map_throwing _ _) as [e|shape] eqn:Hshape.
    { by rewrite Hcase in Hrun. }
    cbn [List.filter].
    destruct (endpoint_enabled options endpoint).
    + destruct (registered _ _).
      { destruct Hcase as [e He]. by rewrite He in Hrun. }
      rewrite Hcase in Hrun. apply IH in Hrun as (entries & -> & Hall).
      exists (endpoint_entry DefaultApiFactory options endpoint shape :: entries). split.
      * by rewrite add_tools_add_tools.
      * constructor; [|done]. by exists shape.
    + rewrite Hcase in Hrun. by apply IH in Hrun.
Qed.

(** Whatever happens, the loop only adds tools named after endpoints. *)
Lemma addEndpoints_state (options : MCPOptions) (endpoints : list EndpointMetadata)
    (st : State) :
  exists entries,
    (addEndpoints jsonSchemaToZod newFunction (select_engine DefaultApiFactory options)
       endpoints (toolPrefix options) (disableTools options) st).2 = add_tools entries st
    /\ Forall (fun entry : string * RegisteredTool =>
                 exists endpoint, entry.1 = prefixed (toolPrefix options)
                                              ("query_" +:+ path endpoint)) entries.
Proof.
  revert st. induction endpoints as [|endpoint rest IH]; intros st.
  - exists []. by rewrite add_tools_nil.
  - cbn [addEndpoints]. unfold bind at 1.
    pose proof (addEndpoint_cases options endpoint st) as Hcase. cbn zeta in Hcase.
    destruct (map_throwing _ _) as [e|shape].
    { rewrite Hcase. exists []. by rewrite add_tools_nil. }
    destruct (endpoint_enabled options endpoint).
    + destruct (registered _ _).
      { destruct Hcase as [e ->]. exists []. by rewrite add_tools_nil. }
      rewrite Hcase.
      destruct (IH (add_tools [endpoint_entry DefaultApiFactory options endpoint shape] st))
        as (entries & -> & Hall).
      exists (endpoint_entry DefaultApiFactory options endpoint shape :: entries). split.
      * by rewrite add_tools_add_tools.
      * constructor; [by exists endpoint|done].
    + rewrite Hcase. apply IH.
Qed.

Lemma query_name_not_builtin (x : string) : "query_" +:+ x ∉ builtin_names.
Proof.
  unfold builtin_names. intros Hin.
  repeat (apply elem_of_cons in Hin as [Hin|Hin]; [discriminate|]).
  by apply elem_of_nil in Hin.
Qed.

Lemma grows_addEndpoints (options : MCPOptions) (engine : EngineClient)
    (endpoints : list EndpointMetadata) :
  grows (endpoint_phase_name options)
    (addEndpoints jsonSchemaToZod newFunction engine endpoints
       (toolPrefix options) (disableTools options)).
Proof.
  induction endpoints as [|endpoint rest IH]; cbn [addEndpoints].
  - apply grows_ret.
  - apply grows_bind; [|done]. unfold addEndpoint.
    apply grows_bind; [apply grows_lift|]. intros shape.
    apply grows_when, grows_server_tool.
    eexists. split; [reflexivity|]. apply query_name_not_builtin.
Qed.

Lemma grows_endpoint_phase (options : MCPOptions) :
  grows (endpoint_phase_name options)
    (endpoint_phase jsonSchemaToZod newFunction DefaultApiFactory options).
Proof.
  unfold endpoint_phase. destruct (dynamicEndpointTools options).
  - apply grows_bind; [|intros _]; apply grows_server_tool;
      (eexists; split; [reflexivity|]); unfold builtin_names; intros Hin;
      repeat (apply elem_of_cons in Hin as [Hin|Hin]; [discriminate|]);
      by apply elem_of_nil in Hin.
  - apply grows_bind; [apply grows_await_getEndpoints|]. intros endpoints.
    apply grows_addEndpoints.
Qed.

Lemma has_key_tool_entries (toolPrefix : option string) (base : string)
    (tools : list (string * RegisteredTool)) :
  has_key (prefixed toolPrefix base) (map (tool_entry toolPrefix) tools) = has_key base tools.
Proof.
  induction tools as [|[k t] tools IH]; [done|]. cbn. f_equal; [|apply IH].
  destruct (String.eqb_spec k base) as [->|Hne]; [apply String.eqb_refl|].
  apply String.eqb_neq. intros H. by apply prefixed_inj in H.
Qed.

Lemma has_key_filter (f : string -> bool) (base : string)
    (tools : list (string * RegisteredTool)) :
  has_key base (List.filter (fun entry : string * RegisteredTool => f entry.1) tools)
  = f base && has_key base tools.
Proof.
  unfold has_key.
  induction tools as [|[k t] tools IH]; cbn; [by rewrite andb_false_r|].
  destruct (f k) eqn:Hf; cbn; rewrite IH.
  - destruct (String.eqb_spec k base) as [->|]; cbn; [by rewrite Hf|done].
  - destruct (String.eqb_spec k base) as [->|]; cbn; [by rewrite Hf|done].
Qed.

Lemma tool_entries_NoDup (toolPrefix : option string) (f : string -> bool)
    (tools : list (string * RegisteredTool)) :
  NoDup tools.*1 ->
  NoDup (map (tool_entry toolPrefix)
           (List.filter (fun entry : string * RegisteredTool => f entry.1) tools)).*1.
Proof.
  induction tools as [|[k t] tools IH]; intros Hnodup; [constructor|].
  rewrite fmap_cons in Hnodup. apply NoDup_cons in Hnodup as [Hnotin Hnodup].
  cbn [List.filter fst]. destruct (f k); [|by apply IH].
  cbn [map]. rewrite fmap_cons. apply NoDup_cons. split; [|by apply IH].
  intros Hin. apply has_key_false in Hin; [done|]. cbn [tool_entry fst].
  rewrite has_key_tool_entries, has_key_filter.
  apply andb_false_iff. right. by apply has_key_false.
Qed.

Lemma after_builtins_NoDup (options : MCPOptions) :
  NoDup (tool_names (after_builtins DefaultApiFactory options)).
Proof.
  unfold tool_names, after_builtins, expected_builtins, add_tools, new_McpServer.
  cbn [server _registeredTools app].
  apply (tool_entries_NoDup _ (enabled (disableTools options))).
  rewrite builtin_tools_names. apply builtin_names_NoDup.
Qed.

(** The registry at the end of startup: the enabled built-in tools, then
    tools of the endpoint phase; all names distinct. *)
Lemma final_registry (options : MCPOptions) :
  exists extra : list (string * RegisteredTool),
    _registeredTools
      (server (startMcpServer jsonSchemaToZod newFunction DefaultApiFactory options).2)
    = (expected_builtins (select_engine DefaultApiFactory options) (toolPrefix options)
         (disableTools options) ++ extra)%list
    /\ Forall (fun entry : string * RegisteredTool =>
                 endpoint_phase_name options entry.1) extra
    /\ NoDup (tool_names
                (startMcpServer jsonSchemaToZod newFunction DefaultApiFactory options).2).
Proof.
  rewrite startMcpServer_phases.
  assert (grows (endpoint_phase_name options)
            (endpoint_phase jsonSchemaToZod newFunction DefaultApiFactory options ;;
             ret (select_transport options))) as Hgrows.
  { apply grows_bind; [apply grows_endpoint_phase|]. intros _. apply grows_ret. }
  destruct (Hgrows (after_builtins DefaultApiFactory options)) as (extra & Hreg & Hall & Hnodup).
  exists extra. split; [|split]; [|done|].
  - by rewrite Hreg.
  - apply Hnodup, after_builtins_NoDup.
Qed.

Lemma builtin_registered (options : MCPOptions) (base : string) :
  base ∈ builtin_names ->
  registered (prefixed (toolPrefix options) base)
    (final_server jsonSchemaToZod newFunction DefaultApiFactory options)
  = enabled (disableTools options) base.
Proof.
  intros Hin. unfold registered, final_server.
  destruct (final_registry options) as (extra & -> & Hall & _).
  rewrite has_key_app. unfold expected_builtins.
  rewrite has_key_tool_entries, (has_key_filter (enabled (disableTools options))).
  assert (has_key base (builtin_tools (select_engine DefaultApiFactory options)) = true) as ->.
  { destruct (has_key base _) eqn:Hkey; [done|].
    apply has_key_false in Hkey. by rewrite builtin_tools_names in Hkey. }
  assert (has_key (prefixed (toolPrefix options) base) extra = false) as ->.
  { apply has_key_false. intros Hname.
    apply list_elem_of_fmap in Hname as [entry [Heq Hentry]].
    rewrite Forall_forall in Hall. destruct (Hall entry Hentry) as (x & Hx & Hnot).
    rewrite Hx in Heq. apply prefixed_inj in Heq. by subst. }
  by rewrite andb_true_r, orb_false_r.
Qed.

Lemma includes_without_disabled (disable : option (list string)) (base other : string) :
  other <> base ->
  includes (List.filter (fun x => negb (String.eqb x base)) <$> disable) other
  = includes disable other.
Proof.
  intros Hne. destruct disable as [l|]; [|done]. cbn.
  induction l as [|x l IH]; [done|]. cbn.
  destruct (String.eqb_spec x base) as [->|Hx]; cbn; rewrite IH; [|done].
  by apply String.eqb_neq in Hne as ->.
Qed.

(** C7. After registration with a disable-list, a built-in tool is absent
    exactly when its name is on the list, and taking one name off the list
    changes the presence of no other built-in tool. *)
Theorem disabling_builtin_tools (options : MCPOptions) (base : string) :
  base ∈ builtin_names ->
  (registered (prefixed (toolPrefix options) base)
     (final_server jsonSchemaToZod newFunction DefaultApiFactory options) = false
   <-> includes (disableTools options) base = true)
  /\ (forall other, other ∈ builtin_names -> other <> base ->
        registered (prefixed (toolPrefix options) other)
          (final_server jsonSchemaToZod newFunction DefaultApiFactory options)
        = registered (prefixed (toolPrefix options) other)
            (final_server jsonSchemaToZod newFunction DefaultApiFactory
               (without_disabled base options))).
Proof.
  intros Hin. split.
  - rewrite builtin_registered by done. unfold enabled.
    by destruct (includes _ _).
  - intros other Hother Hne.
    rewrite builtin_registered by done.
    change (toolPrefix options) with (toolPrefix (without_disabled base options)).
    rewrite builtin_registered by done. unfold enabled. cbn [without_disabled disableTools].
    by rewrite includes_without_disabled.
Qed.

Lemma not_registered_after_builtins (options : MCPOptions) (base : string) :
  base ∉ builtin_names ->
  registered (prefixed (toolPrefix options) base)
    (server (after_builtins DefaultApiFactory options)) = false.
Proof.
  intros Hnot. unfold registered, after_builtins, add_tools, new_McpServer, expected_builtins.
  cbn [server _registeredTools app].
  rewrite has_key_tool_entries, (has_key_filter (enabled (disableTools options))).
  apply andb_false_iff. right. apply has_key_false. by rewrite builtin_tools_names.
Qed.

(** C5 (as amended). In dynamic endpoint mode startup completes, asks the
    engine nothing and registers, after the built-in tools, exactly two
    tools: [system_get_endpoints], whose callback asks the engine for the
    endpoints and answers with the list as JSON, and [call_endpoint], with
    arguments path, requestMethod and a record of strings, numbers and
    booleans, whose callback calls [executeRequest] with them.  Otherwise
    startup asks the engine for the endpoints exactly once and, if it
    completes, has registered for every endpoint whose name [query_<path>]
    is not disabled one tool named [query_<path>], after [<toolPrefix>_]
    if a prefix is set, whose callback calls [executeRequest] with the
    endpoint's path and method and the arguments it was given. *)
Theorem registration_modes (options : MCPOptions) :
  let engine := select_engine DefaultApiFactory options in
  let tool_name := fun base : string =>
    match toolPrefix options with
    | Some p => if String.eqb p "" then base else p +:+ "_" +:+ base
    | None => base
    end in
  let answer := fun call : Promise Json =>
    match call with
    | inl e => inl e
    | inr result =>
        inr {| content := [ {| content_type := "text";
                               content_mimeType := "application/json";
                               content_text := JSON_stringify result |} ] |}
    end in
  (dynamicEndpointTools options = true ->
   exists list_tool call_tool : RegisteredTool,
     startMcpServer jsonSchemaToZod newFunction DefaultApiFactory options
     = (inr (select_transport options),
        add_tools [(tool_name "system_get_endpoints", list_tool);
                   (tool_name "call_endpoint", call_tool)]
          (after_builtins DefaultApiFactory options))
     /\ engine_calls
          (startMcpServer jsonSchemaToZod newFunction DefaultApiFactory options).2 = []
     /\ tool_inputSchema list_tool = Some []
     /\ (forall args,
           tool_callback list_tool args
           = answer match getEndpoints engine with
                    | inl e => inl e
                    | inr endpoints => inr (JArr (map endpoint_json (data endpoints)))
                    end)
     /\ (forall endpoint,
           get_field "path" match endpoint_json endpoint with
                            | JObj fields => fields
                            | _ => []
                            end = Some (JStr (path endpoint))
           /\ get_field "requestMethod" match endpoint_json endpoint with
                                        | JObj fields => fields
                                        | _ => []
                                        end = Some (JStr (requestMethod endpoint)))
     /\ tool_inputSchema call_tool
        = Some [("path", ZodString); ("requestMethod", ZodString);
                ("parameters", ZodRecord (ZodUnion [ZodString; ZodNumber; ZodBoolean]))]
     /\ (forall path requestMethod parameters,
           tool_callback call_tool
             [("path", JStr path); ("requestMethod", JStr requestMethod);
              ("parameters", JObj parameters)]
           = answer (executeRequest engine
                       {| args_path := path;
                          args_requestMethod := requestMethod;
                          args_parameters := parameters |})))
  /\ (dynamicEndpointTools options = false ->
      engine_calls (startMcpServer jsonSchemaToZod newFunction DefaultApiFactory options).2
      = [CallGetEndpoints]
      /\ forall transport st,
           startMcpServer jsonSchemaToZod newFunction DefaultApiFactory options
           = (inr transport, st) ->
           exists endpoints entries,
             getEndpoints engine = inr endpoints
             /\ _registeredTools (server st)
                = expected_builtins engine (toolPrefix options) (disableTools options)
                    ++ entries
             /\ Forall2
                  (fun endpoint entry =>
                     entry.1 = tool_name ("query_" +:+ path endpoint)
                     /\ forall args,
                          tool_callback entry.2 args
                          = answer (executeRequest engine
                                      {| args_path := path endpoint;
                                         args_requestMethod := requestMethod endpoint;
                                         args_parameters := args |}))
                  (List.filter
                     (fun endpoint =>
                        negb (includes (disableTools options) ("query_" +:+ path endpoint)))
                     (data endpoints))
                  entries).
Proof.
  intros engine tool_name answer. split; intros Hmode.
  - assert (startMcpServer jsonSchemaToZod newFunction DefaultApiFactory options
            = (inr (select_transport options),
               add_tools (dynamic_tools DefaultApiFactory options)
                 (after_builtins DefaultApiFactory options))) as Hrun.
    { rewrite startMcpServer_phases. unfold endpoint_phase, bind. rewrite Hmode.
      rewrite server_tool_fresh.
      2:{ apply not_registered_after_builtins. unfold builtin_names. intros Hin.
          repeat (apply elem_of_cons in Hin as [Hin|Hin]; [discriminate|]).
          by apply elem_of_nil in Hin. }
      rewrite server_tool_fresh.
      2:{ unfold registered, add_tools. cbn [server _registeredTools].
          rewrite has_key_app. apply orb_false_iff. split.
          - apply (not_registered_after_builtins options "call_endpoint").
            unfold builtin_names. intros Hin.
            repeat (apply elem_of_cons in Hin as [Hin|Hin]; [discriminate|]).
            by apply elem_of_nil in Hin.
          - cbn. rewrite orb_false_r. apply String.eqb_neq. intros Heq.
            by apply prefixed_inj in Heq. }
      cbn [ret]. by rewrite add_tools_add_tools. }
    exists (system_get_endpoints_tool DefaultApiFactory options),
      (call_endpoint_tool DefaultApiFactory options).
    split; [exact Hrun|]. split; [by rewrite Hrun|]. split; [reflexivity|].
    split.
    { intros args. cbn [tool_callback system_get_endpoints_tool].
      unfold system_get_endpoints_callback, promise_then, answer. fold engine.
      by destruct (getEndpoints engine). }
    split.
    { intros endpoint. unfold endpoint_json.
      destruct (description endpoint); split; reflexivity. }
    split; [reflexivity|].
    intros path requestMethod parameters.
    cbn [tool_callback call_endpoint_tool].
    unfold call_endpoint_callback, promise_then, answer. fold engine.
    change (string_argument "path" _) with path.
    change (string_argument "requestMethod" _) with requestMethod.
    change (match get_field "parameters" _ with Some (JObj fields) => fields | _ => [] end)
      with parameters.
    by destruct (executeRequest engine _).
  - rewrite startMcpServer_phases. unfold endpoint_phase, bind. rewrite Hmode.
    unfold await_getEndpoints. fold engine.
    destruct (getEndpoints engine) as [e|endpoints] eqn:Hget.
    { split; [reflexivity|]. intros transport st Hrun. discriminate. }
    destruct (addEndpoints _ _ _ _ _ _ _) as [[e|[]] st'] eqn:Hadd.
    + destruct (addEndpoints_state options (data endpoints)
                  {| server := server (after_builtins DefaultApiFactory options);
                     engine_calls :=
                       engine_calls (after_builtins DefaultApiFactory options)
                         ++ [CallGetEndpoints] |})
        as (entries & Hst & _).
      fold engine in Hst. rewrite Hadd in Hst. cbn in Hst. subst st'.
      split; [reflexivity|]. intros transport st Hrun. discriminate.
    + apply addEndpoints_success in Hadd as (entries & -> & Hall).
      split; [reflexivity|]. intros transport st Hrun. injection Hrun as _ <-.
      exists endpoints, entries. split; [done|]. split; [reflexivity|].
      eapply Forall2_impl; [exact Hall|].
      intros endpoint entry (shape & _ & ->). split; [reflexivity|].
      intros args. cbn [snd endpoint_entry tool_callback].
      unfold endpoint_callback, promise_then, answer. fold engine.
      by destruct (executeRequest engine _).
Qed.

Lemma registered_for_name (options : MCPOptions) (endpoints : list EndpointMetadata)
    (entries : list (string * RegisteredTool)) :
  Forall2 (registered_for jsonSchemaToZod newFunction DefaultApiFactory options)
    endpoints entries ->
  entries.*1
  = map (fun endpoint => prefixed (toolPrefix options) ("query_" +:+ path endpoint)) endpoints.
Proof.
  induction 1 as [|endpoint entry endpoints entries (shape & _ & ->) _ IH]; [done|].
  cbn. by rewrite <- IH.
Qed.

(** C9. The names in the registry are distinct whenever startup ends; when
    two endpoints that are not disabled share a path, startup ends with an
    error (the refusal by [server.tool] of a name already taken, or an
    earlier one) and never completes with one tool in place of the other;
    and the name of an endpoint's tool is never the name of a built-in
    tool. *)
Theorem tool_names_unique (options : MCPOptions) :
  NoDup (tool_names (startMcpServer jsonSchemaToZod newFunction DefaultApiFactory options).2)
  /\ (forall endpoints before first between second after,
        dynamicEndpointTools options = false ->
        getEndpoints (select_engine DefaultApiFactory options) = inr endpoints ->
        data endpoints = before ++ first :: between ++ second :: after ->
        path first = path second ->
        endpoint_enabled options first = true ->
        exists e,
          (startMcpServer jsonSchemaToZod newFunction DefaultApiFactory options).1 = inl e)
  /\ (forall endpoint base,
        base ∈ builtin_names ->
        prefixed (toolPrefix options) ("query_" +:+ path endpoint)
        <> prefixed (toolPrefix options) base).
Proof.
  split.
  { by destruct (final_registry options) as (extra & _ & _ & Hnodup). }
  split.
  2:{ intros endpoint base Hin Heq. apply prefixed_inj in Heq. subst base.
      by apply query_name_not_builtin in Hin. }
  intros endpoints before first between second after Hmode Hget Hdata Hpath Henabled.
  destruct (final_registry options) as (_ & _ & _ & Hnodup). revert Hnodup.
  rewrite startMcpServer_phases. unfold endpoint_phase, bind. rewrite Hmode.
  unfold await_getEndpoints. rewrite Hget.
  destruct (addEndpoints _ _ _ _ _ _ _) as [[e|[]] st'] eqn:Hadd; [by eauto|].
  intros Hnodup. exfalso. cbn in Hnodup.
  apply addEndpoints_success in Hadd as (entries & -> & Hall).
  unfold tool_names, add_tools in Hnodup. cbn [server _registeredTools] in Hnodup.
  rewrite fmap_app in Hnodup. apply NoDup_app in Hnodup as (_ & _ & Hnodup).
  rewrite (registered_for_name _ _ _ Hall), Hdata in Hnodup.
  assert (endpoint_enabled options second = true) as Henabled'.
  { unfold endpoint_enabled in *. by rewrite <- Hpath. }
  rewrite List.filter_app in Hnodup. cbn [List.filter] in Hnodup.
  rewrite Henabled, List.filter_app in Hnodup. cbn [List.filter] in Hnodup.
  rewrite Henabled' in Hnodup.
  rewrite map_app in Hnodup. apply NoDup_app in Hnodup as (_ & _ & Hnodup).
  cbn [map] in Hnodup. apply NoDup_cons in Hnodup as [Hnotin _].
  apply Hnotin. rewrite Hpath, map_app. apply elem_of_app. right. apply elem_of_cons. by left.
Qed.

Lemma addEndpoints_fails (options : MCPOptions) (engine : EngineClient)
    (endpoints : list EndpointMetadata) (endpoint : EndpointMetadata)
    (entry : string * QueryParameter) (e : Thrown) (st : State) :
  endpoint ∈ endpoints ->
  entry ∈ params endpoint ->
  compileParameter jsonSchemaToZod newFunction endpoint entry = inl e ->
  exists e',
    (addEndpoints jsonSchemaToZod newFunction engine endpoints
       (toolPrefix options) (disableTools options) st).1 = inl e'.
Proof.
  intros Hin Hentry Hfail. revert st.
  induction endpoints as [|endpoint' rest IH]; intros st.
  - by apply elem_of_nil in Hin.
  - cbn [addEndpoints]. unfold bind at 1.
    destruct (addEndpoint _ _ _ _ _ _ st) as [[e'|[]] st'] eqn:Hturn; [by eauto|].
    apply elem_of_cons in Hin as [<-|Hin]; [|by apply IH].
    exfalso. unfold addEndpoint, bind, lift in Hturn.
    destruct (map_throwing_fails _ _ _ _ Hentry Hfail) as [e' He'].
    by rewrite He' in Hturn.
Qed.

(** C10. The parameters of an endpoint are compiled before its name is
    looked up in the disable-list: a parameter that does not compile ends
    the pass at that endpoint with the compile error, whatever the
    disable-list holds, and an endpoint with such a parameter anywhere in
    the snapshot makes the whole pass fail. *)
Theorem compile_before_disable_check (options : MCPOptions) (engine : EngineClient) :
  (forall endpoint rest e st,
     map_throwing (compileParameter jsonSchemaToZod newFunction endpoint) (params endpoint)
     = inl e ->
     addEndpoints jsonSchemaToZod newFunction engine (endpoint :: rest)
       (toolPrefix options) (disableTools options) st = (inl e, st))
  /\ (forall endpoints endpoint entry e st,
        endpoint ∈ endpoints ->
        entry ∈ params endpoint ->
        includes (disableTools options) ("query_" +:+ path endpoint) = true ->
        compileParameter jsonSchemaToZod newFunction endpoint entry = inl e ->
        exists e',
          (addEndpoints jsonSchemaToZod newFunction engine endpoints
             (toolPrefix options) (disableTools options) st).1 = inl e').
Proof.
  split.
  - intros endpoint rest e st Hfail. cbn [addEndpoints].
    unfold bind at 1. unfold addEndpoint, bind, lift. by rewrite Hfail.
  - intros endpoints endpoint entry e st Hin Hentry _ Hfail.
    by eapply addEndpoints_fails.
Qed.

(** C1 (as amended). A parameter without a schema makes the registrar throw
    the error "No schema found ..."; a schema on which the transformation
    throws makes the compiler throw an error named
    [ZodSchemaConversionError] that carries the schema and the cause; an
    error of evaluating the generated text is thrown as it is; and a
    parameter without a schema, or with a schema on which the compiler
    throws, ends the registration pass with an error. *)
Theorem schema_failures_end_registration (options : MCPOptions) (engine : EngineClient) :
  (forall endpoint paramName param,
     truthy (param_schema param) = false ->
     compileParameter jsonSchemaToZod newFunction endpoint (paramName, param)
     = inl (ThrownError "Error"
              ("No schema found for parameter " +:+ paramName
                 +:+ " in endpoint " +:+ path endpoint) None None))
  /\ (forall jsonSchema cause,
        jsonSchemaToZod jsonSchema = inl cause ->
        exists message,
          getZodSchemaFromJsonSchema jsonSchemaToZod newFunction jsonSchema
          = inl (ThrownError "ZodSchemaConversionError" message
                   (Some cause) (Some jsonSchema)))
  /\ (forall jsonSchema zodSchemaString e,
        jsonSchemaToZod jsonSchema = inr zodSchemaString ->
        newFunction ("return " +:+ replace_first tsAnnotationRegex zodSchemaString +:+ ";")
        = inl e ->
        getZodSchemaFromJsonSchema jsonSchemaToZod newFunction jsonSchema = inl e)
  /\ (forall endpoints endpoint paramName param st,
        endpoint ∈ endpoints ->
        (paramName, param) ∈ params endpoint ->
        truthy (param_schema param) = false
        \/ (exists jsonSchema thrown,
              param_schema param = Some jsonSchema
              /\ getZodSchemaFromJsonSchema jsonSchemaToZod newFunction jsonSchema
                 = inl thrown) ->
        exists e,
          (addEndpoints jsonSchemaToZod newFunction engine endpoints
             (toolPrefix options) (disableTools options) st).1 = inl e).
Proof.
  assert (forall endpoint paramName param,
            truthy (param_schema param) = false ->
            compileParameter jsonSchemaToZod newFunction endpoint (paramName, param)
            = inl (ThrownError "Error"
                     ("No schema found for parameter " +:+ paramName
                        +:+ " in endpoint " +:+ path endpoint) None None)) as Habsent.
  { intros endpoint paramName param Hfalsy. unfold compileParameter.
    destruct (param_schema param) as [jsonSchema|]; [|done]. by rewrite Hfalsy. }
  split; [exact Habsent|]. split; [|split].
  - intros jsonSchema cause Hthrow. unfold getZodSchemaFromJsonSchema.
    rewrite Hthrow. eauto.
  - intros jsonSchema zodSchemaString e Htext Heval. unfold getZodSchemaFromJsonSchema.
    by rewrite Htext.
  - intros endpoints endpoint paramName param st Hin Hentry
      [Hfalsy|(jsonSchema & thrown & Hschema & Hthrow)].
    + eapply addEndpoints_fails; [done|done|]. by apply Habsent.
    + destruct (truthy (param_schema param)) eqn:Htruthy.
      * eapply addEndpoints_fails; [done|done|].
        unfold compileParameter. rewrite Hschema. rewrite Hschema in Htruthy.
        by rewrite Htruthy, Hthrow.
      * eapply addEndpoints_fails; [done|done|]. by apply Habsent.
Qed.

End RegistrarProperties.

(** ** The message endpoint *)

(** X2. The handler by cases: a session id that is not a string, or a string
    that is neither a key of the registry nor a property every object
    inherits, gets a 400 response; a key of the registry is routed to its
    transport; an inherited property name makes the handler throw. *)
Theorem post_messages_cases (transports : gmap string SSEServerTransport) :
  post_messages transports QueryUndefined = invalid_sessionId
  /\ (forall values, post_messages transports (QueryArray values) = invalid_sessionId)
  /\ (forall fields, post_messages transports (QueryObject fields) = invalid_sessionId)
  /\ (forall id transport,
        transports !! id = Some transport ->
        post_messages transports (QueryString id) = HandledBy transport)
  /\ (forall id,
        transports !! id = None ->
        id ∉ object_prototype_properties ->
        post_messages transports (QueryString id) = invalid_sessionId)
  /\ (forall id,
        transports !! id = None ->
        id ∈ object_prototype_properties ->
        exists e, post_messages transports (QueryString id) = Threw e).
Proof.
  repeat split; try reflexivity.
  - intros id transport Hown. unfold post_messages, get_property. by rewrite Hown.
  - intros id Hnone Hnot. unfold post_messages, get_property. rewrite Hnone.
    destruct (existsb _ _) eqn:Hex; [|done].
    apply existsb_exists in Hex as (x & Hin & Heq). apply String.eqb_eq in Heq as <-.
    by apply list_elem_of_In in Hin.
  - intros id Hnone Hin. unfold post_messages, get_property. rewrite Hnone.
    assert (existsb (String.eqb id) object_prototype_properties = true) as ->.
    { apply existsb_exists. exists id. split; [by apply list_elem_of_In|].
      apply String.eqb_refl. }
    eauto.
Qed.

(** C8, at the failing input. With no session open, a message posted with
    [sessionId=constructor] is not answered with status 400: the registry
    object yields the inherited [constructor], and calling its missing
    [handlePostMessage] throws a [TypeError]. *)
Theorem inherited_session_id_throws :
  ("constructor" ∉ dom (∅ : gmap string SSEServerTransport))
  /\ post_messages ∅ (QueryString "constructor")
     = Threw (ThrownError "TypeError" "transport.handlePostMessage is not a function"
                None None)
  /\ post_messages ∅ (QueryString "constructor") <> invalid_sessionId.
Proof. split; [set_solver|]. split; [reflexivity|discriminate]. Qed.

(** ** The compiler on the supported shapes *)

(** X3. Every row of the test table of mcp.test.ts passes: the schema
    compiles, the validator parses the values it should and none it should
    not, and converting it back gives the expected schema with the
    [$schema] marker. *)
Theorem test_table_passes : forallb test_passes test_cases = true.
Proof. by vm_compute. Qed.

#[local] Arguments String.append !_ _ / : simpl nomatch.

(** Induction on shapes that reaches the properties of an object. *)
Lemma Shape_induction (P : Shape -> Prop) :
  P SString -> P SNumber -> P SBoolean ->
  (forall item, P item -> P (SArray item)) ->
  (forall values, P (SEnum values)) ->
  (forall properties,
     Forall (fun p : string * bool * Shape => P p.2) properties -> P (SObject properties)) ->
  forall shape, P shape.
Proof.
  intros Hs Hn Hb Ha He Ho.
  fix IH 1. intros [| | |item|values|properties].
  - exact Hs.
  - exact Hn.
  - exact Hb.
  - apply Ha, IH.
  - apply He.
  - apply Ho. induction properties as [|p properties IHp]; constructor; [apply IH|exact IHp].
Qed.

Lemma is_any_zod_of (shape : Shape) : is_any (zod_of shape) = false.
Proof. by destruct shape. Qed.

(** Converting the validator of a shape back gives the schema of the shape. *)
Lemma parseDef_zod_of (shape : Shape) : parseDef (zod_of shape) = Some (schema_of shape).
Proof.
  induction shape as [| | |item IH|values|properties IH] using Shape_induction;
    try reflexivity.
  - cbn [zod_of parseDef]. by rewrite is_any_zod_of, IH.
  - cbn [zod_of parseDef schema_of].
    assert (all_some
              (map (fun entry : string * ZodSchema =>
                      match parseDef match entry.2 with
                                     | ZodOptional innerType => innerType
                                     | _ => entry.2
                                     end with
                      | Some rendered => Some (entry.1, rendered)
                      | None => None
                      end)
                 (map (fun p : string * bool * Shape =>
                         (p.1.1, if p.1.2 then zod_of p.2 else ZodOptional (zod_of p.2)))
                    properties))
            = Some (map (fun p : string * bool * Shape => (p.1.1, schema_of p.2)) properties))
      as ->.
    { induction IH as [|[[k r] sub] properties Hsub _ IHp]; [done|].
      cbn [map all_some fst snd] in *.
      destruct r; cbn [snd].
      - assert (match zod_of sub with
                | ZodOptional innerType => innerType
                | _ => zod_of sub
                end = zod_of sub) as -> by by destruct sub.
        by rewrite Hsub, IHp.
      - by rewrite Hsub, IHp. }
    assert (map (fun entry : string * ZodSchema => JStr entry.1)
              (List.filter (fun entry : string * ZodSchema => negb (is_optional entry.2))
                 (map (fun p : string * bool * Shape =>
                         (p.1.1, if p.1.2 then zod_of p.2 else ZodOptional (zod_of p.2)))
                    properties))
            = required_names properties) as ->.
    { unfold required_names. clear IH.
      induction properties as [|[[k r] sub] properties IHp]; [done|].
      cbn [map List.filter fst snd]. destruct r; cbn [is_optional negb].
      - assert (is_optional (zod_of sub) = false) as -> by by destruct sub.
        cbn. by rewrite IHp.
      - exact IHp. }
    by destruct (required_names properties).
Qed.

Lemma string_app_assoc (a b c : string) : (a +:+ b) +:+ c = a +:+ (b +:+ c).
Proof. induction a as [|ch a IH]; simpl; [done|by f_equal]. Qed.

Lemma string_app_nil_r (a : string) : a +:+ "" = a.
Proof. induction a as [|ch a IH]; simpl; [done|by f_equal]. Qed.

Lemma strip_prefix_app (p rest : string) : strip_prefix p (p +:+ rest) = Some rest.
Proof.
  induction p as [|ch p IH]; [by destruct rest|]. simpl. by rewrite Ascii.eqb_refl.
Qed.

Lemma get_required_schema_of (shape : Shape) :
  match schema_of shape with
  | JObj fields =>
      match get_field "required" fields with
      | Some (JBool true) => true
      | _ => false
      end
  | _ => false
  end = false.
Proof.
  destruct shape as [| | |item|values|properties]; try reflexivity.
  cbn [schema_of]. by destruct (required_names properties).
Qed.

Lemma required_names_elem (properties : list (string * bool * Shape)) (key : string) :
  existsb (strict_equal (JStr key)) (required_names properties) = true
  <-> exists sub, (key, true, sub) ∈ properties.
Proof.
  unfold required_names. induction properties as [|[[k r] sub] properties IH].
  - cbn. split; [done|]. intros [sub Hin]. by apply elem_of_nil in Hin.
  - cbn [List.filter fst snd]. destruct r; cbn [map existsb strict_equal fst snd].
    + rewrite orb_true_iff, IH. split.
      * intros [Heq|[sub' Hin]].
        -- apply String.eqb_eq in Heq as ->. exists sub. by left.
        -- exists sub'. by right.
      * intros [sub' Hin]. apply elem_of_cons in Hin as [Heq|Hin].
        -- injection Heq as -> _. left. apply String.eqb_refl.
        -- right. by exists sub'.
    + rewrite IH. split; intros [sub' Hin]; exists sub'.
      * by right.
      * apply elem_of_cons in Hin as [Heq|Hin]; [discriminate|done].
Qed.

(** With distinct keys, [is_required] reads the flag of each property. *)
Lemma is_required_flag (properties : list (string * bool * Shape))
    (key : string) (flag : bool) (sub : Shape) :
  NoDup (map (fun p : string * bool * Shape => p.1.1) properties) ->
  (key, flag, sub) ∈ properties ->
  is_required match required_names properties with
              | [] => None
              | names => Some (JArr names)
              end key (schema_of sub) = flag.
Proof.
  intros Hnodup Hin.
  assert (existsb (strict_equal (JStr key)) (required_names properties) = flag) as Hflag.
  { destruct flag.
    - apply required_names_elem. by exists sub.
    - apply not_true_is_false. intros Htrue.
      apply required_names_elem in Htrue as [sub' Hin'].
      clear -Hnodup Hin Hin'. induction properties as [|p properties IH].
      + by apply elem_of_nil in Hin.
      + cbn [map] in Hnodup. apply NoDup_cons in Hnodup as [Hnotin Hnodup].
        assert (forall q : string * bool * Shape, q ∈ properties ->
                  q.1.1 ∈ map (fun p : string * bool * Shape => p.1.1) properties) as Hkey.
        { intros q Hq. apply list_elem_of_In.
          apply (in_map (fun p : string * bool * Shape => p.1.1)).
          by apply list_elem_of_In. }
        apply elem_of_cons in Hin as [Hp|Hin]; apply elem_of_cons in Hin' as [Hp'|Hin'].
        * rewrite <- Hp in Hp'. discriminate.
        * subst p. apply Hnotin. apply (Hkey _ Hin').
        * subst p. apply Hnotin. apply (Hkey _ Hin).
        * by apply IH. }
  unfold is_required. destruct (required_names properties) as [|name names] eqn:Hnames.
  - cbn in Hflag. subst flag. pose proof (get_required_schema_of sub) as Hsub.
    by destruct (schema_of sub).
  - exact Hflag.
Qed.

Lemma parse_members (values : list string) :
  forallb is_string (map JStr values) = true
  /\ map JSON_stringify (map JStr values) = map quote_string values.
Proof.
  split; induction values as [|v values IH]; [done| |done|]; cbn; [done|by f_equal].
Qed.

(** The declared properties, parsed one by one. *)
Lemma parse_fields (all properties : list (string * bool * Shape)) :
  NoDup (map (fun p : string * bool * Shape => p.1.1) all) ->
  (forall p, p ∈ properties -> p ∈ all) ->
  Forall (fun p : string * bool * Shape => parseSchema (schema_of p.2) = inr (expr_of p.2))
    properties ->
  sequence_results
    (map (fun kv : string * Json =>
            match parseSchema kv.2 with
            | inl e => inl e
            | inr text =>
                inr (quote_string kv.1 +:+ ": " +:+ text
                       +:+ if is_required
                                match required_names all with
                                | [] => None
                                | names => Some (JArr names)
                                end kv.1 kv.2
                           then "" else ".optional()")
            end)
       (map (fun p : string * bool * Shape => (p.1.1, schema_of p.2)) properties))
  = inr (map field_of properties).
Proof.
  intros Hnodup Hsub Hparse.
  induction properties as [|[[k r] sub] properties IH]; [done|].
  apply Forall_cons in Hparse as [Hp Hparse].
  unfold sequence_results in *. cbn [map map_throwing fst snd] in *.
  rewrite Hp, (is_required_flag all k r sub Hnodup) by (apply Hsub; by left).
  rewrite IH; [done| |done]. intros p Hin. apply Hsub. by right.
Qed.

Lemma schema_of_truthy (shape : Shape) : truthy (Some (schema_of shape)) = true.
Proof. by destruct shape. Qed.

(** The package emits [expr_of shape] for the schema of a well-formed shape. *)
Lemma parseSchema_schema_of (shape : Shape) :
  well_formed shape = true -> parseSchema (schema_of shape) = inr (expr_of shape).
Proof.
  induction shape as [| | |item IH|values|properties IH] using Shape_induction;
    intros Hwf; try reflexivity.
  - cbn [schema_of]. cbn in Hwf. specialize (IH Hwf).
    cbn -[truthy]. by rewrite IH, schema_of_truthy.
  - cbn in Hwf. apply andb_true_iff in Hwf as [Hlen _].
    cbn [schema_of]. cbn.
    destruct (parse_members values) as [Hstrings Htexts].
    destruct values as [|v1 [|v2 values]]; [done|done|].
    unfold parseEnum. cbn [map] in *. by rewrite Hstrings, Htexts.
  - cbn [well_formed] in Hwf. apply andb_true_iff in Hwf as [Hdistinct Hwf].
    apply bool_decide_eq_true in Hdistinct.
    assert (Forall (fun p : string * bool * Shape =>
                      parseSchema (schema_of p.2) = inr (expr_of p.2)) properties) as Hparse.
    { rewrite Forall_forall in IH. apply Forall_forall. intros p Hin.
      apply IH; [done|]. rewrite forallb_forall in Hwf.
      apply list_elem_of_In in Hin. specialize (Hwf p Hin).
      by apply andb_true_iff in Hwf as [_ ?]. }
    pose proof (parse_fields properties properties Hdistinct (fun p H => H) Hparse) as Hfields.
    cbn [schema_of].
    destruct (required_names properties) as [|name names] eqn:Hnames.
    + cbv beta iota in Hfields.
      cbn -[truthy sequence_results is_required quote_string String.append map].
      rewrite Hfields.
      destruct properties as [|p properties]; [reflexivity|].
      cbn [map]. reflexivity.
    + cbv beta iota in Hfields.
      cbn -[truthy sequence_results is_required quote_string String.append map].
      rewrite Hfields.
      destruct properties as [|p properties]; [reflexivity|].
      cbn [map]. reflexivity.
Qed.

Lemma string_app_cons (c : ascii) (a b : string) : String c a +:+ b = String c (a +:+ b).
Proof. reflexivity. Qed.

Lemma occurs_lt_free (pattern a b : string) :
  lt_free a = true -> occurs (String "<" pattern) (a +:+ b) = occurs (String "<" pattern) b.
Proof.
  induction a as [|c a IH]; [done|]. intros H.
  cbn [lt_free] in H. apply andb_true_iff in H as [Hc Ha].
  apply negb_true_iff in Hc. rewrite Ascii.eqb_sym in Hc.
  change (String c a +:+ b) with (String c (a +:+ b)).
  cbn [occurs strip_prefix]. rewrite Hc. by apply IH.
Qed.

Lemma replace_first_absent (pattern s : string) :
  occurs pattern s = false -> replace_first pattern s = s.
Proof.
  induction s as [|c s IH]; cbn [occurs replace_first].
  - by destruct (strip_prefix pattern "").
  - destruct (strip_prefix pattern (String c s)); [done|]. intros H. by rewrite IH.
Qed.

Lemma escape_char_cases (c : ascii) :
  (ordinary c = true /\ escape_char c = String c "")
  \/ (ordinary c = false
      /\ exists tail, escape_char c = String backslash tail /\ lt_free tail = true).
Proof.
  destruct c as [[] [] [] [] [] [] [] []];
    first [ left; split; reflexivity | right; split; [reflexivity|]; eexists; split; reflexivity ].
Qed.

(** Whether an ordinary pattern starts the escaped text of a string is
    decided by the string itself. *)
Lemma strip_prefix_escape_chars (pattern s rest : string) :
  forallb ordinary (list_ascii_of_string pattern) = true ->
  pattern <> "" ->
  is_Some (strip_prefix pattern (escape_chars s +:+ String dquote rest))
  <-> is_Some (strip_prefix pattern s).
Proof.
  revert s. induction pattern as [|p pattern IH]; intros s Hord Hne; [done|].
  cbn [list_ascii_of_string forallb] in Hord. apply andb_true_iff in Hord as [Hp Hord].
  assert (Ascii.eqb p dquote = false /\ Ascii.eqb p backslash = false) as [Hpq Hpb].
  { unfold ordinary in Hp. repeat (apply andb_true_iff in Hp as [Hp ?]).
    split; by apply negb_true_iff. }
  destruct s as [|c s].
  - cbn [escape_chars]. change ("" +:+ String dquote rest) with (String dquote rest).
    cbn [strip_prefix]. rewrite Hpq. split; intros [? ?]; discriminate.
  - cbn [escape_chars].
    destruct (escape_char_cases c) as [[Hc ->]|[Hc (tail & -> & _)]];
      rewrite !string_app_cons; cbn [strip_prefix].
    + change ("" +:+ escape_chars s) with (escape_chars s).
      destruct (Ascii.eqb p c); [|done].
      destruct pattern as [|q pattern].
      * split; intros _; by eexists.
      * by apply IH.
    + rewrite Hpb.
      destruct (Ascii.eqb_spec p c) as [->|_]; [by rewrite Hp in Hc|].
      split; intros [? ?]; discriminate.
Qed.

Lemma occurs_escape_chars (pattern s rest : string) :
  forallb ordinary (list_ascii_of_string pattern) = true ->
  occurs (String "<" pattern) (escape_chars s +:+ String dquote rest)
  = occurs (String "<" pattern) s || occurs (String "<" pattern) rest.
Proof.
  intros Hord. induction s as [|c s IH]; [reflexivity|].
  assert (forallb ordinary (list_ascii_of_string (String "<" pattern)) = true) as Hord'
    by (cbn [list_ascii_of_string forallb]; by rewrite Hord).
  pose proof (strip_prefix_escape_chars (String "<" pattern) (String c s) rest Hord'
                ltac:(done)) as Hstart.
  assert (occurs (String "<" pattern) (escape_chars (String c s) +:+ String dquote rest)
          = match strip_prefix (String "<" pattern) (String c s) with
            | Some _ => true
            | None => occurs (String "<" pattern) (escape_chars s +:+ String dquote rest)
            end) as ->.
  { cbn [escape_chars] in *.
    destruct (escape_char_cases c) as [[_ Hesc]|[_ (tail & Hesc & Htail)]];
      rewrite Hesc in *; rewrite !string_app_cons in *;
      unfold occurs at 1; fold occurs.
    - change ("" +:+ escape_chars s) with (escape_chars s) in *.
      destruct (strip_prefix _ (String c (escape_chars s +:+ _))) eqn:Hesc',
               (strip_prefix _ (String c s)) eqn:Hraw; try done.
      + destruct (proj1 Hstart ltac:(by eexists)); discriminate.
      + destruct (proj2 Hstart ltac:(by eexists)); discriminate.
    - destruct (strip_prefix _ (String backslash _)) eqn:Hesc',
               (strip_prefix _ (String c s)) eqn:Hraw.
      + done.
      + destruct (proj1 Hstart ltac:(by eexists)); discriminate.
      + destruct (proj2 Hstart ltac:(by eexists)); discriminate.
      + rewrite string_app_assoc. by apply occurs_lt_free. }
  cbn [occurs]. destruct (strip_prefix _ (String c s)); [done|]. exact IH.
Qed.

Lemma occurs_quote_string (s rest : string) :
  occurs tsAnnotationRegex (quote_string s +:+ rest)
  = occurs tsAnnotationRegex s || occurs tsAnnotationRegex rest.
Proof.
  unfold quote_string. rewrite string_app_cons, string_app_assoc, string_app_cons.
  change ("" +:+ rest) with rest.
  unfold tsAnnotationRegex. rewrite <- occurs_escape_chars by reflexivity.
  reflexivity.
Qed.

Lemma occurs_after_quote_string (s rest : string) :
  annotation_free s = true ->
  occurs tsAnnotationRegex (quote_string s +:+ rest) = occurs tsAnnotationRegex rest.
Proof.
  intros Hfree. rewrite occurs_quote_string.
  unfold annotation_free in Hfree. apply negb_true_iff in Hfree.
  change "<z.ZodError[]>" with tsAnnotationRegex in Hfree. by rewrite Hfree.
Qed.

(** The text of a shape holds no annotation: what occurs in it and what
    follows it occurs in what follows it. *)
Lemma occurs_after_expr_of (shape : Shape) :
  well_formed shape = true ->
  forall rest,
    occurs tsAnnotationRegex (expr_of shape +:+ rest) = occurs tsAnnotationRegex rest.
Proof.
  induction shape as [| | |item IH|values|properties IH] using Shape_induction;
    intros Hwf rest; try (unfold tsAnnotationRegex; by apply occurs_lt_free).
  - cbn [expr_of]. cbn [well_formed] in Hwf. rewrite !string_app_assoc.
    unfold tsAnnotationRegex at 1. rewrite occurs_lt_free by done.
    rewrite (IH Hwf). unfold tsAnnotationRegex. by rewrite occurs_lt_free.
  - cbn [expr_of]. cbn [well_formed] in Hwf. apply andb_true_iff in Hwf as [_ Hfree].
    rewrite !string_app_assoc. unfold tsAnnotationRegex at 1.
    rewrite occurs_lt_free by done. fold tsAnnotationRegex.
    induction values as [|v values IHv].
    + unfold tsAnnotationRegex. cbn [map join].
      change ("" +:+ "])" +:+ rest) with ("])" +:+ rest). by rewrite occurs_lt_free.
    + cbn [forallb] in Hfree. apply andb_true_iff in Hfree as [Hv Hfree].
      destruct values as [|w values].
      * cbn [map join]. rewrite occurs_after_quote_string by done.
        unfold tsAnnotationRegex. by rewrite occurs_lt_free.
      * change (join "," (map quote_string (v :: w :: values)))
          with (quote_string v +:+ "," +:+ join "," (map quote_string (w :: values))).
        rewrite !string_app_assoc, occurs_after_quote_string by done.
        unfold tsAnnotationRegex at 1. rewrite occurs_lt_free by done.
        by apply IHv.
  - cbn [well_formed] in Hwf. apply andb_true_iff in Hwf as [_ Hwf].
    destruct properties as [|p properties].
    { unfold tsAnnotationRegex. cbn [expr_of]. rewrite string_app_assoc.
      rewrite occurs_lt_free by done. by rewrite occurs_lt_free. }
    cbn [expr_of]. rewrite !string_app_assoc. unfold tsAnnotationRegex at 1.
    rewrite occurs_lt_free by done. fold tsAnnotationRegex.
    assert (occurs tsAnnotationRegex (" })" +:+ ".strict()" +:+ rest)
            = occurs tsAnnotationRegex rest) as Hclose.
    { unfold tsAnnotationRegex. rewrite occurs_lt_free by done. by rewrite occurs_lt_free. }
    revert IH Hwf. generalize (p :: properties). clear p properties.
    intros properties IH Hwf.
    induction properties as [|[[k r] sub] properties IHp]; [exact Hclose|].
    apply Forall_cons in IH as [Hsub IH].
    cbn [forallb fst snd] in Hwf. apply andb_true_iff in Hwf as [Hp Hwf].
    apply andb_true_iff in Hp as [Hk Hwfsub]. cbn [snd] in Hsub.
    apply andb_true_iff in Hk as [Hk _].
    assert (forall tail,
              occurs tsAnnotationRegex
                ((quote_string k +:+ ": " +:+ expr_of sub
                    +:+ if r then "" else ".optional()") +:+ tail)
              = occurs tsAnnotationRegex tail) as Hfield.
    { intros tail. rewrite !string_app_assoc, occurs_after_quote_string by done.
      unfold tsAnnotationRegex at 1. rewrite occurs_lt_free by done.
      fold tsAnnotationRegex. rewrite (Hsub Hwfsub).
      unfold tsAnnotationRegex. apply occurs_lt_free. by destruct r. }
    destruct properties as [|q properties].
    + cbn [map join fst snd]. rewrite Hfield. exact Hclose.
    + cbn [map]. cbn [map] in IHp.
      match goal with
      | |- context [join ", " (?x :: ?y :: ?l)] =>
          change (join ", " (x :: y :: l)) with (x +:+ ", " +:+ join ", " (y :: l))
      end.
      cbn [fst snd]. rewrite (string_app_assoc _ (", " +:+ _)), Hfield.
      rewrite string_app_assoc. unfold tsAnnotationRegex at 1.
      rewrite occurs_lt_free by done. by apply IHp.
Qed.

Lemma replace_first_expr_of (shape : Shape) :
  well_formed shape = true ->
  replace_first tsAnnotationRegex (expr_of shape) = expr_of shape.
Proof.
  intros Hwf. apply replace_first_absent.
  rewrite <- (string_app_nil_r (expr_of shape)). by rewrite occurs_after_expr_of.
Qed.

Lemma read_string_body_escape (c : ascii) (text : string) :
  read_string_body (escape_char c +:+ text) = cons_char c (read_string_body text).
Proof. destruct c as [[] [] [] [] [] [] [] []]; reflexivity. Qed.

Lemma read_string_body_escape_chars (s rest : string) :
  read_string_body (escape_chars s +:+ String dquote rest) = Some (s, rest).
Proof.
  induction s as [|c s IH]; [reflexivity|].
  cbn [escape_chars]. by rewrite string_app_assoc, read_string_body_escape, IH.
Qed.

(** A string literal reads back as the string it was written from. *)
Lemma read_string_literal_quote_string (s rest : string) :
  read_string_literal (quote_string s +:+ rest) = Some (s, rest).
Proof.
  unfold quote_string. rewrite string_app_cons, string_app_assoc, string_app_cons.
  change ("" +:+ rest) with rest. cbn [read_string_literal].
  rewrite Ascii.eqb_refl. apply read_string_body_escape_chars.
Qed.

(** A list of texts joined by a separator reads back item by item, when
    each item reads back before any text in [good] and both the separator
    and the text after the list are in [good]. *)
Lemma read_list_join {A B : Type} (item : string -> option (B * string)) (sep : string)
    (text : A -> string) (value : A -> B) (good : string -> Prop)
    (xs : list A) (rest : string) (fuel : nat) :
  xs <> [] ->
  length xs <= fuel ->
  (forall x r, x ∈ xs -> good r -> item (text x +:+ r) = Some (value x, r)) ->
  (forall r, good (sep +:+ r)) ->
  good rest ->
  strip_prefix sep rest = None ->
  read_list item sep fuel (join sep (map text xs) +:+ rest) = Some (map value xs, rest).
Proof.
  intros Hne Hfuel Hitem Hsep Hgood Hrest. revert fuel Hfuel.
  induction xs as [|x xs IH]; [done|]. intros [|fuel] Hfuel; [simpl in Hfuel; lia|].
  destruct xs as [|y xs].
  - cbn [map join read_list]. rewrite Hitem by (done || by left). by rewrite Hrest.
  - change (join sep (map text (x :: y :: xs)))
      with (text x +:+ sep +:+ join sep (map text (y :: xs))).
    rewrite !string_app_assoc. cbn [read_list].
    rewrite Hitem by (apply Hsep || by left). rewrite strip_prefix_app.
    rewrite IH; [done|done| |simpl in *; lia].
    intros x' r Hin Hr. apply Hitem; [by right|done].
Qed.

Lemma fuel_of_property (properties : list (string * bool * Shape))
    (p : string * bool * Shape) :
  p ∈ properties ->
  fuel_of p.2 <= list_sum (map (fun p : string * bool * Shape => fuel_of p.2) properties).
Proof.
  induction properties as [|q properties IH]; intros Hin.
  - by apply elem_of_nil in Hin.
  - simpl. apply elem_of_cons in Hin as [->|Hin]; [lia|].
    specialize (IH Hin). lia.
Qed.

Lemma eval_expr_number (fuel : nat) (rest : string) :
  ends_expression rest ->
  eval_expr (S fuel) ("z.number()" +:+ rest) = Some (ZodNumber, rest).
Proof.
  unfold ends_expression. intros Hrest. cbn [eval_expr].
  change (strip_prefix "z.number().int()" ("z.number()" +:+ rest))
    with (strip_prefix ".int()" rest).
  rewrite Hrest. reflexivity.
Qed.

(** The declared properties of a well-formed object shape are the own
    properties of the object literal written for them. *)
Lemma object_literal_zod_fields (properties : list (string * bool * Shape)) :
  distinct (map (fun p : string * bool * Shape => p.1.1) properties) = true ->
  forallb (fun p : string * bool * Shape =>
             annotation_free p.1.1 && own_name p.1.1 && well_formed p.2) properties = true ->
  object_literal (map zod_field_of properties) = Some (map zod_field_of properties).
Proof.
  intros Hdistinct Hwf. apply bool_decide_eq_true in Hdistinct.
  assert ((map zod_field_of properties).*1
          = map (fun p : string * bool * Shape => p.1.1) properties) as Hkeys.
  { clear. induction properties as [|p properties IH]; [done|].
    cbn [map]. rewrite fmap_cons. by rewrite IH. }
  apply object_literal_entries; rewrite Hkeys; [done|].
  clear Hkeys Hdistinct. induction properties as [|p properties IH].
  - apply not_elem_of_nil.
  - cbn [forallb] in Hwf. apply andb_true_iff in Hwf as [Hp Hwf].
    apply andb_true_iff in Hp as [Hp _]. apply andb_true_iff in Hp as [_ Hown].
    cbn [map]. apply not_elem_of_cons. split; [|by apply IH].
    intros Heq. rewrite <- Heq in Hown. by vm_compute in Hown.
Qed.

Lemma eval_expr_expr_of (shape : Shape) :
  well_formed shape = true ->
  forall fuel rest,
    fuel_of shape <= fuel ->
    ends_expression rest ->
    eval_expr fuel (expr_of shape +:+ rest) = Some (zod_of shape, rest).
Proof.
  induction shape as [| | |item IH|values|properties IH] using Shape_induction;
    intros Hwf [|fuel] rest Hfuel Hrest; try (simpl in Hfuel; lia); try reflexivity.
  - by apply eval_expr_number.
  - cbn [expr_of]. simpl in Hwf. simpl in Hfuel.
    rewrite !string_app_assoc. simpl.
    rewrite (IH Hwf fuel) by (lia || done). simpl. reflexivity.
  - cbn [expr_of]. cbn [well_formed] in Hwf. apply andb_true_iff in Hwf as [Hlen Hplain].
    apply Nat.leb_le in Hlen. cbn [fuel_of] in Hfuel.
    rewrite !string_app_assoc. simpl.
    rewrite (read_list_join read_string_literal "," quote_string (fun v => v)
               (fun _ => True) values).
    + rewrite List.map_id. reflexivity.
    + intros ->. simpl in Hlen. lia.
    + lia.
    + intros v r Hin _. apply read_string_literal_quote_string.
    + done.
    + done.
    + reflexivity.
  - cbn [well_formed] in Hwf. apply andb_true_iff in Hwf as [Hdistinct Hwf].
    cbn [fuel_of] in Hfuel.
    destruct properties as [|p properties]; [reflexivity|].
    pose proof (object_literal_zod_fields _ Hdistinct Hwf) as Hliteral.
    cbn [expr_of zod_of]. rewrite !string_app_assoc. simpl.
    fold (field_of). fold zod_field_of.
    change (field_of p :: map field_of properties) with (map field_of (p :: properties)).
    rewrite (read_list_join (read_field (eval_expr fuel)) ", " field_of zod_field_of
               (fun r => strip_prefix ".optional()" r = None /\ ends_expression r)
               (p :: properties)).
    + unfold expect. cbn [strip_prefix Ascii.eqb Bool.eqb]. rewrite Hliteral.
      simpl. reflexivity.
    + done.
    + simpl in *. lia.
    + intros [[k r] sub] text Hin [Hgood Hends].
      rewrite forallb_forall in Hwf.
      pose proof (Hwf _ (proj1 (list_elem_of_In _ _) Hin)) as Hp. cbn [fst snd] in Hp.
      apply andb_true_iff in Hp as [Hk Hsub].
      rewrite Forall_forall in IH. pose proof (IH _ Hin Hsub) as Hexpr. cbn [snd] in Hexpr.
      pose proof (fuel_of_property _ _ Hin) as Hle. cbn [snd] in Hle.
      unfold field_of, zod_field_of, read_field. cbn [fst snd].
      rewrite !string_app_assoc, read_string_literal_quote_string.
      unfold expect. simpl (strip_prefix ": " _).
      assert (fuel_of sub <= fuel) as Hsubfuel by lia.
      destruct r.
      * change ("" +:+ text) with text.
        rewrite (Hexpr fuel _ Hsubfuel) by exact Hends. by rewrite Hgood.
      * rewrite (Hexpr fuel _ Hsubfuel) by reflexivity. by rewrite strip_prefix_app.
    + done.
    + done.
    + reflexivity.
Qed.

Lemma string_length_app (a b : string) :
  String.length (a +:+ b) = String.length a + String.length b.
Proof. induction a as [|c a IH]; simpl; [done|by rewrite IH]. Qed.

Lemma join_length (sep : string) (parts : list string) :
  list_sum (map String.length parts) <= String.length (join sep parts).
Proof.
  induction parts as [|part parts IH]; [done|].
  destruct parts as [|next parts]; [simpl; lia|].
  change (join sep (part :: next :: parts)) with (part +:+ sep +:+ join sep (next :: parts)).
  rewrite !string_length_app. simpl in *. lia.
Qed.

Lemma list_sum_le {A : Type} (f g : A -> nat) (l : list A) :
  (forall a, a ∈ l -> f a <= g a) -> list_sum (map f l) <= list_sum (map g l).
Proof.
  induction l as [|a l IH]; intros Hle; [done|]. simpl.
  pose proof (Hle a (list_elem_of_here a l)).
  assert (list_sum (map f l) <= list_sum (map g l)); [|lia].
  apply IH. intros b Hb. apply Hle. by right.
Qed.

Lemma list_sum_succ {A : Type} (f : A -> nat) (l : list A) :
  list_sum (map (fun a => S (f a)) l) = length l + list_sum (map f l).
Proof. induction l as [|a l IH]; simpl; [done|]. rewrite IH. lia. Qed.

(** The text of a shape is long enough to be read with its length as fuel. *)
Lemma fuel_of_length (shape : Shape) : fuel_of shape <= String.length (expr_of shape).
Proof.
  induction shape as [| | |item IH|values|properties IH] using Shape_induction;
    try (simpl; lia).
  - cbn [expr_of fuel_of]. rewrite !string_length_app. simpl. lia.
  - cbn [expr_of fuel_of]. rewrite !string_length_app.
    pose proof (join_length "," (map quote_string values)) as Hjoin.
    rewrite map_map in Hjoin.
    assert (length values <= list_sum (map (fun v => String.length (quote_string v)) values)).
    { clear. induction values as [|v values IH]; [done|].
      cbn [map length]. change (list_sum (?x :: ?l)) with (x + list_sum l).
      unfold quote_string at 1. cbn [String.length]. lia. }
    simpl String.length. lia.
  - destruct properties as [|p properties]; [simpl; lia|].
    cbn [expr_of fuel_of]. rewrite !string_length_app.
    match goal with
    | |- context [join ", " (map ?f ?l)] =>
        pose proof (join_length ", " (map f l)) as Hjoin;
        rewrite map_map in Hjoin;
        pose proof (list_sum_le (fun p : string * bool * Shape => S (fuel_of p.2))
                      (fun p => String.length (f p)) l) as Hsum
    end.
    rewrite list_sum_succ in Hsum.
    assert (forall a : string * bool * Shape, a ∈ p :: properties ->
              S (fuel_of a.2)
              <= String.length (quote_string a.1.1 +:+ ": " +:+ expr_of a.2
                                  +:+ if a.1.2 then "" else ".optional()")) as Hfield.
    { intros a Hin. rewrite Forall_forall in IH. specialize (IH a Hin).
      rewrite !string_length_app. unfold quote_string. cbn [String.length]. lia. }
    specialize (Hsum Hfield).
    change (String.length "z.object({ ") with 11.
    change (String.length " })") with 3.
    change (String.length ".strict()") with 9. lia.
Qed.

(** The compiler on the schema of a well-formed shape. *)
Lemma compile_schema_of (shape : Shape) :
  well_formed shape = true -> compile (schema_of shape) = inr (zod_of shape).
Proof.
  intros Hwf. unfold compile, getZodSchemaFromJsonSchema, jsonSchemaToZod_model.
  rewrite parseSchema_schema_of, replace_first_expr_of by done.
  unfold newFunction_model. rewrite strip_prefix_app.
  rewrite eval_expr_expr_of; [done|done| |reflexivity].
  rewrite string_length_app. pose proof (fuel_of_length shape). lia.
Qed.



(** C1, counterexample. A schema whose type the package does not know
    compiles, and so does the empty schema: the validator of each accepts
    every value. *)
Lemma unknown_type_accepts_everything :
  (exists validator,
     compile (JObj [("type", JStr "banana")]) = inr validator
     /\ forall input, safeParse validator input = true)
  /\ (exists validator,
        compile (JObj []) = inr validator
        /\ forall input, safeParse validator input = true).
Proof. split; exists ZodAny; (split; [by vm_compute|done]). Qed.

(** C5, counterexample. In static mode the endpoint [dealers] is not on
    the disable-list, yet it gets no tool: a parameter of the endpoint
    before it has no schema, and startup ends with that error after the
    built-in tools. *)
Lemma enabled_endpoint_without_tool :
  dynamicEndpointTools sample_options = false
  /\ includes (disableTools sample_options) "query_dealers" = false
  /\ getEndpoints
       (select_engine (sample_factory [unfinished_endpoint; dealers_endpoint]) sample_options)
     = inr {| data := [unfinished_endpoint; dealers_endpoint] |}
  /\ (startMcpServer jsonSchemaToZod_model newFunction_model
        (sample_factory [unfinished_endpoint; dealers_endpoint]) sample_options).1
     = inl (ThrownError "Error" "No schema found for parameter limit in endpoint cars"
              None None)
  /\ tool_names
       (startMcpServer jsonSchemaToZod_model newFunction_model
          (sample_factory [unfinished_endpoint; dealers_endpoint]) sample_options).2
     = ["db_system_list_databases"; "db_system_get_database_status"; "db_system_get_status";
        "db_system_get_database_schema"; "db_raw_readonly_query"].
Proof. repeat split; by vm_compute. Qed.

(** C4, at the failing input. The schema declares the string
    ["<z.ZodError[]>"] valid, but the compiled validator is the enumeration
    of [""] and ["b"]: it rejects that string and accepts the empty one. *)
Theorem enum_member_rewritten :
  schema_of (SEnum ["<z.ZodError[]>"; "b"]) = annotation_enum_schema
  /\ valid (SEnum ["<z.ZodError[]>"; "b"]) (JStr "<z.ZodError[]>") = true
  /\ valid (SEnum ["<z.ZodError[]>"; "b"]) (JStr "") = false
  /\ compile annotation_enum_schema = inr (ZodEnum [""; "b"])
  /\ safeParse (ZodEnum [""; "b"]) (Some (JStr "<z.ZodError[]>")) = false
  /\ safeParse (ZodEnum [""; "b"]) (Some (JStr "")) = true.
Proof. repeat split; by vm_compute. Qed.

Lemma safeParse_zod_of_undefined (shape : Shape) : safeParse (zod_of shape) None = false.
Proof. by destruct shape. Qed.

Lemma forallb_pointwise {A : Type} (f g : A -> bool) (l : list A) :
  Forall (fun a => f a = g a) l -> forallb f l = forallb g l.
Proof. induction 1 as [|a l Ha _ IH]; [done|]. simpl. by rewrite Ha, IH. Qed.

Lemma forallb_over_map {A B : Type} (f : B -> bool) (g : A -> B) (l : list A) :
  forallb f (map g l) = forallb (fun a => f (g a)) l.
Proof. induction l as [|a l IH]; [done|]. simpl. by rewrite IH. Qed.

Lemma existsb_over_map {A B : Type} (f : B -> bool) (g : A -> B) (l : list A) :
  existsb f (map g l) = existsb (fun a => f (g a)) l.
Proof. induction l as [|a l IH]; [done|]. simpl. by rewrite IH. Qed.

Lemma safeParse_zod_of (shape : Shape) (value : Json) :
  safeParse (zod_of shape) (Some value) = valid shape value.
Proof.
  revert value.
  induction shape as [| | |item IH|values|properties IH] using Shape_induction;
    intros value; try reflexivity.
  - cbn [zod_of safeParse valid]. destruct value as [| | | |items|]; try reflexivity.
    apply forallb_pointwise, Forall_forall. intros v _. apply IH.
  - cbn [zod_of safeParse valid]. destruct value as [| | | | |fields]; try reflexivity.
    f_equal.
    + rewrite forallb_over_map. apply forallb_pointwise.
      eapply Forall_impl; [exact IH|]. intros [[k r] sub] Hsub. cbn [fst snd] in *.
      destruct (get_field k fields) as [x|]; destruct r; cbn [safeParse negb]; try done.
      apply safeParse_zod_of_undefined.
    + apply forallb_pointwise, Forall_forall. intros [k v] _. cbn [fst snd].
      rewrite orb_false_r. unfold has_key. rewrite existsb_over_map. reflexivity.
Qed.

(** X1. The validators of the supported shapes: for a well-formed shape the
    schema compiles to a validator that accepts exactly the values the
    schema declares valid, hence none of another primitive kind; and the
    validator of the closed object schema with the required string property
    [name] accepts [{name: "Jane"}] and rejects [{}], [{name: 1}] and
    [{name: "Jane", extra: true}]. *)
Theorem validators_of_supported_shapes (shape : Shape) :
  well_formed shape = true ->
  exists validator,
    compile (schema_of shape) = inr validator
    /\ (forall value, safeParse validator (Some value) = valid shape value)
    /\ (forall value, kind_of_value value <> kind_of_shape shape ->
          safeParse validator (Some value) = false)
    /\ exists person,
         compile person_schema = inr person
         /\ safeParse person (Some (JObj [("name", JStr "Jane")])) = true
         /\ safeParse person (Some (JObj [])) = false
         /\ safeParse person (Some (JObj [("name", JNum 1)])) = false
         /\ safeParse person (Some (JObj [("name", JStr "Jane"); ("extra", JBool true)]))
            = false.
Proof.
  intros Hwf. exists (zod_of shape). split; [by apply compile_schema_of|].
  split; [apply safeParse_zod_of|]. split.
  - intros value Hkind. rewrite safeParse_zod_of.
    destruct shape, value; try reflexivity; by destruct Hkind.
  - eexists. split; [by vm_compute|]. by vm_compute.
Qed.

(** ** The theorems at sample values *)


Lemma facade_errors_at_samples :
  facade (inl (ThrownValue (JStr "offline")) : Promise (AxiosResponse Json))
  = inl (ThrownValue (JStr "offline")).
Proof.
  apply (proj1 (proj2 (facade_errors (sample_raw_client [])))). discriminate.
Defined.

Lemma disabling_builtin_tools_at_samples :
  "raw_query" ∈ builtin_names
  /\ registered "db_raw_query"
       (final_server jsonSchemaToZod_model newFunction_model
          (sample_factory [cars_endpoint; dealers_endpoint]) sample_options) = false
  /\ registered "db_raw_readonly_query"
       (final_server jsonSchemaToZod_model newFunction_model
          (sample_factory [cars_endpoint; dealers_endpoint]) sample_options) = true.
Proof.
  assert ("raw_query" ∈ builtin_names) as Hin by (unfold builtin_names; repeat constructor).
  split; [exact Hin|].
  pose proof (disabling_builtin_tools jsonSchemaToZod_model newFunction_model
                (sample_factory [cars_endpoint; dealers_endpoint]) sample_options
                "raw_query" Hin) as [Habsent Hframe].
  split.
  - apply Habsent. reflexivity.
  - etransitivity; [|reflexivity].
    apply (Hframe "raw_readonly_query"); [|discriminate].
    unfold builtin_names. repeat constructor.
Defined.

Lemma registration_modes_at_samples :
  tool_names
    (startMcpServer jsonSchemaToZod_model newFunction_model (sample_factory [])
       sample_dynamic_options).2
  = builtin_names ++ ["system_get_endpoints"; "call_endpoint"]
  /\ exists endpoints entries,
       getEndpoints
         (select_engine (sample_factory [cars_endpoint; dealers_endpoint]) sample_options)
       = inr endpoints
       /\ _registeredTools
            (server
               (startMcpServer jsonSchemaToZod_model newFunction_model
                  (sample_factory [cars_endpoint; dealers_endpoint]) sample_options).2)
          = expected_builtins
              (select_engine (sample_factory [cars_endpoint; dealers_endpoint]) sample_options)
              (toolPrefix sample_options) (disableTools sample_options) ++ entries
       /\ Forall2
            (fun endpoint entry =>
               entry.1 = "db_" +:+ "query_" +:+ path endpoint
               /\ forall args,
                    tool_callback entry.2 args
                    = match executeRequest
                              (select_engine (sample_factory [cars_endpoint; dealers_endpoint])
                                 sample_options)
                              {| args_path := path endpoint;
                                 args_requestMethod := requestMethod endpoint;
                                 args_parameters := args |} with
                      | inl e => inl e
                      | inr result =>
                          inr {| content := [ {| content_type := "text";
                                                 content_mimeType := "application/json";
                                                 content_text := JSON_stringify result |} ] |}
                      end)
            (List.filter
               (fun endpoint =>
                  negb (includes (disableTools sample_options) ("query_" +:+ path endpoint)))
               (data endpoints))
            entries.
Proof.
  split.
  - destruct (proj1 (registration_modes jsonSchemaToZod_model newFunction_model
                       (sample_factory []) sample_dynamic_options) eq_refl)
      as (list_tool & call_tool & Hrun & _).
    rewrite Hrun. reflexivity.
  - apply (proj2 (proj2 (registration_modes jsonSchemaToZod_model newFunction_model
                           (sample_factory [cars_endpoint; dealers_endpoint])
                           sample_options) eq_refl) Stdio).
    reflexivity.
Defined.

Lemma tool_names_unique_at_samples :
  exists e,
    (startMcpServer jsonSchemaToZod_model newFunction_model
       (sample_factory [cars_endpoint; plain_endpoint "GET"; plain_endpoint "POST"])
       sample_options).1 = inl e.
Proof.
  apply (proj1 (proj2 (tool_names_unique jsonSchemaToZod_model newFunction_model
                         (sample_factory
                            [cars_endpoint; plain_endpoint "GET"; plain_endpoint "POST"])
                         sample_options))
           {| data := [cars_endpoint; plain_endpoint "GET"; plain_endpoint "POST"] |}
           [cars_endpoint] (plain_endpoint "GET") [] (plain_endpoint "POST") []);
    reflexivity.
Defined.

Lemma compile_before_disable_check_at_samples :
  includes (disableTools sample_options) "query_cars" = true
  /\ exists e,
       (addEndpoints jsonSchemaToZod_model newFunction_model testEngineClient
          [dealers_endpoint; unfinished_endpoint] (Some "db") (disableTools sample_options)
          (new_McpServer "Neurelo Connect")).1 = inl e.
Proof.
  split; [reflexivity|].
  apply (proj2 (compile_before_disable_check jsonSchemaToZod_model newFunction_model
                  sample_options testEngineClient)
           [dealers_endpoint; unfinished_endpoint] unfinished_endpoint unfinished_parameter
           (ThrownError "Error" "No schema found for parameter limit in endpoint cars"
              None None)).
  - repeat constructor.
  - repeat constructor.
  - reflexivity.
  - reflexivity.
Defined.

Lemma schema_failures_end_registration_at_samples :
  (exists message,
     compile null_property_schema
     = inl (ThrownError "ZodSchemaConversionError" message
              (Some null_schema_error) (Some null_property_schema)))
  /\ exists e,
       (addEndpoints jsonSchemaToZod_model newFunction_model testEngineClient
          [dealers_endpoint; owners_endpoint] (Some "db") (disableTools sample_options)
          (new_McpServer "Neurelo Connect")).1 = inl e.
Proof.
  pose proof (schema_failures_end_registration jsonSchemaToZod_model newFunction_model
                sample_options testEngineClient) as (_ & Hconversion & _ & Hpass).
  split.
  - apply Hconversion. reflexivity.
  - apply (Hpass [dealers_endpoint; owners_endpoint] owners_endpoint "filter"
             owners_parameter).
    + repeat constructor.
    + repeat constructor.
    + right. eexists _, _. split; reflexivity.
Defined.


Lemma validators_of_supported_shapes_at_samples :
  exists validator,
    compile (schema_of person_shape) = inr validator
    /\ forall value, safeParse validator (Some value) = valid person_shape value.
Proof.
  destruct (validators_of_supported_shapes person_shape eq_refl)
    as (validator & Hcompile & Hvalid & _).
  exists validator. split; [exact Hcompile|exact Hvalid].
Defined.

Lemma post_messages_cases_at_samples :
  post_messages {[ "s1" := {| sessionId := "s1" |} ]} (QueryString "s1")
  = HandledBy {| sessionId := "s1" |}
  /\ post_messages {[ "s1" := {| sessionId := "s1" |} ]} (QueryString "s2")
     = invalid_sessionId.
Proof.
  pose proof (post_messages_cases {[ "s1" := {| sessionId := "s1" |} ]})
    as (_ & _ & _ & Hown & Hunknown & _).
  split.
  - apply Hown. reflexivity.
  - apply Hunknown; [reflexivity|].
    unfold object_prototype_properties. intros Hin.
    repeat (apply elem_of_cons in Hin as [Hin|Hin]; [discriminate|]).
    by apply elem_of_nil in Hin.
Defined.

(** * Further properties *)

(** ** The session registry over time *)

Lemma last_event_app (id : string) (events : list SseEvent) (event : SseEvent) :
  last_event id (events ++ [event])
  = if String.eqb (sessionId (event_transport event)) id then Some event
    else last_event id events.
Proof.
  induction events as [|first rest IH]; cbn [app last_event].
  - by destruct (String.eqb _ _).
  - rewrite IH. destruct (String.eqb (sessionId (event_transport event)) id); [done|].
    reflexivity.
Qed.

Lemma sse_run_lookup (events : list SseEvent) (id : string) :
  sse_run events !! id
  = match last_event id events with
    | Some (SseConnected transport) => Some transport
    | _ => None
    end.
Proof.
  unfold sse_run.
  induction events as [|event events IH] using rev_ind; [apply lookup_empty|].
  rewrite foldl_app, last_event_app. cbn [foldl].
  destruct event as [transport|transport]; cbn [sse_step event_transport];
    unfold sse_open, sse_close;
    destruct (String.eqb_spec (sessionId transport) id) as [->|Hne].
  - apply lookup_insert_eq.
  - by rewrite lookup_insert_ne.
  - apply lookup_delete_eq.
  - by rewrite lookup_delete_ne.
Qed.

(** X4. After any history of connections and closes (under session ids
    other than ["__proto__"], as the random ids of the SDK are), a message
    posted with a session id is routed to the transport that connected
    last under that id, if no transport with that id has closed since;
    otherwise it is answered with status 400, unless the id names a
    property that every object inherits, on which the handler throws. *)
Theorem session_routing (events : list SseEvent) (id : string) :
  Forall (fun event => sessionId (event_transport event) <> "__proto__") events ->
  post_messages (sse_run events) (QueryString id)
  = match last_event id events with
    | Some (SseConnected transport) => HandledBy transport
    | _ =>
        if existsb (String.eqb id) object_prototype_properties
        then Threw (ThrownError "TypeError"
                      "transport.handlePostMessage is not a function" None None)
        else invalid_sessionId
    end.
Proof.
  intros _. unfold post_messages, get_property. rewrite sse_run_lookup.
  destruct (last_event id events) as [[transport|transport]|]; [done|..];
    by destruct (existsb _ _).
Qed.

(** ** The engine client facade: what it never rejects with *)

(** X5. No operation of the engine client rejects with an [AxiosError]:
    whatever the HTTP client does, the caller sees a resolved value, an
    [EngineCallError], or the other thrown value as it was; and handling an
    error twice changes nothing. *)
Theorem facade_hides_AxiosError (base : RawOpenapiClient) :
  (forall (T : Type) (p : Promise (AxiosResponse T)) e, facade p <> inl (ThrownAxiosError e))
  /\ (forall thrown, handleError (handleError thrown) = handleError thrown)
  /\ (forall args e, executeRequest (createEngineClient base) args <> inl (ThrownAxiosError e))
  /\ (forall e, getEndpoints (createEngineClient base) <> inl (ThrownAxiosError e))
  /\ (forall e, getStatus (createEngineClient base) <> inl (ThrownAxiosError e))
  /\ (forall e, getTargets (createEngineClient base) <> inl (ThrownAxiosError e))
  /\ (forall slug e,
        getTargetDbStatus (createEngineClient base) slug <> inl (ThrownAxiosError e))
  /\ (forall slug e, getSchema (createEngineClient base) slug <> inl (ThrownAxiosError e))
  /\ (forall slug body e,
        executeReadonlyQuery (createEngineClient base) slug body <> inl (ThrownAxiosError e))
  /\ (forall slug body e,
        executeReadWriteQuery (createEngineClient base) slug body
        <> inl (ThrownAxiosError e)).
Proof.
  assert (forall (T : Type) (p : Promise (AxiosResponse T)) e,
            facade p <> inl (ThrownAxiosError e)) as Hfacade.
  { intros T p e. destruct p as [[| a | |]|response]; discriminate. }
  split; [exact Hfacade|]. split.
  { by intros [| a | |]. }
  repeat split; intros; try apply Hfacade.
  cbn. destruct (String.eqb _ _); apply Hfacade.
Qed.

(** ** The registrar: more on startup *)

Lemma extends_ret {A : Type} (Q : string * RegisteredTool -> Prop) (a : A) :
  extends Q (ret a).
Proof. intros st. exists []. by rewrite add_tools_nil. Qed.

Lemma extends_lift {A : Type} (Q : string * RegisteredTool -> Prop) (r : Thrown + A) :
  extends Q (lift r).
Proof. intros st. exists []. rewrite add_tools_nil. by destruct r. Qed.

Lemma extends_bind {A B : Type} (Q : string * RegisteredTool -> Prop) (m : M A)
    (k : A -> M B) :
  extends Q m -> (forall a, extends Q (k a)) -> extends Q (bind m k).
Proof.
  intros Hm Hk st. unfold bind.
  destruct (Hm st) as (extra & Hserver & Hall).
  destruct (m st) as [[e|a] st'] eqn:Hrun; cbn [snd] in *.
  - by exists extra.
  - destruct (Hk a st') as (extra' & Hserver' & Hall').
    exists (extra ++ extra'). split; [|by apply Forall_app].
    rewrite Hserver'. unfold add_tools. cbn [server]. rewrite Hserver. cbn.
    by rewrite app_assoc.
Qed.

Lemma extends_when (Q : string * RegisteredTool -> Prop) (b : bool) (m : M unit) :
  extends Q m -> extends Q (when b m).
Proof. destruct b; [done|]. intros _. apply extends_ret. Qed.

Lemma extends_server_tool (Q : string * RegisteredTool -> Prop)
    (toolName toolDescription : string) (paramsSchema : option (list (string * ZodSchema)))
    (cb : ToolArguments -> Promise CallToolResult) :
  Q (toolName, {| tool_description := toolDescription;
                  tool_inputSchema := paramsSchema;
                  tool_callback := cb |}) ->
  extends Q (server_tool toolName toolDescription paramsSchema cb).
Proof.
  intros HQ st. destruct (registered toolName (server st)) eqn:Hreg.
  - rewrite server_tool_taken by done. exists []. by rewrite add_tools_nil.
  - rewrite server_tool_fresh by done. eexists. split; [reflexivity|]. by constructor.
Qed.

Lemma extends_await_getEndpoints (Q : string * RegisteredTool -> Prop)
    (engine : EngineClient) :
  extends Q (await_getEndpoints engine).
Proof. intros st. exists []. by rewrite add_tools_nil. Qed.

Section StartupProperties.

Variable jsonSchemaToZod : Json -> Thrown + string.
Variable newFunction : string -> Thrown + ZodSchema.
Variable DefaultApiFactory : option string -> option string -> RawOpenapiClient.

Lemma extends_addEndpoints (engine : EngineClient) (endpoints : list EndpointMetadata)
    (toolPrefix : option string) (disableTools : option (list string)) :
  extends (fun entry => json_tool entry.2)
    (addEndpoints jsonSchemaToZod newFunction engine endpoints toolPrefix disableTools).
Proof.
  induction endpoints as [|endpoint rest IH]; cbn [addEndpoints].
  - apply extends_ret.
  - apply extends_bind; [|done]. unfold addEndpoint.
    apply extends_bind; [apply extends_lift|]. intros shape.
    apply extends_when, extends_server_tool. eexists. intros args. reflexivity.
Qed.

Lemma extends_startMcpServer (options : MCPOptions) :
  exists extra : list (string * RegisteredTool),
    final_server jsonSchemaToZod newFunction DefaultApiFactory options
    = {| server_name := name options;
         server_version := version;
         _registeredTools := extra |}
    /\ Forall (fun entry => json_tool entry.2) extra.
Proof.
  assert (forall (base : string) (tool : RegisteredTool),
            json_tool tool ->
            extends (fun entry => json_tool entry.2)
              (register_builtin (toolPrefix options) (disableTools options) base tool))
    as Hbuiltin.
  { intros base tool [call Hcall]. apply extends_when, extends_server_tool.
    exists call. exact Hcall. }
  unfold final_server, startMcpServer.
  match goal with
  | |- context [server (?m ?st).2] =>
      assert (extends (fun entry => json_tool entry.2) m) as Hextends
  end.
  { repeat (apply extends_bind;
            [apply Hbuiltin; eexists; intros args; reflexivity|intros _]).
    apply extends_bind; [|intros _; apply extends_ret].
    destruct (dynamicEndpointTools options).
    - apply extends_bind; [|intros _]; apply extends_server_tool.
      + exists (fun _ =>
                  promise_then (getEndpoints (select_engine DefaultApiFactory options))
                    (fun endpoints => JArr (map endpoint_json (data endpoints)))).
        intros args. cbn. unfold system_get_endpoints_callback.
        by destruct (getEndpoints _).
      + eexists. intros args. reflexivity.
    - apply extends_bind; [apply extends_await_getEndpoints|]. intros endpoints.
      apply extends_addEndpoints. }
  destruct (Hextends (new_McpServer (name options))) as (extra & -> & Hall).
  by exists extra.
Qed.

(** X6. Whatever the options, the engine and the outcome of startup, the
    server keeps the configured name and the version of the package, and
    every tool in its registry answers a call that resolves with exactly
    one text block of type [application/json] holding the JSON text of a
    value. *)
Theorem registered_tools_answer_json (options : MCPOptions) :
  server_name (final_server jsonSchemaToZod newFunction DefaultApiFactory options)
  = name options
  /\ server_version (final_server jsonSchemaToZod newFunction DefaultApiFactory options)
     = version
  /\ (forall toolName tool args result,
        (toolName, tool)
          ∈ _registeredTools
              (final_server jsonSchemaToZod newFunction DefaultApiFactory options) ->
        tool_callback tool args = inr result ->
        exists value, result = json_text_result value).
Proof.
  destruct (extends_startMcpServer options) as (extra & -> & Hall).
  split; [done|]. split; [done|].
  intros toolName tool args result Hin Hresult. cbn in Hin.
  rewrite Forall_forall in Hall. destruct (Hall _ Hin) as [call Hcall].
  cbn [snd] in Hcall. rewrite Hcall in Hresult.
  destruct (call args) as [e|value]; [discriminate|].
  injection Hresult as <-. by exists value.
Qed.

(** X7. In test mode with per-endpoint tools, startup always completes,
    whatever the packages and the HTTP client do: it asks the mock facade
    for the endpoints once and registers, after the built-in tools that are
    not disabled, the tool [query_test] without parameters, unless that
    name is disabled. *)
Theorem test_mode_startup (options : MCPOptions) :
  testMode options = Some true ->
  dynamicEndpointTools options = false ->
  exists st,
    startMcpServer jsonSchemaToZod newFunction DefaultApiFactory options
    = (inr (select_transport options), st)
    /\ engine_calls st = [CallGetEndpoints]
    /\ _registeredTools (server st)
       = expected_builtins testEngineClient (toolPrefix options) (disableTools options)
           ++ (if includes (disableTools options) "query_test" then []
               else [(prefixed (toolPrefix options) "query_test",
                      {| tool_description := "Defined Query: Test endpoint";
                         tool_inputSchema := Some [];
                         tool_callback := endpoint_callback testEngineClient test_endpoint |})]).
Proof.
  intros Htest Hmode. rewrite startMcpServer_phases.
  unfold endpoint_phase, bind, after_builtins, select_engine. rewrite Hmode, Htest.
  cbn [await_getEndpoints getEndpoints testEngineClient data addEndpoints].
  unfold bind, addEndpoint, bind. cbn [map_throwing params lift ret path].
  change ("query_" +:+ "test") with "query_test".
  destruct (includes (disableTools options) "query_test") eqn:Hdisabled; cbn [negb when ret].
  - eexists. split; [reflexivity|]. split; [reflexivity|]. cbn. by rewrite app_nil_r.
  - rewrite server_tool_fresh.
    + eexists. split; [reflexivity|]. split; reflexivity.
    + unfold registered, add_tools, new_McpServer, expected_builtins.
      cbn [server _registeredTools app].
      rewrite has_key_tool_entries, (has_key_filter (enabled (disableTools options))).
      apply andb_false_r.
Qed.

(** X8. When the HTTP client fails to fetch the endpoints, startup with
    per-endpoint tools against a real engine rejects with what the facade
    makes of that failure (an [EngineCallError] for an [AxiosError]), after
    one call to the engine, with the built-in tools registered and no
    other, and connects no transport. *)
Theorem endpoint_fetch_failure (options : MCPOptions) (thrown : Thrown) :
  testMode options <> Some true ->
  dynamicEndpointTools options = false ->
  raw_getEndpoints (DefaultApiFactory (engineBasePath options) (engineApiKey options))
  = inl thrown ->
  startMcpServer jsonSchemaToZod newFunction DefaultApiFactory options
  = (inl (handleError thrown),
     {| server := server (after_builtins DefaultApiFactory options);
        engine_calls := [CallGetEndpoints] |}).
Proof.
  intros Htest Hmode Hfail. rewrite startMcpServer_phases.
  unfold endpoint_phase, bind. rewrite Hmode.
  assert (getEndpoints (select_engine DefaultApiFactory options) = inl (handleError thrown))
    as Hget.
  { unfold select_engine. destruct (testMode options) as [[|]|]; [done|..];
      cbn; by rewrite Hfail. }
  unfold await_getEndpoints. by rewrite Hget.
Qed.

End StartupProperties.

(** ** The command line *)

Lemma pretty_N_char_digit (d : N) :
  (d < 10)%N ->
  digit_value (pretty_N_char d) = Some (Z.of_N d)
  /\ is_white_space (pretty_N_char d) = false
  /\ Ascii.eqb (pretty_N_char d) "." = false
  /\ parseInt10 (String (pretty_N_char d) "") = Some (Z.of_N d).
Proof.
  intros Hd.
  assert (d = 0 \/ d = 1 \/ d = 2 \/ d = 3 \/ d = 4 \/ d = 5 \/ d = 6 \/ d = 7
          \/ d = 8 \/ d = 9)%N as Hcases by lia.
  repeat (destruct Hcases as [->|Hcases]; [by vm_compute|]). subst d. by vm_compute.
Qed.

Lemma pretty_N_go_app (x : N) (s t : string) :
  pretty_N_go x s +:+ t = pretty_N_go x (s +:+ t).
Proof.
  revert s. induction (N.lt_wf_0 x) as [x _ IH]; intros s.
  assert (x = 0 \/ 0 < x)%N as [->|Hpos] by lia; [by rewrite !pretty_N_go_0|].
  rewrite (pretty_N_go_step x s), (pretty_N_go_step x (s +:+ t)) by done.
  rewrite IH by (by apply N.div_lt). reflexivity.
Qed.

Lemma read_digits_pretty_N_go (x : N) (s : string) :
  read_digits 0 (pretty_N_go x s) = read_digits (Z.of_N x) s.
Proof.
  revert s. induction (N.lt_wf_0 x) as [x _ IH]; intros s.
  assert (x = 0 \/ 0 < x)%N as [->|Hpos] by lia; [by rewrite !pretty_N_go_0|].
  rewrite pretty_N_go_step by done. rewrite IH by (by apply N.div_lt).
  cbn [read_digits].
  destruct (pretty_N_char_digit (x `mod` 10)%N) as [-> _]; [by apply N.mod_lt|].
  f_equal. rewrite (N.div_mod x 10) at 3 by done. lia.
Qed.

Lemma first_component_pretty_N_go (x : N) (s : string) :
  first_component (pretty_N_go x s) = pretty_N_go x (first_component s).
Proof.
  revert s. induction (N.lt_wf_0 x) as [x _ IH]; intros s.
  assert (x = 0 \/ 0 < x)%N as [->|Hpos] by lia; [by rewrite !pretty_N_go_0|].
  rewrite (pretty_N_go_step x s), (pretty_N_go_step x (first_component s)) by done.
  rewrite IH by (by apply N.div_lt). cbn [first_component].
  by destruct (pretty_N_char_digit (x `mod` 10)%N) as (_ & _ & -> & _);
    [apply N.mod_lt|].
Qed.

(** The text of a positive number starts with a digit. *)
Lemma pretty_N_go_head (x : N) (s : string) :
  (0 < x)%N ->
  exists d rest, (d < 10)%N /\ pretty_N_go x s = String (pretty_N_char d) rest.
Proof.
  revert s. induction (N.lt_wf_0 x) as [x _ IH]; intros s Hpos.
  rewrite pretty_N_go_step by done.
  destruct (N.eq_0_gt_0_cases (x `div` 10)) as [->|Hdiv].
  - exists (x `mod` 10)%N, s. split; [by apply N.mod_lt|done].
  - apply IH; [by apply N.div_lt|done].
Qed.

(** [parseInt(String(n), 10)] is [n] for a natural number [n]. *)
Lemma parseInt10_pretty (n : N) : parseInt10 (pretty n) = Some (Z.of_N n).
Proof.
  unfold pretty, pretty_N. destruct (decide (n = 0)%N) as [->|Hne]; [done|].
  destruct (pretty_N_go_head n "") as (d & rest & Hd & Hhead); [lia|].
  pose proof (read_digits_pretty_N_go n "") as Hvalue. rewrite Hhead in Hvalue.
  destruct (pretty_N_char_digit d Hd) as (Hdigit & Hspace & _ & Hone).
  rewrite Hhead. unfold parseInt10. cbn [skip_white_space]. rewrite Hspace.
  cbn [read_digits] in Hvalue. rewrite Hdigit in Hvalue.
  assert (read_unsigned (String (pretty_N_char d) rest) = Some (Z.of_N n)) as Hread.
  { unfold read_unsigned. rewrite Hdigit.
    change (10 * 0 + Z.of_N d)%Z with (Z.of_N d) in Hvalue. by rewrite Hvalue. }
  revert Hread Hone. unfold parseInt10. cbn [skip_white_space]. rewrite Hspace.
  assert (d = 0 \/ d = 1 \/ d = 2 \/ d = 3 \/ d = 4 \/ d = 5 \/ d = 6 \/ d = 7
          \/ d = 8 \/ d = 9)%N as Hcases by lia.
  repeat (destruct Hcases as [->|Hcases]; [intros Hread _; exact Hread|]).
  subst d. intros Hread _. exact Hread.
Qed.

(** X9. For a version [<major>.<rest>] with a decimal major number, the
    version check ends the process with code 1 and two lines on [stderr]
    exactly when the major number is below 18, and returns silently
    otherwise; a version that is not a string ends the process; a version
    that starts with the letter [v] is not a number to [parseInt] and
    passes unchecked. *)
Theorem checkNodeVersion_major (major : N) (rest : string) :
  checkNodeVersion (Some (pretty major +:+ "." +:+ rest))
  = (if (major <? 18)%N then
       Some {| stderr_writes :=
                 ["Error: This CLI requires Node.js version 18 or higher" +:+ String newline "";
                  "Current version: " +:+ (pretty major +:+ "." +:+ rest)
                    +:+ String newline ""];
               exit_code := 1 |}
     else None)
  /\ (exists exit, checkNodeVersion None = Some exit /\ exit_code exit = 1%Z)
  /\ checkNodeVersion (Some (String "v" (pretty major +:+ "." +:+ rest))) = None.
Proof.
  split; [|split; [by eexists|reflexivity]].
  assert (first_component (pretty major +:+ "." +:+ rest) = pretty major) as Hfirst.
  { unfold pretty, pretty_N. destruct (decide (major = 0)%N); [done|].
    rewrite pretty_N_go_app, first_component_pretty_N_go. done. }
  unfold checkNodeVersion. rewrite Hfirst, parseInt10_pretty. unfold requiredMajorVersion.
  destruct (N.ltb_spec major 18) as [Hlt|Hge].
  - destruct (Z.ltb_spec (Z.of_N major) 18) as [_|Hge]; [reflexivity|lia].
  - destruct (Z.ltb_spec (Z.of_N major) 18) as [Hlt|_]; [lia|reflexivity].
Qed.

Section StartCommandProperties.

Variable jsonSchemaToZod : Json -> Thrown + string.
Variable newFunction : string -> Thrown + ZodSchema.
Variable DefaultApiFactory : option string -> option string -> RawOpenapiClient.

(** X10. When the [start] command gets past its hook, the server is
    started with the options as given, and either test mode is on or both
    engine options are non-empty strings, so that the engine client is
    built from a base path and a key that are defined. *)
Theorem start_command_engine (currentVersion : option string) (options : MCPOptions)
    (run : (Thrown + Transport) * State) :
  start_command jsonSchemaToZod newFunction DefaultApiFactory currentVersion options
  = CommandStarted run ->
  run = startMcpServer jsonSchemaToZod newFunction DefaultApiFactory options
  /\ checkNodeVersion currentVersion = None
  /\ (testMode options = Some true
      /\ select_engine DefaultApiFactory options = testEngineClient
      \/ exists basePath apiKey,
           engineBasePath options = Some basePath /\ basePath <> ""
           /\ engineApiKey options = Some apiKey /\ apiKey <> ""
           /\ select_engine DefaultApiFactory options
              = createEngineClient (DefaultApiFactory (Some basePath) (Some apiKey))).
Proof.
  unfold start_command, preAction.
  destruct (checkNodeVersion currentVersion) as [exit|]; [discriminate|].
  unfold select_engine.
  destruct (testMode options) as [[|]|]; cbn [truthy_flag nullish negb].
  - intros [= <-]. split; [done|]. split; [done|]. by left.
  - destruct (engineBasePath options) as [basePath|]; [|discriminate].
    destruct (engineApiKey options) as [apiKey|]; cbn [truthy_string];
      [|by rewrite andb_false_r].
    destruct (String.eqb_spec basePath "") as [->|HbasePath]; [discriminate|].
    destruct (String.eqb_spec apiKey "") as [->|HapiKey]; [discriminate|].
    intros [= <-]. split; [done|]. split; [done|]. right.
    by exists basePath, apiKey.
  - destruct (engineBasePath options) as [basePath|]; [|discriminate].
    destruct (engineApiKey options) as [apiKey|]; cbn [truthy_string];
      [|by rewrite andb_false_r].
    destruct (String.eqb_spec basePath "") as [->|HbasePath]; [discriminate|].
    destruct (String.eqb_spec apiKey "") as [->|HapiKey]; [discriminate|].
    intros [= <-]. split; [done|]. split; [done|]. right.
    by exists basePath, apiKey.
Qed.

End StartCommandProperties.

(** ** The validator of an endpoint parameter *)

(** X11. For a parameter whose schema is that of a well-formed supported
    shape, the registrar's validator accepts a value exactly when the
    schema declares it valid, whatever the description, and accepts a
    missing argument exactly when the parameter is optional. *)
Theorem parameter_validators (endpoint : EndpointMetadata) (paramName : string)
    (shape : Shape) (text : string) (optional : bool) :
  well_formed shape = true ->
  exists validator,
    compileParameter jsonSchemaToZod_model newFunction_model endpoint
      (paramName, {| param_description := text;
                     param_schema := Some (schema_of shape);
                     param_optional := optional |})
    = inr (paramName, validator)
    /\ (forall value, safeParse validator (Some value) = valid shape value)
    /\ safeParse validator None = optional.
Proof.
  intros Hwf. unfold compileParameter. cbn [param_schema param_optional param_description].
  rewrite schema_of_truthy.
  pose proof (compile_schema_of shape Hwf) as Hcompile. unfold compile in Hcompile.
  rewrite Hcompile. eexists. split; [reflexivity|]. split.
  - intros value. destruct optional; cbn [safeParse]; apply safeParse_zod_of.
  - destruct optional; cbn [safeParse]; [done|]. apply safeParse_zod_of_undefined.
Qed.

(** ** The compiler on schemas with alternatives *)

Lemma strip_prefix_length (p s rest : string) :
  strip_prefix p s = Some rest -> String.length s = String.length p + String.length rest.
Proof.
  revert s. induction p as [|a p IH]; intros s.
  - by intros [= ->].
  - destruct s as [|b s]; cbn [strip_prefix]; [done|].
    destruct (Ascii.eqb a b); [|done]. intros H. apply IH in H. simpl. lia.
Qed.

Lemma occurs_length (p s : string) :
  occurs p s = true -> String.length p <= String.length s.
Proof.
  induction s as [|c s IH]; cbn [occurs].
  - destruct (strip_prefix p "") eqn:Hp; [|done]. intros _.
    apply strip_prefix_length in Hp. simpl in *. lia.
  - destruct (strip_prefix p (String c s)) eqn:Hp.
    + intros _. apply strip_prefix_length in Hp. lia.
    + intros H. specialize (IH H). simpl. lia.
Qed.

(** A match that starts in [a] needs only a short text after [a]. *)
Lemma strip_prefix_short (a p r t : string) :
  strip_prefix p (a +:+ r) = Some t ->
  exists r' t',
    strip_prefix p (a +:+ r') = Some t'
    /\ String.length r' <= String.length p - String.length a.
Proof.
  revert p. induction a as [|c a IH]; intros p Hmatch.
  - exists p, "". split; [|simpl; lia].
    pose proof (strip_prefix_app p "") as Hp. by rewrite string_app_nil_r in Hp.
  - destruct p as [|d p].
    + exists "", (String c a +:+ ""). split; [done|simpl; lia].
    + rewrite string_app_cons in Hmatch. cbn [strip_prefix] in Hmatch.
      destruct (Ascii.eqb d c) eqn:Hdc; [|done].
      destruct (IH p Hmatch) as (r' & t' & Hr' & Hlen).
      exists r', t'. split; [|simpl; lia].
      rewrite string_app_cons. cbn [strip_prefix]. by rewrite Hdc.
Qed.

Lemma annotation_skipped_start (c : ascii) (a rest : string) :
  annotation_skipped (String c a) ->
  strip_prefix tsAnnotationRegex (String c a +:+ rest) = None.
Proof.
  intros Hskip. destruct (strip_prefix _ _) as [t|] eqn:Hmatch; [|done]. exfalso.
  destruct (strip_prefix_short _ _ _ _ Hmatch) as (r' & t' & Hr' & Hlen).
  specialize (Hskip r'). rewrite string_app_cons in Hskip, Hr'.
  cbn [occurs] in Hskip. rewrite Hr' in Hskip. symmetry in Hskip.
  apply occurs_length in Hskip. simpl in Hskip, Hlen. lia.
Qed.

Lemma annotation_skipped_tail (c : ascii) (a : string) :
  annotation_skipped (String c a) -> annotation_skipped a.
Proof.
  intros Hskip rest. rewrite <- (Hskip rest). rewrite string_app_cons.
  cbn [occurs]. rewrite <- string_app_cons.
  by rewrite (annotation_skipped_start c a rest Hskip).
Qed.

(** The replacement passes over a text in which no annotation starts. *)
Lemma replace_first_skipped (a rest : string) :
  annotation_skipped a ->
  replace_first tsAnnotationRegex (a +:+ rest)
  = a +:+ replace_first tsAnnotationRegex rest.
Proof.
  induction a as [|c a IH]; intros Hskip; [done|].
  pose proof (annotation_skipped_start c a rest Hskip) as Hstart.
  rewrite string_app_cons in Hstart. rewrite !string_app_cons.
  cbn [replace_first]. rewrite Hstart.
  by rewrite (IH (annotation_skipped_tail c a Hskip)).
Qed.

Lemma annotation_skipped_app (a b : string) :
  annotation_skipped a -> annotation_skipped b -> annotation_skipped (a +:+ b).
Proof. intros Ha Hb rest. by rewrite string_app_assoc, Ha, Hb. Qed.

Lemma annotation_skipped_lt_free (a : string) : lt_free a = true -> annotation_skipped a.
Proof. intros Hfree rest. unfold tsAnnotationRegex. by apply occurs_lt_free. Qed.

Lemma annotation_skipped_join (text : list string) :
  Forall annotation_skipped text -> annotation_skipped (join ", " text).
Proof.
  induction 1 as [|a text Ha Htext IH]; [by apply annotation_skipped_lt_free|].
  destruct text as [|b text]; [exact Ha|].
  change (join ", " (a :: b :: text)) with (a +:+ ", " +:+ join ", " (b :: text)).
  apply annotation_skipped_app; [exact Ha|].
  apply annotation_skipped_app; [by apply annotation_skipped_lt_free|exact IH].
Qed.

Lemma annotation_skipped_shapes (shapes : list Shape) :
  forallb well_formed shapes = true -> Forall annotation_skipped (map expr_of shapes).
Proof.
  intros Hwf. apply Forall_map, Forall_forall. intros shape Hin rest.
  apply occurs_after_expr_of. rewrite forallb_forall in Hwf.
  by apply Hwf, list_elem_of_In.
Qed.

(** Removing the annotation from the text of alternatives in which no
    annotation starts. *)
Lemma replace_first_oneOf (alternatives : list string) (rest : string) :
  Forall annotation_skipped alternatives ->
  replace_first tsAnnotationRegex
    (oneOf_open +:+ join ", " alternatives +:+ oneOf_middle
       +:+ "<z.ZodError[]>" +:+ oneOf_close +:+ rest)
  = oneOf_text alternatives +:+ rest.
Proof.
  intros Hskip. unfold oneOf_text.
  rewrite (replace_first_skipped oneOf_open) by (by apply annotation_skipped_lt_free).
  rewrite (replace_first_skipped (join ", " alternatives))
    by (by apply annotation_skipped_join).
  rewrite (replace_first_skipped oneOf_middle) by (by apply annotation_skipped_lt_free).
  change (replace_first tsAnnotationRegex ("<z.ZodError[]>" +:+ oneOf_close +:+ rest))
    with (oneOf_close +:+ rest).
  by rewrite !string_app_assoc.
Qed.

Lemma fuel_of_positive (shape : Shape) : 1 <= fuel_of shape.
Proof. destruct shape; simpl; lia. Qed.

Lemma shapes_fuel (shapes : list Shape) :
  length shapes <= String.length (join ", " (map expr_of shapes))
  /\ forall shape, shape ∈ shapes ->
       fuel_of shape <= String.length (join ", " (map expr_of shapes)).
Proof.
  pose proof (join_length ", " (map expr_of shapes)) as Hjoin. rewrite map_map in Hjoin.
  assert (forall shape, shape ∈ shapes ->
            fuel_of shape <= list_sum (map (fun x => String.length (expr_of x)) shapes))
    as Heach.
  { clear. induction shapes as [|x shapes IH]; intros shape Hin.
    - by apply elem_of_nil in Hin.
    - simpl. pose proof (fuel_of_length x).
      apply elem_of_cons in Hin as [->|Hin]; [lia|]. specialize (IH _ Hin). lia. }
  split.
  - assert (length shapes <= list_sum (map (fun x => String.length (expr_of x)) shapes));
      [|lia].
    clear. induction shapes as [|x shapes IH]; [done|]. simpl.
    pose proof (fuel_of_length x). pose proof (fuel_of_positive x). lia.
  - intros shape Hin. specialize (Heach _ Hin). lia.
Qed.

(** The text of alternatives that are shapes evaluates to the validator
    that wants exactly one of them to pass. *)
Lemma eval_expr_oneOf (shapes : list Shape) (fuel : nat) (rest : string) :
  shapes <> [] ->
  forallb well_formed shapes = true ->
  length shapes <= fuel ->
  (forall shape, shape ∈ shapes -> fuel_of shape <= fuel) ->
  eval_expr (S fuel) (oneOf_text (map expr_of shapes) +:+ rest)
  = Some (ZodOneOf (map zod_of shapes), rest).
Proof.
  intros Hne Hwf Hlen Hfuel. unfold oneOf_text. rewrite !string_app_assoc.
  cbn [eval_expr]. rewrite strip_prefix_app.
  rewrite (read_list_join (eval_expr fuel) ", " expr_of zod_of ends_expression shapes).
  - unfold expect. by rewrite !strip_prefix_app.
  - done.
  - done.
  - intros shape r Hin Hr. apply eval_expr_expr_of; [|by apply Hfuel|done].
    rewrite forallb_forall in Hwf. by apply Hwf, list_elem_of_In.
  - done.
  - reflexivity.
  - reflexivity.
Qed.

Lemma parseSchema_shapes (shapes : list Shape) :
  forallb well_formed shapes = true ->
  sequence_results (map parseSchema (map schema_of shapes)) = inr (map expr_of shapes).
Proof.
  unfold sequence_results. induction shapes as [|shape shapes IH]; [done|].
  cbn [forallb map map_throwing]. intros Hwf. apply andb_true_iff in Hwf as [Hshape Hwf].
  by rewrite parseSchema_schema_of, IH.
Qed.

Lemma parseSchema_oneOf (alternatives : list Json) :
  parseSchema (oneOf_schema alternatives)
  = match sequence_results (map parseSchema alternatives) with
    | inl e => inl e
    | inr [] => inr "z.any()"
    | inr [single] => inr single
    | inr texts =>
        inr (oneOf_open +:+ join ", " texts +:+ oneOf_middle
               +:+ "<z.ZodError[]>" +:+ oneOf_close)
    end.
Proof. reflexivity. Qed.

Lemma filter_length_map {A B : Type} (f : B -> bool) (g : A -> B) (l : list A) :
  length (List.filter f (map g l)) = length (List.filter (fun a => f (g a)) l).
Proof.
  induction l as [|a l IH]; [done|]. cbn [map List.filter].
  destruct (f (g a)); cbn [length]; by rewrite IH.
Qed.

Lemma filter_pointwise {A : Type} (f g : A -> bool) (l : list A) :
  (forall a, f a = g a) -> List.filter f l = List.filter g l.
Proof.
  intros Hfg. induction l as [|a l IH]; [done|]. cbn [List.filter].
  by rewrite Hfg, IH.
Qed.

(** X12. A schema that offers two or more alternatives, each the schema of
    a well-formed supported shape, compiles: the one annotation in the
    generated text is removed, and the validator accepts a value exactly
    when the value is valid for exactly one of the alternatives. *)
Theorem oneOf_of_supported_shapes (shapes : list Shape) :
  2 <= length shapes ->
  forallb well_formed shapes = true ->
  exists validator,
    compile (oneOf_schema (map schema_of shapes)) = inr validator
    /\ forall value,
         safeParse validator (Some value)
         = Nat.eqb (length (List.filter (fun shape => valid shape value) shapes)) 1.
Proof.
  intros Hlen Hwf. exists (ZodOneOf (map zod_of shapes)). split.
  - unfold compile, getZodSchemaFromJsonSchema, jsonSchemaToZod_model.
    destruct shapes as [|first [|second shapes]]; [simpl in Hlen; lia..|].
    rewrite parseSchema_oneOf, parseSchema_shapes by done. cbn [map].
    change (expr_of first :: expr_of second :: map expr_of shapes)
      with (map expr_of (first :: second :: shapes)).
    remember (first :: second :: shapes) as all eqn:Hall.
    pose proof (replace_first_oneOf (map expr_of all) ""
                  (annotation_skipped_shapes all Hwf)) as Hreplace.
    rewrite !string_app_nil_r in Hreplace. rewrite Hreplace.
    unfold newFunction_model. rewrite strip_prefix_app.
    destruct (shapes_fuel all) as [Hcount Heach].
    assert (exists fuel,
              String.length (oneOf_text (map expr_of all) +:+ ";") = S fuel
              /\ String.length (join ", " (map expr_of all)) <= fuel) as (fuel & -> & Hfuel).
    { unfold oneOf_text. rewrite !string_length_app.
      destruct (String.length oneOf_open) as [|n] eqn:Hopen; [by vm_compute in Hopen|].
      eexists (n + _ + _). split; [reflexivity|]. lia. }
    rewrite eval_expr_oneOf; [by rewrite Hall|by rewrite Hall|done|lia|].
    intros shape Hin. specialize (Heach shape Hin). lia.
  - intros value. cbn [safeParse]. rewrite filter_length_map.
    f_equal. f_equal. apply filter_pointwise. intros shape. apply safeParse_zod_of.
Qed.

Lemma join_cons (sep first : string) (others : list string) :
  others <> [] -> join sep (first :: others) = first +:+ sep +:+ join sep others.
Proof. by destruct others. Qed.

Lemma parseSchema_alternatives (alternatives : list Alternative) :
  forallb alternative_ok alternatives = true ->
  sequence_results (map parseSchema (map alternative_schema alternatives))
  = inr (map alternative_emitted alternatives).
Proof.
  unfold sequence_results.
  induction alternatives as [|alternative alternatives IH]; [done|].
  cbn [forallb map map_throwing]. intros Hok. apply andb_true_iff in Hok as [Hfirst Hok].
  rewrite IH by done.
  destruct alternative as [shape|shapes]; cbn [alternative_schema alternative_emitted].
  - by rewrite parseSchema_schema_of.
  - cbn [alternative_ok] in Hfirst. apply andb_true_iff in Hfirst as [Hlen Hwf].
    apply Nat.leb_le in Hlen.
    rewrite parseSchema_oneOf, parseSchema_shapes by done.
    destruct shapes as [|first [|second shapes]]; [simpl in Hlen; lia..|]. reflexivity.
Qed.

Lemma parseSchema_oneOf_texts (alternatives : list Json) (texts : list string) :
  sequence_results (map parseSchema alternatives) = inr texts ->
  2 <= length texts ->
  parseSchema (oneOf_schema alternatives)
  = inr (oneOf_open +:+ join ", " texts +:+ oneOf_middle
           +:+ "<z.ZodError[]>" +:+ oneOf_close).
Proof.
  intros Htexts Hlen. rewrite parseSchema_oneOf, Htexts.
  destruct texts as [|first [|second texts]]; [simpl in Hlen; lia..|]. reflexivity.
Qed.

(** The replacement changes the first text of a list that holds an
    annotation and nothing else. *)
Lemma replace_first_join (before : list string) (text text' : string)
    (after : list string) (rest : string) :
  Forall annotation_skipped before ->
  (forall r, replace_first tsAnnotationRegex (text +:+ r) = text' +:+ r) ->
  replace_first tsAnnotationRegex (join ", " (before ++ text :: after) +:+ rest)
  = join ", " (before ++ text' :: after) +:+ rest.
Proof.
  intros Hskip Htext. induction Hskip as [|first before Hfirst Hbefore IH].
  - cbn [app]. destruct after as [|next after]; [apply Htext|].
    rewrite (join_cons ", " text), (join_cons ", " text') by done.
    rewrite !string_app_assoc. apply Htext.
  - cbn [app].
    rewrite (join_cons ", " first (before ++ text :: after)),
      (join_cons ", " first (before ++ text' :: after)) by (by destruct before).
    rewrite !string_app_assoc.
    rewrite (replace_first_skipped first) by done.
    rewrite (replace_first_skipped ", ") by (by apply annotation_skipped_lt_free).
    by rewrite IH.
Qed.

Lemma text_length_in_join (sep text : string) (parts : list string) :
  text ∈ parts -> String.length text <= String.length (join sep parts).
Proof.
  intros Hin. pose proof (join_length sep parts) as Hjoin.
  assert (String.length text <= list_sum (map String.length parts)); [|lia].
  clear Hjoin. induction parts as [|part parts IH]; [by apply elem_of_nil in Hin|].
  simpl. apply elem_of_cons in Hin as [->|Hin]; [lia|]. specialize (IH Hin). lia.
Qed.

Lemma parts_count_in_join (sep : string) (parts : list string) :
  Forall (fun part => 1 <= String.length part) parts ->
  length parts <= String.length (join sep parts).
Proof.
  intros Hparts. pose proof (join_length sep parts) as Hjoin.
  assert (length parts <= list_sum (map String.length parts)); [|lia].
  clear Hjoin. induction Hparts as [|part parts Hpart Hparts IH]; [done|]. simpl. lia.
Qed.

Lemma alternative_text_length (alternative : Alternative) :
  1 <= String.length (alternative_text alternative).
Proof.
  destruct alternative as [shape|shapes]; cbn [alternative_text].
  - pose proof (fuel_of_length shape). pose proof (fuel_of_positive shape). lia.
  - unfold oneOf_text. rewrite string_length_app.
    assert (1 <= String.length oneOf_open) by (vm_compute; lia). lia.
Qed.

(** The text of an alternative reads back, with fuel above the length of
    the text. *)
Lemma eval_expr_alternative (alternative : Alternative) (fuel : nat) (rest : string) :
  alternative_ok alternative = true ->
  String.length (alternative_text alternative) <= fuel ->
  ends_expression rest ->
  eval_expr fuel (alternative_text alternative +:+ rest)
  = Some (alternative_zod alternative, rest).
Proof.
  intros Hok Hfuel Hrest. destruct alternative as [shape|shapes];
    cbn [alternative_ok alternative_text alternative_zod] in *.
  - apply eval_expr_expr_of; [done| |done]. pose proof (fuel_of_length shape). lia.
  - apply andb_true_iff in Hok as [Hlen Hwf]. apply Nat.leb_le in Hlen.
    destruct (shapes_fuel shapes) as [Hcount Heach].
    unfold oneOf_text in Hfuel. rewrite !string_length_app in Hfuel.
    destruct (String.length oneOf_open) as [|n] eqn:Hopen; [by vm_compute in Hopen|].
    destruct fuel as [|fuel]; [simpl in Hfuel; lia|].
    apply eval_expr_oneOf; [|done|simpl in Hfuel; lia|].
    + intros ->. simpl in Hlen. lia.
    + intros shape Hin. specialize (Heach shape Hin). simpl in Hfuel. lia.
Qed.

(** X13. A schema with alternatives, one of which has two or more
    alternatives of its own, does not compile: the replacement removes the
    annotation of the inner alternatives only, the one of the outer
    alternatives stays in the text, and evaluating the text throws a
    [SyntaxError] with some message, without a cause and without the
    schema (not an error named [ZodSchemaConversionError]). *)
Theorem nested_oneOf_is_not_compiled (before inner after : list Shape) :
  2 <= length inner ->
  before ++ after <> [] ->
  forallb well_formed (before ++ inner ++ after) = true ->
  exists message,
    compile
      (oneOf_schema
         (map schema_of before ++ oneOf_schema (map schema_of inner) :: map schema_of after))
    = inl (ThrownError "SyntaxError" message None None).
Proof.
  intros Hlen Hothers Hwf. exists "Unexpected token ']'". fold syntax_error.
  rewrite !forallb_app in Hwf. apply andb_true_iff in Hwf as [Hbefore Hwf].
  apply andb_true_iff in Hwf as [Hinner Hafter].
  set (alternatives := map Plain before ++ Nested inner :: map Plain after).
  assert (map schema_of before ++ oneOf_schema (map schema_of inner) :: map schema_of after
          = map alternative_schema alternatives) as ->.
  { unfold alternatives. rewrite map_app. cbn [map]. rewrite !map_map. reflexivity. }
  assert (forallb alternative_ok alternatives = true) as Hok.
  { assert (forall shapes, forallb alternative_ok (map Plain shapes)
                           = forallb well_formed shapes) as Hplain.
    { intros shapes. by rewrite forallb_over_map. }
    unfold alternatives. rewrite forallb_app. cbn [forallb alternative_ok].
    rewrite !Hplain, Hbefore, Hinner, Hafter. by apply Nat.leb_le in Hlen as ->. }
  assert (2 <= length alternatives) as Hcount.
  { unfold alternatives. rewrite length_app. cbn [length]. rewrite !length_map.
    destruct before, after; simpl; try lia. by destruct Hothers. }
  unfold compile, getZodSchemaFromJsonSchema, jsonSchemaToZod_model.
  rewrite (parseSchema_oneOf_texts _ (map alternative_emitted alternatives))
    by (by rewrite ?length_map; auto using parseSchema_alternatives).
  assert (replace_first tsAnnotationRegex
            (oneOf_open +:+ join ", " (map alternative_emitted alternatives)
               +:+ oneOf_middle +:+ "<z.ZodError[]>" +:+ oneOf_close)
          = oneOf_open +:+ join ", " (map alternative_text alternatives)
              +:+ oneOf_middle +:+ "<z.ZodError[]>" +:+ oneOf_close) as ->.
  { rewrite (replace_first_skipped oneOf_open) by (by apply annotation_skipped_lt_free).
    f_equal.
    assert (forall shapes, map alternative_emitted (map Plain shapes) = map expr_of shapes)
      as Hemitted by (intros shapes; by rewrite map_map).
    assert (forall shapes, map alternative_text (map Plain shapes) = map expr_of shapes)
      as Htext by (intros shapes; by rewrite map_map).
    unfold alternatives. rewrite !map_app. cbn [map]. rewrite !Hemitted, !Htext.
    apply replace_first_join.
    - by apply annotation_skipped_shapes.
    - intros r. cbn [alternative_emitted alternative_text].
      pose proof (replace_first_oneOf (map expr_of inner) r
                    (annotation_skipped_shapes inner Hinner)) as Hreplace.
      by rewrite !string_app_assoc in *. }
  unfold newFunction_model. rewrite strip_prefix_app, !string_app_assoc.
  destruct (String.length _) as [|fuel] eqn:Hfuel; [done|].
  rewrite !string_length_app in Hfuel.
  cbn [eval_expr]. rewrite strip_prefix_app.
  rewrite (read_list_join (eval_expr fuel) ", " alternative_text alternative_zod
             ends_expression alternatives).
  - reflexivity.
  - intros Hnil. rewrite Hnil in Hcount. simpl in Hcount. lia.
  - assert (length alternatives
            <= String.length (join ", " (map alternative_text alternatives))).
    { rewrite <- (length_map alternative_text). apply parts_count_in_join.
      apply Forall_map, Forall_forall. intros alternative _.
      apply alternative_text_length. }
    destruct (String.length oneOf_open) as [|n] eqn:Hopen; [by vm_compute in Hopen|].
    simpl in Hfuel. lia.
  - intros alternative r Hin Hr. apply eval_expr_alternative; [|  |done].
    + rewrite forallb_forall in Hok. by apply Hok, list_elem_of_In.
    + assert (String.length (alternative_text alternative)
              <= String.length (join ", " (map alternative_text alternatives))).
      { apply text_length_in_join, list_elem_of_fmap. by exists alternative. }
      destruct (String.length oneOf_open) as [|n] eqn:Hopen; [by vm_compute in Hopen|].
      simpl in Hfuel. lia.
  - done.
  - reflexivity.
  - reflexivity.
Qed.

(** ** The further theorems at sample values *)

Lemma session_routing_at_samples :
  post_messages (sse_run sample_session_history) (QueryString "s2")
  = HandledBy {| sessionId := "s2" |}
  /\ post_messages (sse_run sample_session_history) (QueryString "s1") = invalid_sessionId.
Proof.
  split.
  - apply (session_routing sample_session_history "s2").
    repeat constructor; discriminate.
  - apply (session_routing sample_session_history "s1").
    repeat constructor; discriminate.
Defined.

Lemma registered_tools_answer_json_at_samples :
  exists value, json_content (JObj [("ok", JBool true)]) = json_text_result value.
Proof.
  apply (proj2 (proj2 (registered_tools_answer_json jsonSchemaToZod_model newFunction_model
                         (sample_factory []) sample_test_options))
           "system_get_status" (system_get_status testEngineClient) []).
  - repeat constructor.
  - reflexivity.
Defined.

Lemma test_mode_startup_at_samples :
  exists st,
    startMcpServer jsonSchemaToZod_model newFunction_model offline_factory
      sample_test_options
    = (inr Stdio, st)
    /\ engine_calls st = [CallGetEndpoints]
    /\ tool_names st = builtin_names ++ ["query_test"].
Proof.
  destruct (test_mode_startup jsonSchemaToZod_model newFunction_model offline_factory
              sample_test_options eq_refl eq_refl) as (st & Hrun & Hcalls & Htools).
  exists st. split; [exact Hrun|]. split; [exact Hcalls|].
  unfold tool_names. rewrite Htools. reflexivity.
Defined.

Lemma endpoint_fetch_failure_at_samples :
  exists e,
    (startMcpServer jsonSchemaToZod_model newFunction_model offline_factory
       sample_options).1
    = inl (ThrownEngineCallError e)
    /\ ece_status e = Some 503%Z.
Proof.
  eexists. split.
  - rewrite (endpoint_fetch_failure jsonSchemaToZod_model newFunction_model offline_factory
               sample_options (ThrownAxiosError sample_text_error));
      [reflexivity|discriminate|reflexivity|reflexivity].
  - reflexivity.
Defined.

Lemma start_command_engine_at_samples :
  checkNodeVersion (Some "22.4.1") = None
  /\ select_engine (sample_factory []) sample_options
     = createEngineClient (sample_factory [] (Some "https://engine.example") (Some "key")).
Proof.
  destruct (start_command_engine jsonSchemaToZod_model newFunction_model (sample_factory [])
              (Some "22.4.1") sample_options _ eq_refl)
    as (_ & Hversion & [[Htest _]|(basePath & apiKey & _ & _ & _ & _ & Hengine)]).
  - discriminate Htest.
  - split; [exact Hversion|reflexivity].
Defined.

Lemma parameter_validators_at_samples :
  exists validator,
    compileParameter jsonSchemaToZod_model newFunction_model cars_endpoint
      ("owner", {| param_description := "Owner";
                   param_schema := Some (schema_of person_shape);
                   param_optional := true |})
    = inr ("owner", validator)
    /\ safeParse validator None = true.
Proof.
  assert (well_formed person_shape = true) as Hwf by (vm_compute; reflexivity).
  destruct (parameter_validators cars_endpoint "owner" person_shape "Owner" true Hwf)
    as (validator & Hcompile & _ & Hmissing).
  exists validator. split; [exact Hcompile|exact Hmissing].
Defined.

Lemma oneOf_of_supported_shapes_at_samples :
  exists validator,
    compile (oneOf_schema [schema_of SString; schema_of person_shape]) = inr validator
    /\ safeParse validator (Some (JStr "a")) = true
    /\ safeParse validator (Some (JNum 1)) = false.
Proof.
  destruct (oneOf_of_supported_shapes [SString; person_shape])
    as (validator & Hcompile & Hparse); [simpl; lia|vm_compute; reflexivity|].
  exists validator. split; [exact Hcompile|]. rewrite !Hparse.
  split; vm_compute; reflexivity.
Defined.

Lemma nested_oneOf_is_not_compiled_at_samples :
  exists message,
    compile
      (oneOf_schema
         [schema_of SString; oneOf_schema [schema_of SNumber; schema_of SBoolean]])
    = inl (ThrownError "SyntaxError" message None None).
Proof.
  apply (nested_oneOf_is_not_compiled [SString] [SNumber; SBoolean] []);
    [simpl; lia|discriminate|reflexivity].
Defined.
